(** * Optimistic money-request engine: patch sets and their reconciliation

    A shallow embedding of the money-request actions of the application
    (request, split, edit, delete, approve, submit) together with the
    key-value store their three patch lists are applied to.

    JavaScript objects are finite maps from property names to values,
    the store is a finite map from keys to documents, and every patch
    list is an ordinary list folded over the store. *)

From stdpp Require Import gmap strings list fin_maps pretty.
From Stdlib Require Import ZArith Lia.

(* ===================================================================== *)
(** ** JavaScript values *)
(* ===================================================================== *)

(** Numbers are the integers the money code works with (amounts and totals
    in minor currency units, counters, state numbers); [VNaN] is what
    arithmetic on a non-number gives. *)
#[warnings="-register-all"]
Inductive jsval :=
| VUndefined
| VNull
| VNaN
| VBool (b : bool)
| VNum (z : Z)
| VStr (s : string)
| VArr (l : list jsval)
| VObj (o : gmap string jsval).

(** The own properties of a value: those of an object, none otherwise. *)
Definition fields (v : jsval) : gmap string jsval :=
  match v with VObj o => o | _ => ∅ end.

(** [v.k]: a missing property reads as [undefined].  Reading a property of
    [undefined] or [null] throws in JavaScript: where an action reads a
    property of a document it fetched from the store, the model goes
    through [deref] below; the arguments the callers construct are
    objects. *)
Definition get (v : jsval) (k : string) : jsval :=
  default VUndefined (fields v !! k).

(** A value whose properties can be read; [None] stands for the
    [TypeError] of the source. *)
Definition deref (v : jsval) : option jsval :=
  match v with VUndefined | VNull => None | _ => Some v end.

(** [v[i]] on an array. *)
Definition getIndex (v : jsval) (i : nat) : jsval :=
  match v with VArr l => default VUndefined (l !! i) | _ => VUndefined end.

(** [lodashGet(v, k, d)] *)
Definition lodashGet (v : jsval) (k : string) (d : jsval) : jsval :=
  match get v k with VUndefined => d | x => x end.

Definition truthy (v : jsval) : bool :=
  match v with
  | VUndefined | VNull | VNaN => false
  | VBool b => b
  | VNum z => negb (z =? 0)%Z
  | VStr s => negb (String.eqb s "")
  | VArr _ | VObj _ => true
  end.

(** [a || b] and [a && b] *)
Definition jsOr (a b : jsval) : jsval := if truthy a then a else b.
Definition jsAnd (a b : jsval) : jsval := if truthy a then b else a.

(** [a === b].  Objects and arrays compare by reference in JavaScript; the
    comparisons of the source are all between strings, numbers, booleans
    and [undefined], and two objects are modelled as never identical. *)
Definition strictEq (a b : jsval) : bool :=
  match a, b with
  | VUndefined, VUndefined => true
  | VNull, VNull => true
  | VBool x, VBool y => Bool.eqb x y
  | VNum x, VNum y => (x =? y)%Z
  | VStr x, VStr y => String.eqb x y
  | _, _ => false
  end.

(** Arithmetic on numbers; any other operand gives [NaN] (coercion of
    strings to numbers is not used by the money code). *)
Definition jsAdd (a b : jsval) : jsval :=
  match a, b with VNum x, VNum y => VNum (x + y) | _, _ => VNaN end.
Definition jsSub (a b : jsval) : jsval :=
  match a, b with VNum x, VNum y => VNum (x - y) | _, _ => VNaN end.
Definition jsNeg (a : jsval) : jsval :=
  match a with VNum x => VNum (- x) | _ => VNaN end.
(** [a > b] *)
Definition jsGt (a b : jsval) : bool :=
  match a, b with VNum x, VNum y => (y <? x)%Z | _, _ => false end.

(** String conversion, as done by template literals and computed property
    names. *)
Fixpoint toString (v : jsval) : string :=
  match v with
  | VUndefined => "undefined"
  | VNull => "null"
  | VNaN => "NaN"
  | VBool true => "true"
  | VBool false => "false"
  | VNum z => pretty z
  | VStr s => s
  | VArr l => String.concat "," (map toString l)
  | VObj _ => "[object Object]"
  end.

(** [_.isEmpty] *)
Definition isEmpty (v : jsval) : bool :=
  match v with
  | VObj o => bool_decide (o = ∅)
  | VArr l => match l with [] => true | _ => false end
  | VStr s => String.eqb s ""
  | _ => true
  end.

(** Object literals.  A literal is a sequence of properties and spreads,
    evaluated left to right, later entries overriding earlier ones. *)
Inductive part :=
| Field (k : string) (v : jsval)
| Spread (v : jsval).

Definition addPart (o : gmap string jsval) (p : part) : gmap string jsval :=
  match p with
  | Field k v => <[k := v]> o
  | Spread v => fields v ∪ o
  end.

Definition objLit (ps : list part) : jsval := VObj (foldl addPart ∅ ps).

(** [o.k = v] on a copy of [o]. *)
Definition setField (o : jsval) (k : string) (v : jsval) : jsval :=
  VObj (<[k := v]> (fields o)).

(** [a[i] = v] on a copy of the array [a]. *)
Definition setIndex (a : jsval) (i : nat) (v : jsval) : jsval :=
  match a with VArr l => VArr (<[i := v]> l) | _ => a end.

(** A value that a merge writes as it is: a boolean, number, string or
    array. *)
Definition isAtom (v : jsval) : bool :=
  match v with
  | VBool _ | VNum _ | VStr _ | VArr _ | VNaN => true
  | VUndefined | VNull | VObj _ => false
  end.

(* ===================================================================== *)
(** ** The key-value store and its patch operations *)
(* ===================================================================== *)

(** A key is a collection and the identifier of a member
    ([`${ONYXKEYS.COLLECTION.REPORT}${reportID}`]).  The string prefixes of
    the collections are declared outside the files at hand; what the
    patches rely on is only that two collections never share a key. *)
Inductive collection :=
| REPORT
| REPORT_ACTIONS
| TRANSACTION
| TRANSACTION_DRAFT
| TRANSACTION_VIOLATIONS
| POLICY_RECENTLY_USED_CATEGORIES
| POLICY_RECENTLY_USED_TAGS
| NEXT_STEP
| PERSONAL_DETAILS_LIST.

#[global] Instance collection_eq_dec : EqDecision collection.
Proof. solve_decision. Defined.

Definition collection_to_nat (c : collection) : nat :=
  match c with
  | REPORT => 0 | REPORT_ACTIONS => 1 | TRANSACTION => 2
  | TRANSACTION_DRAFT => 3 | TRANSACTION_VIOLATIONS => 4
  | POLICY_RECENTLY_USED_CATEGORIES => 5 | POLICY_RECENTLY_USED_TAGS => 6
  | NEXT_STEP => 7 | PERSONAL_DETAILS_LIST => 8
  end.

Definition collection_of_nat (n : nat) : collection :=
  match n with
  | 0 => REPORT | 1 => REPORT_ACTIONS | 2 => TRANSACTION
  | 3 => TRANSACTION_DRAFT | 4 => TRANSACTION_VIOLATIONS
  | 5 => POLICY_RECENTLY_USED_CATEGORIES | 6 => POLICY_RECENTLY_USED_TAGS
  | 7 => NEXT_STEP | _ => PERSONAL_DETAILS_LIST
  end.

#[global] Instance collection_countable : Countable collection.
Proof.
  refine (inj_countable' collection_to_nat collection_of_nat _).
  intros c; destruct c; reflexivity.
Defined.

Abbreviation onyxKey := (collection * string)%type.

Abbreviation store := (gmap onyxKey jsval).

(** [`${collection}${id}`] *)
Definition keyOf (c : collection) (id : jsval) : onyxKey := (c, toString id).

(** The document under a key, [undefined] when there is none. *)
Definition doc (s : store) (k : onyxKey) : jsval := default VUndefined (s !! k).

Inductive method := SET | MERGE.

Record OnyxUpdate := {
  onyxMethod : method;
  key : onyxKey;
  value : jsval
}.

(** Modelled from the spec: the merge primitive of the external store
    (section 6: recursive merge of a partial value; a [null] leaf clears a
    field; an omitted key leaves the existing value untouched).  A property
    whose value is [undefined] counts as omitted; an object is merged into
    the object already there, any other value replaces what was there. *)
Fixpoint fastMerge (source : jsval) : jsval -> jsval :=
  match source with
  | VObj so => fun target =>
      VObj (merge
              (fun (old : option jsval) (upd : option (option jsval -> option jsval)) =>
                 match upd with None => old | Some f => f old end)
              (fields target)
              ((fun sv (old : option jsval) =>
                  match sv with
                  | VUndefined => old
                  | VNull => None
                  | VObj _ => Some (fastMerge sv (default VUndefined old))
                  | _ => Some sv
                  end) <$> so))
  | _ => fun _ => source
  end.

(** Modelled from the spec: the three patch operations of the external
    store (section 6): [Replace(key, value)] is a full overwrite,
    [Delete(key)] is [Replace(key, null)], and the merge of a [null] value
    clears the document. *)
Definition applyUpdate (s : store) (u : OnyxUpdate) : store :=
  match onyxMethod u, value u with
  | SET, (VNull | VUndefined) => delete (key u) s
  | SET, v => <[key u := v]> s
  | MERGE, VNull => delete (key u) s
  | MERGE, VUndefined => s
  | MERGE, v => <[key u := fastMerge v (doc s (key u))]> s
  end.

Definition applyUpdates (s : store) (us : list OnyxUpdate) : store :=
  foldl applyUpdate s us.

(* ===================================================================== *)
(** ** What the money-request actions import *)
(* ===================================================================== *)

(** The constants and helper modules the actions import are declared in
    other files; they are taken as parameters, under the names the source
    gives them.  Helpers that read the module-level caches of the store
    ([allReports], [allReportActions], ...) take the store; the clock and
    the random identifiers behind the builders are part of the parameter. *)
Record Externals := {
  (* CONST *)
  CONST_PENDING_ACTION_ADD : jsval;
  CONST_PENDING_ACTION_UPDATE : jsval;
  CONST_PENDING_ACTION_DELETE : jsval;
  CONST_IOU_RECEIPT_ERROR : jsval;
  CONST_IOU_OPTIMISTIC_TRANSACTION_ID : jsval;
  CONST_IOU_REQUEST_TYPE_DISTANCE : jsval;
  CONST_IOU_REPORT_ACTION_TYPE_CREATE : jsval;
  CONST_IOU_RECEIPT_STATE_SCANREADY : jsval;
  CONST_REPORT_STATE_NUM_OPEN : jsval;
  CONST_REPORT_STATE_NUM_SUBMITTED : jsval;
  CONST_REPORT_STATE_NUM_APPROVED : jsval;
  CONST_REPORT_STATUS_NUM_OPEN : jsval;
  CONST_REPORT_STATUS_NUM_SUBMITTED : jsval;
  CONST_REPORT_STATUS_NUM_APPROVED : jsval;
  (* the session *)
  currentUserPersonalDetails : jsval;
  betas : jsval;
  (* built-ins and utilities *)
  Number : jsval -> jsval;
  NumberUtils_rand64 : jsval;
  DateUtils_getDBTime : jsval;
  DateUtils_subtractMillisecondsFromDateTime : jsval -> jsval -> jsval;
  ErrorUtils_getMicroSecondOnyxError : jsval -> jsval;
  ErrorUtils_getMicroSecondOnyxErrorObject : jsval -> jsval;
  CurrencyUtils_convertToDisplayString : jsval -> jsval -> jsval;
  Localize_translateLocal : jsval -> jsval -> jsval;
  LocalePhoneNumber_formatPhoneNumber : jsval -> jsval;
  OptionsListUtils_addSMSDomainIfPhoneNumber : jsval -> jsval;
  UserUtils_getDefaultAvatarURL : jsval -> jsval;
  Permissions_canUseViolations : jsval -> bool;
  (* policies *)
  PolicyUtils_isPolicyAdmin : jsval -> bool;
  PolicyUtils_isPaidGroupPolicy : jsval -> bool;
  Policy_buildOptimisticPolicyRecentlyUsedCategories : jsval -> jsval -> jsval;
  Policy_buildOptimisticPolicyRecentlyUsedTags : jsval -> jsval -> jsval;
  (** [ViolationsUtils.getViolationsOnyxData]: the new value of the
      transaction's violations document, when there is one to write. *)
  ViolationsUtils_getViolationsOnyxData : list jsval -> option jsval;
  (* reports *)
  ReportUtils_getReport : store -> jsval -> jsval;
  ReportUtils_getPolicy : store -> jsval -> jsval;
  ReportUtils_getChatByParticipants : store -> jsval -> jsval;
  ReportUtils_getPersonalDetailsForAccountID : store -> jsval -> jsval;
  ReportUtils_hasIOUWaitingOnCurrentUserBankAccount : jsval -> bool;
  ReportUtils_hasNonReimbursableTransactions : store -> jsval -> bool;
  ReportUtils_isDraftExpenseReport : jsval -> bool;
  ReportUtils_isExpenseReport : jsval -> bool;
  ReportUtils_buildOptimisticChatReport : jsval -> jsval;
  ReportUtils_buildOptimisticExpenseReport : list jsval -> jsval;
  ReportUtils_buildOptimisticIOUReport : list jsval -> jsval;
  ReportUtils_buildOptimisticCreatedReportAction : list jsval -> jsval;
  ReportUtils_buildOptimisticIOUReportAction : list jsval -> jsval;
  ReportUtils_buildOptimisticModifiedExpenseReportAction : list jsval -> jsval;
  ReportUtils_buildOptimisticApprovedReportAction : list jsval -> jsval;
  ReportUtils_buildOptimisticSubmittedReportAction : list jsval -> jsval;
  ReportUtils_getIOUReportActionMessage : list jsval -> jsval;
  ReportUtils_getReportPreviewMessage : jsval -> jsval -> jsval;
  ReportUtils_getTransactionDetails : jsval -> jsval;
  IOUUtils_updateIOUOwnerAndTotal : list jsval -> jsval;
  (* report actions *)
  ReportActionsUtils_getLastVisibleAction : store -> jsval -> jsval -> jsval;
  ReportActionsUtils_getLastVisibleMessage : store -> jsval -> jsval -> jsval;
  ReportActionsUtils_isDeletedParentAction : jsval -> bool;
  (* transactions *)
  TransactionUtils_buildOptimisticTransaction : list jsval -> jsval;
  TransactionUtils_getUpdatedTransaction : list jsval -> jsval;
  TransactionUtils_getAmount : jsval -> bool -> jsval;
  TransactionUtils_getCurrency : jsval -> jsval;
  TransactionUtils_hasReceipt : jsval -> bool;
  TransactionUtils_isReceiptBeingScanned : jsval -> bool;
  TransactionUtils_isScanRequest : jsval -> bool;
  (* participants of a split *)
  ReportUtils_isPolicyExpenseChat : jsval -> bool;
  String_toLowerCase : jsval -> jsval
}.

(** The three patch lists of an action. *)
Record OnyxData := {
  optimisticData : list OnyxUpdate;
  successData : list OnyxUpdate;
  failureData : list OnyxUpdate
}.

(** [cond ? [u1; ...] : []] spliced into a list literal. *)
Definition spliceIf {A} (cond : bool) (l : list A) : list A :=
  if cond then l else [].

(** [...(cond ? {props} : {})] inside an object literal. *)
Definition SpreadIf (cond : bool) (ps : list part) : part :=
  Spread (if cond then objLit ps else objLit []).

(** [v.length] *)
Definition jsLength (v : jsval) : jsval :=
  match v with
  | VStr s => VNum (Z.of_nat (String.length s))
  | VArr l => VNum (Z.of_nat (length l))
  | _ => VUndefined
  end.

(** [_.has(v, k)] *)
Definition has (v : jsval) (k : string) : bool :=
  match fields v !! k with Some _ => true | None => false end.

(** [lodashGet(collection, key, null)] on a collection of the store. *)
Definition docOrNull (s : store) (k : onyxKey) : jsval :=
  match s !! k with Some v => v | None => VNull end.

(** [_.isNull] *)
Definition isNull (v : jsval) : bool :=
  match v with VNull => true | _ => false end.

(* ===================================================================== *)
(** ** Creating a money request *)
(* ===================================================================== *)

Section Actions.
Context (E : Externals).

Definition getReceiptError (receipt filename : jsval) (isScanRequest : bool) : jsval :=
  if isEmpty receipt || negb isScanRequest
  then ErrorUtils_getMicroSecondOnyxError E (VStr "iou.error.genericCreateFailureMessage")
  else ErrorUtils_getMicroSecondOnyxErrorObject E
         (objLit [Field "error" (CONST_IOU_RECEIPT_ERROR E);
                  Field "source" (get receipt "source");
                  Field "filename" filename]).

(** Return the object to update hasOutstandingChildRequest. *)
Definition getOutstandingChildRequest (policy needsToBeManuallySubmitted : jsval) : jsval :=
  if negb (truthy needsToBeManuallySubmitted) then
    objLit [Field "hasOutstandingChildRequest" (VBool false)]
  else if PolicyUtils_isPolicyAdmin E policy then
    objLit [Field "hasOutstandingChildRequest" (VBool true)]
  else
    (* We don't need to update hasOutstandingChildRequest in this case *)
    objLit [].

(** The [outstandingChildRequest] constant of
    [buildOnyxDataForMoneyRequest]. *)
Definition outstandingChildRequest (policy : jsval) (needsToBeManuallySubmitted : bool) : jsval :=
  getOutstandingChildRequest (VBool needsToBeManuallySubmitted) policy.

(** The value written to the chat report by the optimistic patch. *)
Definition optimisticChatReportValue (chatReport iouReport policy : jsval)
    (isNewChatReport needsToBeManuallySubmitted : bool) : jsval :=
  objLit [Spread chatReport;
          Field "lastReadTime" (DateUtils_getDBTime E);
          Field "lastMessageTranslationKey" (VStr "");
          Field "iouReportID" (get iouReport "reportID");
          Spread (outstandingChildRequest policy needsToBeManuallySubmitted);
          SpreadIf isNewChatReport
            [Field "pendingFields" (objLit [Field "createChat" (CONST_PENDING_ACTION_ADD E)])]].

(** The [optimisticData] constant of [buildOnyxDataForMoneyRequest], with
    the entries pushed for the recently used categories and tags and for
    the personal details. *)
Definition moneyRequestOptimisticData
    (chatReport iouReport transaction chatCreatedAction iouCreatedAction iouAction
     optimisticPersonalDetailListAction reportPreviewAction
     optimisticPolicyRecentlyUsedCategories optimisticPolicyRecentlyUsedTags : jsval)
    (isNewChatReport isNewIOUReport : bool) (policy : jsval)
    (needsToBeManuallySubmitted : bool) : list OnyxUpdate :=
    [ {| (* Use SET for new reports because it doesn't exist yet *)
         onyxMethod := if isNewChatReport then SET else MERGE;
         key := keyOf REPORT (get chatReport "reportID");
         value := optimisticChatReportValue chatReport iouReport policy
                    isNewChatReport needsToBeManuallySubmitted |};
      {| onyxMethod := if isNewIOUReport then SET else MERGE;
         key := keyOf REPORT (get iouReport "reportID");
         value :=
           objLit [Spread iouReport;
                   Field "lastMessageText" (get (getIndex (get iouAction "message") 0) "text");
                   Field "lastMessageHtml" (get (getIndex (get iouAction "message") 0) "html");
                   Field "pendingFields"
                     (objLit [if isNewIOUReport
                              then Field "createChat" (CONST_PENDING_ACTION_ADD E)
                              else Field "preview" (CONST_PENDING_ACTION_UPDATE E)])] |};
      {| onyxMethod := SET;
         key := keyOf TRANSACTION (get transaction "transactionID");
         value := transaction |};
      {| onyxMethod := if isNewChatReport then SET else MERGE;
         key := keyOf REPORT_ACTIONS (get chatReport "reportID");
         value :=
           objLit [SpreadIf isNewChatReport
                     [Field (toString (get chatCreatedAction "reportActionID")) chatCreatedAction];
                   Field (toString (get reportPreviewAction "reportActionID")) reportPreviewAction] |};
      {| onyxMethod := if isNewIOUReport then SET else MERGE;
         key := keyOf REPORT_ACTIONS (get iouReport "reportID");
         value :=
           objLit [SpreadIf isNewIOUReport
                     [Field (toString (get iouCreatedAction "reportActionID")) iouCreatedAction];
                   Field (toString (get iouAction "reportActionID")) iouAction] |};
      (* Remove the temporary transaction used during the creation flow *)
      {| onyxMethod := SET;
         key := keyOf TRANSACTION_DRAFT (CONST_IOU_OPTIMISTIC_TRANSACTION_ID E);
         value := VNull |} ]
    ++ spliceIf (negb (isEmpty optimisticPolicyRecentlyUsedCategories))
         [ {| onyxMethod := SET;
              key := keyOf POLICY_RECENTLY_USED_CATEGORIES (get iouReport "policyID");
              value := optimisticPolicyRecentlyUsedCategories |} ]
    ++ spliceIf (negb (isEmpty optimisticPolicyRecentlyUsedTags))
         [ {| onyxMethod := MERGE;
              key := keyOf POLICY_RECENTLY_USED_TAGS (get iouReport "policyID");
              value := optimisticPolicyRecentlyUsedTags |} ]
    ++ spliceIf (negb (isEmpty optimisticPersonalDetailListAction))
         [ {| onyxMethod := MERGE;
              key := (PERSONAL_DETAILS_LIST, "");
              value := optimisticPersonalDetailListAction |} ].

(** The [successData] constant of [buildOnyxDataForMoneyRequest]. *)
Definition moneyRequestSuccessData
    (chatReport iouReport transaction chatCreatedAction iouCreatedAction iouAction
     reportPreviewAction : jsval)
    (isNewChatReport isNewIOUReport : bool) : list OnyxUpdate :=
    spliceIf isNewChatReport
      [ {| onyxMethod := MERGE;
           key := keyOf REPORT (get chatReport "reportID");
           value := objLit [Field "pendingFields" VNull; Field "errorFields" VNull] |} ]
    ++ [ {| onyxMethod := MERGE;
            key := keyOf REPORT (get iouReport "reportID");
            value := objLit [Field "pendingFields" VNull; Field "errorFields" VNull] |};
         {| onyxMethod := MERGE;
            key := keyOf TRANSACTION (get transaction "transactionID");
            value := objLit [Field "pendingAction" VNull; Field "pendingFields" VNull] |};
         {| onyxMethod := MERGE;
            key := keyOf REPORT_ACTIONS (get chatReport "reportID");
            value :=
              objLit [SpreadIf isNewChatReport
                        [Field (toString (get chatCreatedAction "reportActionID"))
                           (objLit [Field "pendingAction" VNull; Field "errors" VNull])];
                      Field (toString (get reportPreviewAction "reportActionID"))
                        (objLit [Field "pendingAction" VNull])] |};
         {| onyxMethod := MERGE;
            key := keyOf REPORT_ACTIONS (get iouReport "reportID");
            value :=
              objLit [SpreadIf isNewIOUReport
                        [Field (toString (get iouCreatedAction "reportActionID"))
                           (objLit [Field "pendingAction" VNull; Field "errors" VNull])];
                      Field (toString (get iouAction "reportActionID"))
                        (objLit [Field "pendingAction" VNull; Field "errors" VNull])] |} ].

(** The [failureData] constant of [buildOnyxDataForMoneyRequest]. *)
Definition moneyRequestFailureData
    (chatReport iouReport transaction chatCreatedAction iouCreatedAction iouAction
     reportPreviewAction : jsval)
    (isNewChatReport isNewIOUReport : bool) : list OnyxUpdate :=
  let isScanRequest := TransactionUtils_isScanRequest E transaction in
  let receiptError :=
    getReceiptError (get transaction "receipt")
      (jsOr (get transaction "filename") (get (get transaction "receipt") "filename"))
      isScanRequest in
    [ {| onyxMethod := MERGE;
         key := keyOf REPORT (get chatReport "reportID");
         value :=
           objLit [Field "iouReportID" (get chatReport "iouReportID");
                   Field "lastReadTime" (get chatReport "lastReadTime");
                   Field "pendingFields" VNull;
                   Field "hasOutstandingChildRequest" (get chatReport "hasOutstandingChildRequest");
                   SpreadIf isNewChatReport
                     [Field "errorFields"
                        (objLit [Field "createChat"
                                   (ErrorUtils_getMicroSecondOnyxError E
                                      (VStr "report.genericCreateReportFailureMessage"))])]] |};
      {| onyxMethod := MERGE;
         key := keyOf REPORT (get iouReport "reportID");
         value :=
           objLit [Field "pendingFields" VNull;
                   Field "errorFields"
                     (objLit [SpreadIf isNewIOUReport
                                [Field "createChat"
                                   (ErrorUtils_getMicroSecondOnyxError E
                                      (VStr "report.genericCreateReportFailureMessage"))]])] |};
      {| onyxMethod := MERGE;
         key := keyOf TRANSACTION (get transaction "transactionID");
         value :=
           objLit [Field "errors"
                     (ErrorUtils_getMicroSecondOnyxError E (VStr "iou.error.genericCreateFailureMessage"));
                   Field "pendingAction" VNull;
                   Field "pendingFields" VNull] |};
      (* Remove the temporary transaction used during the creation flow *)
      {| onyxMethod := SET;
         key := keyOf TRANSACTION_DRAFT (CONST_IOU_OPTIMISTIC_TRANSACTION_ID E);
         value := VNull |};
      {| onyxMethod := MERGE;
         key := keyOf REPORT_ACTIONS (get chatReport "reportID");
         value :=
           objLit [if isNewChatReport
                   then Spread (objLit
                          [Field (toString (get chatCreatedAction "reportActionID"))
                             (objLit [Field "errors" receiptError]);
                           Field (toString (get reportPreviewAction "reportActionID"))
                             (objLit [Field "errors" (ErrorUtils_getMicroSecondOnyxError E VNull)])])
                   else Spread (objLit
                          [Field (toString (get reportPreviewAction "reportActionID"))
                             (objLit [Field "created" (get reportPreviewAction "created");
                                      Field "errors" receiptError])])] |};
      {| onyxMethod := MERGE;
         key := keyOf REPORT_ACTIONS (get iouReport "reportID");
         value :=
           objLit [if isNewIOUReport
                   then Spread (objLit
                          [Field (toString (get iouCreatedAction "reportActionID"))
                             (objLit [Field "errors" receiptError]);
                           Field (toString (get iouAction "reportActionID"))
                             (objLit [Field "errors" (ErrorUtils_getMicroSecondOnyxError E VNull)])])
                   else Spread (objLit
                          [Field (toString (get iouAction "reportActionID"))
                             (objLit [Field "errors" receiptError])])] |} ].

(** Builds the Onyx data for a money request. *)
Definition buildOnyxDataForMoneyRequest
    (chatReport iouReport transaction chatCreatedAction iouCreatedAction iouAction
     optimisticPersonalDetailListAction reportPreviewAction
     optimisticPolicyRecentlyUsedCategories optimisticPolicyRecentlyUsedTags : jsval)
    (isNewChatReport isNewIOUReport : bool)
    (policy policyTags policyCategories : jsval)
    (needsToBeManuallySubmitted : bool) : OnyxData :=
  let optimisticData0 :=
    moneyRequestOptimisticData chatReport iouReport transaction chatCreatedAction
      iouCreatedAction iouAction optimisticPersonalDetailListAction reportPreviewAction
      optimisticPolicyRecentlyUsedCategories optimisticPolicyRecentlyUsedTags
      isNewChatReport isNewIOUReport policy needsToBeManuallySubmitted in
  let successData0 :=
    moneyRequestSuccessData chatReport iouReport transaction chatCreatedAction
      iouCreatedAction iouAction reportPreviewAction isNewChatReport isNewIOUReport in
  let failureData0 :=
    moneyRequestFailureData chatReport iouReport transaction chatCreatedAction
      iouCreatedAction iouAction reportPreviewAction isNewChatReport isNewIOUReport in
  (* Policy won't be set for P2P cases for which we don't need to compute violations *)
  if negb (truthy policy) || negb (truthy (get policy "id")) then
    {| optimisticData := optimisticData0; successData := successData0; failureData := failureData0 |}
  else
    match ViolationsUtils_getViolationsOnyxData E
            [transaction; VArr []; get policy "requiresTag"; policyTags;
             get policy "requiresCategory"; policyCategories] with
    | Some violations =>
        {| optimisticData :=
             optimisticData0 ++
             [ {| onyxMethod := SET;
                  key := keyOf TRANSACTION_VIOLATIONS (get transaction "transactionID");
                  value := violations |} ];
           successData := successData0;
           failureData :=
             failureData0 ++
             [ {| onyxMethod := SET;
                  key := keyOf TRANSACTION_VIOLATIONS (get transaction "transactionID");
                  value := VArr [] |} ] |}
    | None =>
        {| optimisticData := optimisticData0; successData := successData0; failureData := failureData0 |}
    end.

(** *** The report preview of a (chat, money report) pair *)

(** Modelled from the spec: how a ReportPreview action of a chat is told
    from the other report actions ([ReportActionsUtils] is not in src/).
    Section 3: a ReportPreview action belongs to the chat and summarizes
    the linked money report, which is its child report. *)
Definition isReportPreviewFor (iouReportID action : jsval) : bool :=
  strictEq (get action "actionName") (VStr "REPORTPREVIEW")
  && strictEq (get action "childReportID") iouReportID.

(** Modelled from the spec: [ReportActionsUtils.getReportPreviewAction]
    (not in src/), the ReportPreview action that already exists for the
    (chat, money report) pair of section 4.2, [undefined] when there is
    none. *)
Definition getReportPreviewAction (s : store) (chatReportID iouReportID : jsval) : jsval :=
  match map_to_list (filter (fun kv => isReportPreviewFor iouReportID kv.2 = true)
                            (fields (doc s (keyOf REPORT_ACTIONS chatReportID)))) with
  | (_, action) :: _ => action
  | [] => VUndefined
  end.

(** Modelled from the spec: [ReportUtils.updateReportPreview] (not in
    src/).  Section 4.2: the existing preview keeps its identity and gets
    a new message, a new payer-summary text, and a childMoneyRequestCount
    incremented by exactly one per transaction added. *)
Definition updateReportPreview (iouReport reportPreviewAction : jsval) (isPayRequest : bool)
    (comment transaction : jsval) : jsval :=
  let message := ReportUtils_getReportPreviewMessage E iouReport reportPreviewAction in
  objLit [Spread reportPreviewAction;
          Field "created" (DateUtils_getDBTime E);
          Field "message"
            (VArr [objLit [Field "html" message; Field "text" message; Field "type" (VStr "COMMENT")]]);
          Field "childMoneyRequestCount"
            (jsAdd (get reportPreviewAction "childMoneyRequestCount")
                   (VNum (if isPayRequest then 0 else 1)))].

(** Modelled from the spec: [ReportUtils.buildOptimisticReportPreview]
    (not in src/).  Sections 4.1 and 4.2: a brand-new ReportPreview action
    of the chat with a freshly generated identifier, pending as an
    addition, summarizing the money report and counting one request. *)
Definition buildOptimisticReportPreview (chatReport iouReport comment transaction : jsval) : jsval :=
  let message := ReportUtils_getReportPreviewMessage E iouReport VUndefined in
  objLit [Field "reportActionID" (NumberUtils_rand64 E);
          Field "reportID" (get chatReport "reportID");
          Field "actionName" (VStr "REPORTPREVIEW");
          Field "pendingAction" (CONST_PENDING_ACTION_ADD E);
          Field "message"
            (VArr [objLit [Field "html" message; Field "text" message; Field "type" (VStr "COMMENT")]]);
          Field "created" (DateUtils_getDBTime E);
          Field "childReportID" (get iouReport "reportID");
          Field "childMoneyRequestCount" (VNum 1)].

End Actions.

Module MoneyRequestInformation.
(** What [getMoneyRequestInformation] returns. *)
Record t := {
  payerAccountID : jsval;
  payerEmail : jsval;
  iouReport : jsval;
  chatReport : jsval;
  transaction : jsval;
  iouAction : jsval;
  createdChatReportActionID : jsval;
  createdIOUReportActionID : jsval;
  reportPreviewAction : jsval;
  onyxData : OnyxData
}.
End MoneyRequestInformation.

Section Orchestrators.
Context (E : Externals).

(** STEP 1 of [getMoneyRequestInformation]: the existing chat report, if
    any ([null] or [undefined] otherwise). *)
Definition existingChatReport (s : store) (report participant : jsval) : jsval :=
  let payerAccountID := Number E (get participant "accountID") in
  let isPolicyExpenseChat := get participant "isPolicyExpenseChat" in
  let chatReport := if truthy (lodashGet report "reportID" VNull) then report else VNull in
  (* If this is a policyExpenseChat, the chatReport must exist and we can get it from Onyx. *)
  let chatReport :=
    if negb (truthy chatReport) && truthy isPolicyExpenseChat
    then doc s (keyOf REPORT (get participant "reportID"))
    else chatReport in
  if negb (truthy chatReport)
  then ReportUtils_getChatByParticipants E s (VArr [payerAccountID])
  else chatReport.

(** STEP 2 of [getMoneyRequestInformation]: the existing IOU report with
    its total updated, or a new optimistic one. *)
Definition resolveIOUReport (iouReport chatReport : jsval) (isPolicyExpenseChat : bool)
    (payeeAccountID payerAccountID amount currency : jsval) : jsval :=
  if truthy iouReport then
    if isPolicyExpenseChat then
      let iouReport := objLit [Spread iouReport] in
      if strictEq (lodashGet iouReport "currency" VUndefined) currency then
        (* Because of the Expense reports are stored as negative values, we substract the total from the amount *)
        setField iouReport "total" (jsSub (get iouReport "total") amount)
      else iouReport
    else IOUUtils_updateIOUOwnerAndTotal E [iouReport; payeeAccountID; amount; currency]
  else
    if isPolicyExpenseChat
    then ReportUtils_buildOptimisticExpenseReport E
           [get chatReport "reportID"; get chatReport "policyID"; payeeAccountID; amount; currency]
    else ReportUtils_buildOptimisticIOUReport E
           [payeeAccountID; payerAccountID; amount; get chatReport "reportID"; currency].

(** Gathers all the data needed to make a money request. It attempts to
    find existing reports, iouReports, and receipts. If it doesn't find
    them, then it creates optimistic versions of them and uses those
    instead. *)
Definition getMoneyRequestInformation (s : store)
    (report participant comment amount currency created merchant
     payeeAccountID payeeEmail receipt existingTransactionID category tag billable
     policy policyTags policyCategories : jsval) : MoneyRequestInformation.t :=
  let payerEmail := OptionsListUtils_addSMSDomainIfPhoneNumber E (get participant "login") in
  let payerAccountID := Number E (get participant "accountID") in
  let isPolicyExpenseChat := truthy (get participant "isPolicyExpenseChat") in
  (* STEP 1: Get existing chat report OR build a new optimistic one *)
  let chatReport := existingChatReport s report participant in
  (* If we still don't have a report, it likely doens't exist and we need to build an optimistic one *)
  let isNewChatReport := negb (truthy chatReport) in
  let chatReport :=
    if isNewChatReport then ReportUtils_buildOptimisticChatReport E (VArr [payerAccountID])
    else chatReport in
  (* STEP 2: Get existing IOU report and update its total OR build a new optimistic one *)
  let isNewIOUReport :=
    negb (truthy (get chatReport "iouReportID"))
    || ReportUtils_hasIOUWaitingOnCurrentUserBankAccount E chatReport in
  let iouReport :=
    if isNewIOUReport then VNull else doc s (keyOf REPORT (get chatReport "iouReportID")) in
  (* Check if the Scheduled Submit is enabled in case of expense report *)
  let isFromPaidPolicy :=
    if isPolicyExpenseChat then PolicyUtils_isPaidGroupPolicy E policy else false in
  let needsToBeManuallySubmitted :=
    if isPolicyExpenseChat
    then isFromPaidPolicy && negb (truthy (jsOr (get policy "isHarvestingEnabled") (VBool false)))
    else true in
  (* If the linked expense report on paid policy is not draft, we need to create a new draft expense report *)
  let iouReport :=
    if isPolicyExpenseChat && truthy iouReport && isFromPaidPolicy
       && negb (ReportUtils_isDraftExpenseReport E iouReport)
    then VNull else iouReport in
  let iouReport :=
    resolveIOUReport iouReport chatReport isPolicyExpenseChat
      payeeAccountID payerAccountID amount currency in
  (* STEP 3: Build optimistic receipt and transaction *)
  let hasReceiptSource := truthy (jsAnd receipt (get receipt "source")) in
  let receiptObject :=
    if hasReceiptSource
    then objLit [Field "source" (get receipt "source");
                 Field "state" (jsOr (get receipt "state") (CONST_IOU_RECEIPT_STATE_SCANREADY E))]
    else objLit [] in
  let filename := if hasReceiptSource then get receipt "name" else VUndefined in
  let optimisticTransaction :=
    TransactionUtils_buildOptimisticTransaction E
      [if ReportUtils_isExpenseReport E iouReport then jsNeg amount else amount;
       currency; get iouReport "reportID"; comment; created; VStr ""; VStr ""; merchant;
       receiptObject; filename; existingTransactionID; category; tag; billable] in
  let optimisticPolicyRecentlyUsedCategories :=
    Policy_buildOptimisticPolicyRecentlyUsedCategories E (get iouReport "policyID") category in
  let optimisticPolicyRecentlyUsedTags :=
    Policy_buildOptimisticPolicyRecentlyUsedTags E (get iouReport "policyID") tag in
  (* If there is an existing transaction (which is the case for distance requests), then the
     data from the existing transaction needs to be manually merged into the optimistic
     transaction. *)
  let existingTransaction :=
    doc s (keyOf TRANSACTION_DRAFT (CONST_IOU_OPTIMISTIC_TRANSACTION_ID E)) in
  let optimisticTransaction :=
    if truthy existingTransaction
       && strictEq (get existingTransaction "iouRequestType") (CONST_IOU_REQUEST_TYPE_DISTANCE E)
    then fastMerge optimisticTransaction existingTransaction
    else optimisticTransaction in
  (* STEP 4: Build optimistic reportActions. *)
  let currentTime := DateUtils_getDBTime E in
  let optimisticCreatedActionForChat :=
    ReportUtils_buildOptimisticCreatedReportAction E [payeeEmail] in
  let optimisticCreatedActionForIOU :=
    ReportUtils_buildOptimisticCreatedReportAction E
      [payeeEmail; DateUtils_subtractMillisecondsFromDateTime E currentTime (VNum 1)] in
  let iouAction :=
    ReportUtils_buildOptimisticIOUReportAction E
      [CONST_IOU_REPORT_ACTION_TYPE_CREATE E; amount; currency; comment; VArr [participant];
       get optimisticTransaction "transactionID"; VStr ""; get iouReport "reportID";
       VBool false; VBool false; receiptObject; VBool false; currentTime] in
  let reportPreviewAction :=
    if isNewIOUReport then VNull
    else getReportPreviewAction s (get chatReport "reportID") (get iouReport "reportID") in
  let isExistingPreview := truthy reportPreviewAction in
  let reportPreviewAction :=
    if isExistingPreview
    then updateReportPreview E iouReport reportPreviewAction false comment optimisticTransaction
    else buildOptimisticReportPreview E chatReport iouReport comment optimisticTransaction in
  (* Generated ReportPreview action is a parent report action of the iou report. *)
  let iouReport :=
    if isExistingPreview then iouReport
    else setField iouReport "parentReportActionID" (get reportPreviewAction "reportActionID") in
  let shouldCreateOptimisticPersonalDetails :=
    isNewChatReport
    && negb (truthy (get (doc s (PERSONAL_DETAILS_LIST, "")) (toString payerAccountID))) in
  (* Add optimistic personal details for participant *)
  let optimisticPersonalDetailListAction :=
    if shouldCreateOptimisticPersonalDetails
    then objLit [Field (toString payerAccountID)
                   (objLit [Field "accountID" payerAccountID;
                            Field "avatar" (UserUtils_getDefaultAvatarURL E payerAccountID);
                            Field "displayName"
                              (LocalePhoneNumber_formatPhoneNumber E
                                 (jsOr (get participant "displayName") payerEmail));
                            Field "login" (get participant "login");
                            Field "isOptimisticPersonalDetail" (VBool true)])]
    else VUndefined in
  (* STEP 5: Build Onyx Data *)
  {| MoneyRequestInformation.payerAccountID := payerAccountID;
     MoneyRequestInformation.payerEmail := payerEmail;
     MoneyRequestInformation.iouReport := iouReport;
     MoneyRequestInformation.chatReport := chatReport;
     MoneyRequestInformation.transaction := optimisticTransaction;
     MoneyRequestInformation.iouAction := iouAction;
     MoneyRequestInformation.createdChatReportActionID :=
       if isNewChatReport then get optimisticCreatedActionForChat "reportActionID" else VNum 0;
     MoneyRequestInformation.createdIOUReportActionID :=
       if isNewIOUReport then get optimisticCreatedActionForIOU "reportActionID" else VNum 0;
     MoneyRequestInformation.reportPreviewAction := reportPreviewAction;
     MoneyRequestInformation.onyxData :=
       buildOnyxDataForMoneyRequest E chatReport iouReport optimisticTransaction
         optimisticCreatedActionForChat optimisticCreatedActionForIOU iouAction
         optimisticPersonalDetailListAction reportPreviewAction
         optimisticPolicyRecentlyUsedCategories optimisticPolicyRecentlyUsedTags
         isNewChatReport isNewIOUReport policy policyTags policyCategories
         needsToBeManuallySubmitted |}.

(* ===================================================================== *)
(** ** Splitting a bill *)
(* ===================================================================== *)


(* ===================================================================== *)
(** ** Editing a money request *)
(* ===================================================================== *)

(** [editRegularMoneyRequest] from the point where it holds the documents
    it updates. *)
Definition editRegularMoneyRequestData (s : store)
    (transactionID transactionThreadReportID transactionChanges : jsval)
    (transactionThread transaction iouReport : jsval) : OnyxData :=
  let chatReport := doc s (keyOf REPORT (get iouReport "chatReportID")) in
  let isFromExpenseReport := ReportUtils_isExpenseReport E iouReport in
  (* STEP 2: Build new modified expense report action. *)
  let updatedReportAction :=
    ReportUtils_buildOptimisticModifiedExpenseReportAction E
      [transactionThread; transaction; transactionChanges; VBool isFromExpenseReport] in
  let updatedTransaction :=
    TransactionUtils_getUpdatedTransaction E
      [transaction; transactionChanges; VBool isFromExpenseReport] in
  (* STEP 3: Compute the IOU total and update the report preview message so LHN amount owed
     is correct.  Should only update if the transaction matches the currency of the report,
     else we wait for the update from the server with the currency conversion *)
  let diff :=
    jsSub (TransactionUtils_getAmount E transaction true)
          (TransactionUtils_getAmount E updatedTransaction true) in
  let shouldUpdateTotal :=
    strictEq (get updatedTransaction "currency") (get iouReport "currency")
    && truthy (get updatedTransaction "modifiedAmount")
    && negb (strictEq diff (VNum 0)) in
  let updatedMoneyRequestReport :=
    if shouldUpdateTotal then
      let updated :=
        if ReportUtils_isExpenseReport E iouReport
        then setField (objLit [Spread iouReport]) "total" (jsAdd (get iouReport "total") diff)
        else IOUUtils_updateIOUOwnerAndTotal E
               [iouReport; get updatedReportAction "actorAccountID"; diff;
                TransactionUtils_getCurrency E transaction; VBool false] in
      let updated :=
        setField updated "cachedTotal"
          (CurrencyUtils_convertToDisplayString E (get updated "total")
             (get updatedTransaction "currency")) in
      (* Update the last message of the IOU report *)
      let lastMessage :=
        ReportUtils_getIOUReportActionMessage E
          [get iouReport "reportID"; CONST_IOU_REPORT_ACTION_TYPE_CREATE E; get updated "total";
           VStr ""; get updatedTransaction "currency"; VStr ""; VBool false] in
      setField (setField updated "lastMessageText" (get (getIndex lastMessage 0) "text"))
               "lastMessageHtml" (get (getIndex lastMessage 0) "html")
    else objLit [Spread iouReport] in
  let updatedChatReport :=
    if shouldUpdateTotal then
      (* Update the last message of the chat report *)
      let hasNonReimbursableTransactions :=
        ReportUtils_hasNonReimbursableTransactions E s iouReport in
      let messageText :=
        Localize_translateLocal E
          (VStr (if hasNonReimbursableTransactions
                 then "iou.payerSpentAmount" else "iou.payerOwesAmount"))
          (objLit [Field "payer"
                     (jsOr (get (ReportUtils_getPersonalDetailsForAccountID E s
                                   (get updatedMoneyRequestReport "managerID")) "login")
                           (VStr ""));
                   Field "amount"
                     (CurrencyUtils_convertToDisplayString E
                        (get updatedMoneyRequestReport "total")
                        (get updatedMoneyRequestReport "currency"))]) in
      setField (setField (objLit [Spread chatReport]) "lastMessageText" messageText)
               "lastMessageHtml" messageText
    else objLit [Spread chatReport] in
  let isScanning :=
    TransactionUtils_hasReceipt E updatedTransaction
    && TransactionUtils_isReceiptBeingScanned E updatedTransaction in
  (* STEP 4: Compose the optimistic data *)
  let currentTime := DateUtils_getDBTime E in
  let optimisticPolicyRecentlyUsedCategories :=
    Policy_buildOptimisticPolicyRecentlyUsedCategories E (get iouReport "policyID")
      (get transactionChanges "category") in
  let optimisticPolicyRecentlyUsedTags :=
    Policy_buildOptimisticPolicyRecentlyUsedTags E (get iouReport "policyID")
      (get transactionChanges "tag") in
    {| optimisticData :=
         [ {| onyxMethod := MERGE;
              key := keyOf REPORT_ACTIONS (get transactionThread "reportID");
              value := objLit [Field (toString (get updatedReportAction "reportActionID"))
                                 updatedReportAction] |};
           {| onyxMethod := MERGE;
              key := keyOf TRANSACTION transactionID;
              value := updatedTransaction |};
           {| onyxMethod := MERGE;
              key := keyOf REPORT (get iouReport "reportID");
              value := updatedMoneyRequestReport |};
           {| onyxMethod := MERGE;
              key := keyOf REPORT (get iouReport "chatReportID");
              value := updatedChatReport |};
           {| onyxMethod := MERGE;
              key := keyOf REPORT transactionThreadReportID;
              value := objLit [Field "lastReadTime" currentTime;
                               Field "lastVisibleActionCreated" currentTime] |} ]
         ++ spliceIf (negb isScanning)
              [ {| onyxMethod := MERGE;
                   key := keyOf REPORT_ACTIONS (get iouReport "reportID");
                   value := objLit [Field (toString (get transactionThread "parentReportActionID"))
                                      (objLit [Field "whisperedToAccountIDs" (VArr [])])] |};
                {| onyxMethod := MERGE;
                   key := keyOf REPORT_ACTIONS (get iouReport "parentReportID");
                   value := objLit [Field (toString (get iouReport "parentReportActionID"))
                                      (objLit [Field "whisperedToAccountIDs" (VArr [])])] |} ]
         (* Update recently used categories if the category is changed *)
         ++ spliceIf (has transactionChanges "category"
                      && negb (isEmpty optimisticPolicyRecentlyUsedCategories))
              [ {| onyxMethod := SET;
                   key := keyOf POLICY_RECENTLY_USED_CATEGORIES (get iouReport "policyID");
                   value := optimisticPolicyRecentlyUsedCategories |} ]
         (* Update recently used categories if the tag is changed *)
         ++ spliceIf (has transactionChanges "tag"
                      && negb (isEmpty optimisticPolicyRecentlyUsedTags))
              [ {| onyxMethod := MERGE;
                   key := keyOf POLICY_RECENTLY_USED_TAGS (get iouReport "policyID");
                   value := optimisticPolicyRecentlyUsedTags |} ];
       successData :=
         [ {| onyxMethod := MERGE;
              key := keyOf REPORT_ACTIONS (get transactionThread "reportID");
              value := objLit [Field (toString (get updatedReportAction "reportActionID"))
                                 (objLit [Field "pendingAction" VNull])] |};
           {| onyxMethod := MERGE;
              key := keyOf TRANSACTION transactionID;
              value :=
                objLit [Field "pendingFields"
                          (objLit [Field "comment" VNull; Field "amount" VNull;
                                   Field "created" VNull; Field "currency" VNull;
                                   Field "merchant" VNull; Field "billable" VNull;
                                   Field "category" VNull; Field "tag" VNull])] |};
           {| onyxMethod := MERGE;
              key := keyOf REPORT (get iouReport "reportID");
              value := objLit [Field "pendingAction" VNull] |} ];
       failureData :=
         let orNull v := if truthy v then v else VNull in
         [ {| onyxMethod := MERGE;
              key := keyOf REPORT_ACTIONS (get transactionThread "reportID");
              value :=
                objLit [Field (toString (get updatedReportAction "reportActionID"))
                          (objLit [Field "errors"
                                     (ErrorUtils_getMicroSecondOnyxError E
                                        (VStr "iou.error.genericEditFailureMessage"))])] |};
           {| onyxMethod := MERGE;
              key := keyOf TRANSACTION transactionID;
              value :=
                objLit [Spread transaction;
                        Field "modifiedCreated" (orNull (get transaction "modifiedCreated"));
                        Field "modifiedAmount" (orNull (get transaction "modifiedAmount"));
                        Field "modifiedCurrency" (orNull (get transaction "modifiedCurrency"));
                        Field "modifiedMerchant" (orNull (get transaction "modifiedMerchant"));
                        Field "modifiedWaypoints" (orNull (get transaction "modifiedWaypoints"));
                        Field "pendingFields" VNull] |};
           {| onyxMethod := MERGE;
              key := keyOf REPORT (get iouReport "reportID");
              value := objLit [Spread iouReport;
                               Field "cachedTotal" (orNull (get iouReport "cachedTotal"))] |};
           {| onyxMethod := MERGE;
              key := keyOf REPORT (get iouReport "chatReportID");
              value := chatReport |};
           {| onyxMethod := MERGE;
              key := keyOf REPORT transactionThreadReportID;
              value := objLit [Field "lastReadTime" (get transactionThread "lastReadTime");
                               Field "lastVisibleActionCreated"
                                 (get transactionThread "lastVisibleActionCreated")] |} ] |}.

Definition editRegularMoneyRequest (s : store)
    (transactionID transactionThreadReportID transactionChanges : jsval) : option OnyxData :=
  (* STEP 1: Get all collections we're updating *)
  transactionThread ← deref (doc s (keyOf REPORT transactionThreadReportID));
  transaction ← deref (doc s (keyOf TRANSACTION transactionID));
  iouReport ← deref (doc s (keyOf REPORT (get transactionThread "parentReportID")));
  Some (editRegularMoneyRequestData s transactionID transactionThreadReportID
          transactionChanges transactionThread transaction iouReport).

(* ===================================================================== *)
(** ** Deleting a money request *)
(* ===================================================================== *)

(** STEP 2 and STEP 3 of [deleteMoneyRequest]: what gets deleted. *)
Record DeleteDecision := {
  shouldDeleteTransactionThread : bool;
  shouldShowDeletedRequestMessage : jsval;
  updatedReportAction : jsval;
  lastVisibleAction : jsval;
  iouReportLastMessageText : jsval;
  shouldDeleteIOUReport : bool
}.

Definition deleteDecision (s : store) (iouReport reportAction : jsval) : DeleteDecision :=
  let transactionThreadID := get reportAction "childReportID" in
  (* STEP 2: Decide if we need to:
     1. Delete the transactionThread - delete if there are no visible comments in the thread
     2. Update the moneyRequestPreview to show [Deleted request] - update if the
        transactionThread exists AND it isn't being deleted *)
  let shouldDeleteTransactionThread :=
    if truthy transactionThreadID
    then strictEq (lodashGet reportAction "childVisibleActionCount" (VNum 0)) (VNum 0)
    else false in
  let shouldShowDeletedRequestMessage :=
    jsAnd transactionThreadID (VBool (negb shouldDeleteTransactionThread)) in
  (* STEP 3: Update the IOU reportAction and decide if the iouReport should be deleted. We
     delete the iouReport if there are no visible comments left in the report. *)
  let updatedReportAction :=
    objLit [Field (toString (get reportAction "reportActionID"))
              (objLit [Field "pendingAction"
                         (if truthy shouldShowDeletedRequestMessage
                          then CONST_PENDING_ACTION_UPDATE E
                          else CONST_PENDING_ACTION_DELETE E);
                       Field "previousMessage" (get reportAction "message");
                       Field "message"
                         (VArr [objLit [Field "type" (VStr "COMMENT");
                                        Field "html" (VStr "");
                                        Field "text" (VStr "");
                                        Field "isEdited" (VBool true);
                                        Field "isDeletedParentAction"
                                          shouldShowDeletedRequestMessage]]);
                       Field "originalMessage" (objLit [Field "IOUTransactionID" VNull]);
                       Field "errors" VNull])] in
  let lastVisibleAction :=
    ReportActionsUtils_getLastVisibleAction E s (get iouReport "reportID") updatedReportAction in
  let iouReportLastMessageText :=
    get (ReportActionsUtils_getLastVisibleMessage E s (get iouReport "reportID")
           updatedReportAction) "lastMessageText" in
  {| shouldDeleteTransactionThread := shouldDeleteTransactionThread;
     shouldShowDeletedRequestMessage := shouldShowDeletedRequestMessage;
     updatedReportAction := updatedReportAction;
     lastVisibleAction := lastVisibleAction;
     iouReportLastMessageText := iouReportLastMessageText;
     shouldDeleteIOUReport :=
       strictEq (jsLength iouReportLastMessageText) (VNum 0)
       && negb (ReportActionsUtils_isDeletedParentAction E lastVisibleAction)
       && (negb (truthy transactionThreadID) || shouldDeleteTransactionThread) |}.

(** The [childMoneyRequestCount] written to the report preview by a
    delete. *)
Definition decrementedChildMoneyRequestCount (reportPreviewAction updatedReportPreviewAction : jsval)
    : jsval :=
  if jsGt (get reportPreviewAction "childMoneyRequestCount") (VNum 0)
  then setField updatedReportPreviewAction "childMoneyRequestCount"
         (jsSub (get reportPreviewAction "childMoneyRequestCount") (VNum 1))
  else updatedReportPreviewAction.

(** [deleteMoneyRequest] from the point where it holds the documents it
    updates. *)
Definition deleteMoneyRequestData (s : store) (transactionID reportAction : jsval)
    (iouReport chatReport reportPreviewAction previewMessage : jsval) : OnyxData :=
  let transaction := doc s (keyOf TRANSACTION transactionID) in
  let transactionViolations := doc s (keyOf TRANSACTION_VIOLATIONS transactionID) in
  let transactionThreadID := get reportAction "childReportID" in
  let transactionThread :=
    if truthy transactionThreadID then doc s (keyOf REPORT transactionThreadID) else VNull in
  let d := deleteDecision s iouReport reportAction in
  (* STEP 4: Update the iouReport and reportPreview with new totals and messages if it
     wasn't deleted *)
  let updatedIOUReport :=
    if ReportUtils_isExpenseReport E iouReport
    then
      (* Because of the Expense reports are stored as negative values, we add the total
         from the amount *)
      setField (objLit [Spread iouReport]) "total"
        (jsAdd (get iouReport "total") (TransactionUtils_getAmount E transaction true))
    else IOUUtils_updateIOUOwnerAndTotal E
           [iouReport; get reportAction "actorAccountID";
            TransactionUtils_getAmount E transaction false;
            TransactionUtils_getCurrency E transaction; VBool true] in
  let updatedIOUReport :=
    setField (setField updatedIOUReport "lastMessageText" (iouReportLastMessageText d))
      "lastVisibleActionCreated" (lodashGet (lastVisibleAction d) "created" VUndefined) in
  let hasNonReimbursableTransactions :=
    ReportUtils_hasNonReimbursableTransactions E s iouReport in
  let messageText :=
    Localize_translateLocal E
      (VStr (if hasNonReimbursableTransactions
             then "iou.payerSpentAmount" else "iou.payerOwesAmount"))
      (objLit [Field "payer"
                 (jsOr (get (ReportUtils_getPersonalDetailsForAccountID E s
                               (get updatedIOUReport "managerID")) "login")
                       (VStr ""));
               Field "amount"
                 (CurrencyUtils_convertToDisplayString E (get updatedIOUReport "total")
                    (get updatedIOUReport "currency"))]) in
  (* The copy is shallow: the message array is shared with [reportPreviewAction], which
     therefore carries the new text as well from here on. *)
  let message :=
    setIndex (get reportPreviewAction "message") 0
      (setField (setField previewMessage "text" messageText)
         "html" (if shouldDeleteIOUReport d then VStr "" else messageText)) in
  let reportPreviewAction := setField reportPreviewAction "message" message in
  let updatedReportPreviewAction :=
    decrementedChildMoneyRequestCount reportPreviewAction
      (objLit [Spread reportPreviewAction;
               Field "pendingAction"
                 (if shouldDeleteIOUReport d
                  then CONST_PENDING_ACTION_DELETE E else CONST_PENDING_ACTION_UPDATE E)]) in
  let canUseViolations := Permissions_canUseViolations E (betas E) in
  let previewRemoved :=
    objLit [Field (toString (get reportPreviewAction "reportActionID")) VNull] in
  (* STEP 5: Build Onyx data *)
    {| optimisticData :=
         [ {| onyxMethod := SET; key := keyOf TRANSACTION transactionID; value := VNull |} ]
         ++ spliceIf canUseViolations
              [ {| onyxMethod := SET;
                   key := keyOf TRANSACTION_VIOLATIONS transactionID;
                   value := VNull |} ]
         ++ spliceIf (shouldDeleteTransactionThread d)
              [ {| onyxMethod := SET; key := keyOf REPORT transactionThreadID; value := VNull |};
                {| onyxMethod := SET;
                   key := keyOf REPORT_ACTIONS transactionThreadID;
                   value := VNull |} ]
         ++ [ {| onyxMethod := MERGE;
                 key := keyOf REPORT_ACTIONS (get iouReport "reportID");
                 value := updatedReportAction d |};
              {| onyxMethod := MERGE;
                 key := keyOf REPORT (get iouReport "reportID");
                 value := updatedIOUReport |};
              {| onyxMethod := MERGE;
                 key := keyOf REPORT_ACTIONS (get chatReport "reportID");
                 value := objLit [Field (toString (get reportPreviewAction "reportActionID"))
                                    updatedReportPreviewAction] |} ]
         ++ spliceIf (negb (shouldDeleteIOUReport d)
                      && strictEq (get updatedReportPreviewAction "childMoneyRequestCount")
                           (VNum 0))
              [ {| onyxMethod := MERGE;
                   key := keyOf REPORT (get chatReport "reportID");
                   value := objLit [Field "hasOutstandingChildRequest" (VBool false)] |} ]
         ++ spliceIf (shouldDeleteIOUReport d)
              [ {| onyxMethod := MERGE;
                   key := keyOf REPORT (get chatReport "reportID");
                   value :=
                     objLit [Field "hasOutstandingChildRequest" (VBool false);
                             Field "iouReportID" VNull;
                             Field "lastMessageText"
                               (get (ReportActionsUtils_getLastVisibleMessage E s
                                       (get iouReport "chatReportID") previewRemoved)
                                    "lastMessageText");
                             Field "lastVisibleActionCreated"
                               (lodashGet (ReportActionsUtils_getLastVisibleAction E s
                                             (get iouReport "chatReportID") previewRemoved)
                                          "created" VUndefined)] |} ];
       successData :=
         [ {| onyxMethod := MERGE;
              key := keyOf REPORT_ACTIONS (get iouReport "reportID");
              value :=
                objLit [Field (toString (get reportAction "reportActionID"))
                          (if shouldDeleteIOUReport d then VNull
                           else objLit [Field "pendingAction" VNull])] |};
           {| onyxMethod := MERGE;
              key := keyOf REPORT_ACTIONS (get chatReport "reportID");
              value :=
                objLit [Field (toString (get reportPreviewAction "reportActionID"))
                          (if shouldDeleteIOUReport d then VNull
                           else objLit [Field "pendingAction" VNull; Field "errors" VNull])] |} ]
         ++ spliceIf (shouldDeleteIOUReport d)
              [ {| onyxMethod := SET;
                   key := keyOf REPORT (get iouReport "reportID");
                   value := VNull |} ];
       failureData :=
         [ {| onyxMethod := SET; key := keyOf TRANSACTION transactionID; value := transaction |} ]
         ++ spliceIf canUseViolations
              [ {| onyxMethod := SET;
                   key := keyOf TRANSACTION_VIOLATIONS transactionID;
                   value := transactionViolations |} ]
         ++ spliceIf (shouldDeleteTransactionThread d)
              [ {| onyxMethod := SET;
                   key := keyOf REPORT transactionThreadID;
                   value := transactionThread |} ]
         ++ [ {| onyxMethod := MERGE;
                 key := keyOf REPORT_ACTIONS (get iouReport "reportID");
                 value :=
                   objLit [Field (toString (get reportAction "reportActionID"))
                             (objLit [Spread reportAction;
                                      Field "pendingAction" VNull;
                                      Field "errors"
                                        (ErrorUtils_getMicroSecondOnyxError E
                                           (VStr "iou.error.genericDeleteFailureMessage"))])] |};
              {| onyxMethod := if shouldDeleteIOUReport d then SET else MERGE;
                 key := keyOf REPORT (get iouReport "reportID");
                 value := iouReport |};
              {| onyxMethod := MERGE;
                 key := keyOf REPORT_ACTIONS (get chatReport "reportID");
                 value :=
                   objLit [Field (toString (get reportPreviewAction "reportActionID"))
                             (objLit [Spread reportPreviewAction;
                                      Field "errors"
                                        (ErrorUtils_getMicroSecondOnyxError E
                                           (VStr "iou.error.genericDeleteFailureMessage"))])] |} ]
         ++ spliceIf (shouldDeleteIOUReport d)
              [ {| onyxMethod := MERGE;
                   key := keyOf REPORT (get chatReport "reportID");
                   value := chatReport |} ]
         ++ spliceIf (negb (shouldDeleteIOUReport d)
                      && strictEq (get updatedReportPreviewAction "childMoneyRequestCount")
                           (VNum 0))
              [ {| onyxMethod := MERGE;
                   key := keyOf REPORT (get chatReport "reportID");
                   value := objLit [Field "hasOutstandingChildRequest" (VBool true)] |} ] |}.

Definition deleteMoneyRequest (s : store) (transactionID reportAction : jsval) : option OnyxData :=
  (* STEP 1: Get all collections we're updating *)
  iouReport ← deref (doc s (keyOf REPORT (get (get reportAction "originalMessage") "IOUReportID")));
  chatReport ← deref (doc s (keyOf REPORT (get iouReport "chatReportID")));
  reportPreviewAction ←
    deref (getReportPreviewAction s (get iouReport "chatReportID") (get iouReport "reportID"));
  previewMessage ← deref (getIndex (get reportPreviewAction "message") 0);
  Some (deleteMoneyRequestData s transactionID reportAction iouReport chatReport
          reportPreviewAction previewMessage).

(* ===================================================================== *)
(** ** Approving and submitting an expense report *)
(* ===================================================================== *)

Definition approveMoneyRequest (s : store) (expenseReport : jsval) : OnyxData :=
  let currentNextStep := docOrNull s (keyOf NEXT_STEP (get expenseReport "reportID")) in
  let optimisticApprovedReportAction :=
    ReportUtils_buildOptimisticApprovedReportAction E
      [get expenseReport "total"; get expenseReport "currency"; get expenseReport "reportID"] in
  let optimisticReportActionsData :=
    {| onyxMethod := MERGE;
       key := keyOf REPORT_ACTIONS (get expenseReport "reportID");
       value :=
         objLit [Field (toString (get optimisticApprovedReportAction "reportActionID"))
                   (objLit [Spread optimisticApprovedReportAction;
                            Field "pendingAction" (CONST_PENDING_ACTION_ADD E)])] |} in
  let optimisticIOUReportData :=
    {| onyxMethod := MERGE;
       key := keyOf REPORT (get expenseReport "reportID");
       value :=
         objLit [Spread expenseReport;
                 Field "lastMessageText"
                   (get (getIndex (get optimisticApprovedReportAction "message") 0) "text");
                 Field "lastMessageHtml"
                   (get (getIndex (get optimisticApprovedReportAction "message") 0) "html");
                 Field "stateNum" (CONST_REPORT_STATE_NUM_APPROVED E);
                 Field "statusNum" (CONST_REPORT_STATUS_NUM_APPROVED E)] |} in
  {| optimisticData :=
       [optimisticIOUReportData; optimisticReportActionsData]
       ++ spliceIf (negb (isNull currentNextStep))
            [ {| onyxMethod := SET;
                 key := keyOf NEXT_STEP (get expenseReport "reportID");
                 value := VNull |} ];
     successData :=
       [ {| onyxMethod := MERGE;
            key := keyOf REPORT_ACTIONS (get expenseReport "reportID");
            value :=
              objLit [Field (toString (get optimisticApprovedReportAction "reportActionID"))
                        (objLit [Field "pendingAction" VNull])] |} ];
     failureData :=
       [ {| onyxMethod := MERGE;
            key := keyOf REPORT_ACTIONS (get expenseReport "reportID");
            value :=
              objLit [Field (toString (get expenseReport "reportActionID"))
                        (objLit [Field "errors"
                                   (ErrorUtils_getMicroSecondOnyxError E (VStr "iou.error.other"))])] |} ]
       ++ spliceIf (negb (isNull currentNextStep))
            [ {| onyxMethod := MERGE;
                 key := keyOf NEXT_STEP (get expenseReport "reportID");
                 value := currentNextStep |} ] |}.

Definition submitReport (s : store) (expenseReport : jsval) : OnyxData :=
  let currentNextStep := docOrNull s (keyOf NEXT_STEP (get expenseReport "reportID")) in
  let optimisticSubmittedReportAction :=
    ReportUtils_buildOptimisticSubmittedReportAction E
      [get expenseReport "total"; get expenseReport "currency"; get expenseReport "reportID"] in
  let parentReport := ReportUtils_getReport E s (get expenseReport "parentReportID") in
  let isCurrentUserManager :=
    strictEq (get (currentUserPersonalDetails E) "accountID") (get expenseReport "managerID") in
  {| optimisticData :=
       [ {| onyxMethod := MERGE;
            key := keyOf REPORT_ACTIONS (get expenseReport "reportID");
            value :=
              objLit [Field (toString (get optimisticSubmittedReportAction "reportActionID"))
                        (objLit [Spread optimisticSubmittedReportAction;
                                 Field "pendingAction" (CONST_PENDING_ACTION_ADD E)])] |};
         {| onyxMethod := MERGE;
            key := keyOf REPORT (get expenseReport "reportID");
            value :=
              objLit [Spread expenseReport;
                      Field "lastMessageText"
                        (lodashGet (getIndex (get optimisticSubmittedReportAction "message") 0)
                           "text" (VStr ""));
                      Field "lastMessageHtml"
                        (lodashGet (getIndex (get optimisticSubmittedReportAction "message") 0)
                           "html" (VStr ""));
                      Field "stateNum" (CONST_REPORT_STATE_NUM_SUBMITTED E);
                      Field "statusNum" (CONST_REPORT_STATUS_NUM_SUBMITTED E)] |} ]
       ++ spliceIf (truthy (get parentReport "reportID"))
            [ {| onyxMethod := MERGE;
                 key := keyOf REPORT (get parentReport "reportID");
                 value :=
                   objLit [Spread parentReport;
                           (* In case its a manager who force submitted the report, they are
                              the next user who needs to take an action *)
                           Field "hasOutstandingChildRequest" (VBool isCurrentUserManager);
                           Field "iouReportID" VNull] |} ]
       ++ spliceIf (negb (isNull currentNextStep))
            [ {| onyxMethod := SET;
                 key := keyOf NEXT_STEP (get expenseReport "reportID");
                 value := VNull |} ];
     successData :=
       [ {| onyxMethod := MERGE;
            key := keyOf REPORT_ACTIONS (get expenseReport "reportID");
            value :=
              objLit [Field (toString (get optimisticSubmittedReportAction "reportActionID"))
                        (objLit [Field "pendingAction" VNull])] |} ];
     failureData :=
       [ {| onyxMethod := MERGE;
            key := keyOf REPORT_ACTIONS (get expenseReport "reportID");
            value :=
              objLit [Field (toString (get optimisticSubmittedReportAction "reportActionID"))
                        (objLit [Field "errors"
                                   (ErrorUtils_getMicroSecondOnyxError E (VStr "iou.error.other"))])] |};
         {| onyxMethod := MERGE;
            key := keyOf REPORT (get expenseReport "reportID");
            value := objLit [Field "statusNum" (CONST_REPORT_STATUS_NUM_OPEN E);
                             Field "stateNum" (CONST_REPORT_STATE_NUM_OPEN E)] |} ]
       ++ spliceIf (truthy (get parentReport "reportID"))
            [ {| onyxMethod := MERGE;
                 key := keyOf REPORT (get parentReport "reportID");
                 value :=
                   objLit [Field "hasOutstandingChildRequest"
                             (get parentReport "hasOutstandingChildRequest");
                           Field "iouReportID" (get expenseReport "reportID")] |} ]
       ++ spliceIf (negb (isNull currentNextStep))
            [ {| onyxMethod := MERGE;
                 key := keyOf NEXT_STEP (get expenseReport "reportID");
                 value := currentNextStep |} ] |}.

End Orchestrators.

(* ===================================================================== *)
(** ** The report previews of a chat *)
(* ===================================================================== *)






Section PreviewSteps.
Context (c : jsval).


End PreviewSteps.

(* ===================================================================== *)
(** ** Vocabulary of the statements *)
(* ===================================================================== *)




(** The patches of a list that write report actions. *)
Definition reportActionsPatches (us : list OnyxUpdate) : list OnyxUpdate :=
  List.filter (fun u => bool_decide ((key u).1 = REPORT_ACTIONS)) us.

(** A patch of a report-actions collection all of whose entries null a
    given property ([{[id]: {pendingAction: null, ...}, ...}]). *)
Definition nullsProperty (f : string) (p : gmap string jsval) : Prop :=
  map_Forall (fun _ v => fields v !! f = Some VNull) p.

(** The properties of a report that the failure patches write. *)
Definition failureWrites : list string :=
  ["iouReportID"; "lastReadTime"; "pendingFields"; "hasOutstandingChildRequest"; "errorFields"].



(* ===================================================================== *)
(** ** A concrete environment *)
(* ===================================================================== *)

(** Stand-ins for the imported helpers, used to run the actions on
    concrete stores.  Each one does the least its name promises. *)
Module Sample.

Definition str (s : string) : jsval := VStr s.

Definition arg (args : list jsval) (i : nat) : jsval := default VUndefined (args !! i).

Definition message (text : string) : jsval :=
  VArr [objLit [Field "type" (str "COMMENT"); Field "html" (str text); Field "text" (str text)]].

Definition chatByParticipants (s : store) (participants : jsval) : jsval :=
  match map_to_list (filter (fun kv : onyxKey * jsval =>
                               kv.1.1 = REPORT
                               /\ toString (get kv.2 "participantAccountIDs") = toString participants)
                            s) with
  | (_, report) :: _ => report
  | [] => VUndefined
  end.

Definition env : Externals := {|
  CONST_PENDING_ACTION_ADD := str "add";
  CONST_PENDING_ACTION_UPDATE := str "update";
  CONST_PENDING_ACTION_DELETE := str "delete";
  CONST_IOU_RECEIPT_ERROR := str "receiptError";
  CONST_IOU_OPTIMISTIC_TRANSACTION_ID := str "1";
  CONST_IOU_REQUEST_TYPE_DISTANCE := str "distance";
  CONST_IOU_REPORT_ACTION_TYPE_CREATE := str "create";
  CONST_IOU_RECEIPT_STATE_SCANREADY := str "SCANREADY";
  CONST_REPORT_STATE_NUM_OPEN := VNum 0;
  CONST_REPORT_STATE_NUM_SUBMITTED := VNum 1;
  CONST_REPORT_STATE_NUM_APPROVED := VNum 2;
  CONST_REPORT_STATUS_NUM_OPEN := VNum 0;
  CONST_REPORT_STATUS_NUM_SUBMITTED := VNum 1;
  CONST_REPORT_STATUS_NUM_APPROVED := VNum 3;
  currentUserPersonalDetails := objLit [Field "accountID" (VNum 1)];
  betas := VArr [];
  Number := fun v => v;
  NumberUtils_rand64 := str "500";
  DateUtils_getDBTime := str "2023-12-01 10:00:00.000";
  DateUtils_subtractMillisecondsFromDateTime := fun _ _ => str "2023-12-01 09:59:59.999";
  ErrorUtils_getMicroSecondOnyxError := fun msg => objLit [Field "1701424800000000" msg];
  ErrorUtils_getMicroSecondOnyxErrorObject := fun o => objLit [Field "1701424800000000" o];
  CurrencyUtils_convertToDisplayString := fun amount currency =>
    str (toString currency +:+ " " +:+ toString amount);
  Localize_translateLocal := fun phrase params =>
    str (toString phrase +:+ ":" +:+ toString (get params "payer")
         +:+ ":" +:+ toString (get params "amount"));
  LocalePhoneNumber_formatPhoneNumber := fun v => v;
  OptionsListUtils_addSMSDomainIfPhoneNumber := fun v => v;
  UserUtils_getDefaultAvatarURL := fun _ => str "avatar.png";
  Permissions_canUseViolations := fun _ => false;
  PolicyUtils_isPolicyAdmin := fun policy => strictEq (get policy "role") (str "admin");
  PolicyUtils_isPaidGroupPolicy := fun policy => strictEq (get policy "type") (str "team");
  Policy_buildOptimisticPolicyRecentlyUsedCategories := fun _ _ => VArr [];
  Policy_buildOptimisticPolicyRecentlyUsedTags := fun _ _ => objLit [];
  ViolationsUtils_getViolationsOnyxData := fun _ => None;
  ReportUtils_getReport := fun s reportID => doc s (keyOf REPORT reportID);
  ReportUtils_getPolicy := fun _ _ => objLit [];
  ReportUtils_getChatByParticipants := chatByParticipants;
  ReportUtils_getPersonalDetailsForAccountID := fun s accountID =>
    get (doc s (PERSONAL_DETAILS_LIST, "")) (toString accountID);
  ReportUtils_hasIOUWaitingOnCurrentUserBankAccount := fun _ => false;
  ReportUtils_hasNonReimbursableTransactions := fun _ _ => false;
  ReportUtils_isDraftExpenseReport := fun report =>
    strictEq (get report "stateNum") (VNum 0) && strictEq (get report "statusNum") (VNum 0);
  ReportUtils_isExpenseReport := fun report => strictEq (get report "type") (str "expense");
  ReportUtils_buildOptimisticChatReport := fun participants =>
    objLit [Field "reportID" (str "100");
            Field "participantAccountIDs" participants;
            Field "pendingFields" (objLit [Field "createChat" (str "add")])];
  ReportUtils_buildOptimisticExpenseReport := fun args =>
    objLit [Field "reportID" (str "200");
            Field "type" (str "expense");
            Field "chatReportID" (arg args 0);
            Field "policyID" (arg args 1);
            Field "ownerAccountID" (arg args 2);
            Field "total" (jsNeg (arg args 3));
            Field "currency" (arg args 4);
            Field "stateNum" (VNum 0);
            Field "statusNum" (VNum 0)];
  ReportUtils_buildOptimisticIOUReport := fun args =>
    objLit [Field "reportID" (str "201");
            Field "type" (str "iou");
            Field "ownerAccountID" (arg args 0);
            Field "managerID" (arg args 1);
            Field "total" (arg args 2);
            Field "chatReportID" (arg args 3);
            Field "currency" (arg args 4)];
  ReportUtils_buildOptimisticCreatedReportAction := fun args =>
    objLit [Field "reportActionID" (str (match args with [_] => "400" | _ => "401" end));
            Field "actionName" (str "CREATED");
            Field "pendingAction" (str "add");
            Field "message" (message "created this report")];
  ReportUtils_buildOptimisticIOUReportAction := fun args =>
    objLit [Field "reportActionID" (str "402");
            Field "actionName" (str "IOU");
            Field "pendingAction" (str "add");
            Field "originalMessage"
              (objLit [Field "IOUTransactionID" (arg args 5); Field "IOUReportID" (arg args 7);
                       Field "amount" (arg args 1); Field "currency" (arg args 2)]);
            Field "message" (message "requested money")];
  ReportUtils_buildOptimisticModifiedExpenseReportAction := fun _ =>
    objLit [Field "reportActionID" (str "403");
            Field "actionName" (str "MODIFIEDEXPENSE");
            Field "actorAccountID" (VNum 1);
            Field "pendingAction" (str "add")];
  ReportUtils_buildOptimisticApprovedReportAction := fun _ =>
    objLit [Field "reportActionID" (str "404");
            Field "actionName" (str "APPROVED");
            Field "message" (message "approved")];
  ReportUtils_buildOptimisticSubmittedReportAction := fun _ =>
    objLit [Field "reportActionID" (str "405");
            Field "actionName" (str "SUBMITTED");
            Field "message" (message "submitted")];
  ReportUtils_getIOUReportActionMessage := fun _ => message "total changed";
  ReportUtils_getReportPreviewMessage := fun iouReport _ =>
    str ("owes " +:+ toString (get iouReport "total"));
  ReportUtils_getTransactionDetails := fun transaction => transaction;
  IOUUtils_updateIOUOwnerAndTotal := fun args =>
    setField (arg args 0) "total" (jsAdd (get (arg args 0) "total") (arg args 2));
  ReportActionsUtils_getLastVisibleAction := fun _ _ _ => VUndefined;
  ReportActionsUtils_getLastVisibleMessage := fun _ _ _ => objLit [Field "lastMessageText" (str "")];
  ReportActionsUtils_isDeletedParentAction := fun _ => false;
  TransactionUtils_buildOptimisticTransaction := fun args =>
    objLit [Field "transactionID" (str "300");
            Field "amount" (arg args 0);
            Field "currency" (arg args 1);
            Field "reportID" (arg args 2);
            Field "merchant" (arg args 7);
            Field "receipt" (arg args 8);
            Field "pendingAction" (str "add")];
  TransactionUtils_getUpdatedTransaction := fun args =>
    objLit [Spread (arg args 0);
            SpreadIf (has (arg args 1) "amount") [Field "modifiedAmount" (get (arg args 1) "amount")];
            SpreadIf (has (arg args 1) "currency")
              [Field "modifiedCurrency" (get (arg args 1) "currency")];
            Field "pendingFields" (objLit [Field "amount" (str "update")])];
  TransactionUtils_getAmount := fun transaction _ =>
    jsOr (get transaction "modifiedAmount") (get transaction "amount");
  TransactionUtils_getCurrency := fun transaction =>
    jsOr (get transaction "modifiedCurrency") (get transaction "currency");
  TransactionUtils_hasReceipt := fun transaction => truthy (get transaction "receipt");
  TransactionUtils_isReceiptBeingScanned := fun transaction =>
    strictEq (get (get transaction "receipt") "state") (str "SCANNING");
  TransactionUtils_isScanRequest := fun _ => false;
  ReportUtils_isPolicyExpenseChat := fun participant =>
    truthy (get participant "isPolicyExpenseChat");
  String_toLowerCase := fun v => v
|}.

(** A request of 5.00 USD made in a chat by the user [1] to the user [7]. *)
Definition participant : jsval :=
  objLit [Field "accountID" (VNum 7); Field "login" (str "payer@example.com")].

Definition requestIn (s : store) (report : jsval) : MoneyRequestInformation.t :=
  getMoneyRequestInformation env s report participant (str "lunch") (VNum 500) (str "USD")
    (str "2023-12-01") (str "Cafe") (VNum 1) (str "me@example.com")
    VUndefined VUndefined VUndefined VUndefined VUndefined VUndefined VUndefined VUndefined.

(** A chat created while offline, whose creation is still pending. *)
Definition pendingChat : jsval :=
  objLit [Field "reportID" (str "1");
          Field "participantAccountIDs" (VArr [VNum 7]);
          Field "pendingFields" (objLit [Field "createChat" (str "add")])].

Definition pendingChatStore : store := {[ keyOf REPORT (str "1") := pendingChat ]}.

(** A chat with an open IOU report of 10.00 USD. *)
Definition chatWithIOU : jsval :=
  objLit [Field "reportID" (str "1");
          Field "participantAccountIDs" (VArr [VNum 7]);
          Field "iouReportID" (str "2");
          Field "lastReadTime" (str "2023-11-30 08:00:00.000");
          Field "hasOutstandingChildRequest" (VBool false)].

Definition openIOU : jsval :=
  objLit [Field "reportID" (str "2");
          Field "type" (str "iou");
          Field "chatReportID" (str "1");
          Field "total" (VNum 1000);
          Field "currency" (str "USD");
          Field "lastMessageText" (str "owes 10.00")].

Definition iouStore : store :=
  <[ keyOf REPORT (str "1") := chatWithIOU ]> {[ keyOf REPORT (str "2") := openIOU ]}.

(** A workspace chat with an open expense report of 10.00 USD (expense
    reports store the negative of the spend). *)
Definition workspace : jsval :=
  objLit [Field "accountID" (VNum 0);
          Field "isPolicyExpenseChat" (VBool true);
          Field "reportID" (str "1")].

Definition expenseChat : jsval :=
  objLit [Field "reportID" (str "1");
          Field "policyID" (str "P");
          Field "isOwnPolicyExpenseChat" (VBool true);
          Field "iouReportID" (str "2")].

Definition openExpenseReport (currency : string) : jsval :=
  objLit [Field "reportID" (str "2");
          Field "type" (str "expense");
          Field "chatReportID" (str "1");
          Field "policyID" (str "P");
          Field "total" (VNum (-1000));
          Field "currency" (str currency);
          Field "stateNum" (VNum 0);
          Field "statusNum" (VNum 0)].

Definition expenseStore (currency : string) : store :=
  <[ keyOf REPORT (str "1") := expenseChat ]>
    {[ keyOf REPORT (str "2") := openExpenseReport currency ]}.

Definition teamPolicy : jsval :=
  objLit [Field "id" (str "P"); Field "type" (str "team"); Field "role" (str "user")].

(** An expense of 5.00 USD added to the workspace chat. *)
Definition expenseIn (s : store) : MoneyRequestInformation.t :=
  getMoneyRequestInformation env s expenseChat workspace (str "lunch") (VNum 500) (str "USD")
    (str "2023-12-01") (str "Cafe") (VNum 1) (str "me@example.com")
    VUndefined VUndefined VUndefined VUndefined VUndefined teamPolicy VUndefined VUndefined.

(** A request of 5.00 EUR filed on the IOU report in USD, with its
    transaction thread. *)
Definition euroTransaction : jsval :=
  objLit [Field "transactionID" (str "300");
          Field "reportID" (str "2");
          Field "amount" (VNum 500);
          Field "currency" (str "EUR")].

Definition transactionThread : jsval :=
  objLit [Field "reportID" (str "3");
          Field "parentReportID" (str "2");
          Field "parentReportActionID" (str "402")].

Definition editStore : store :=
  <[ keyOf REPORT (str "3") := transactionThread ]>
    (<[ keyOf TRANSACTION (str "300") := euroTransaction ]> iouStore).

Definition amountChange : jsval := objLit [Field "amount" (VNum 700)].

(** The only request of an IOU report, with the report's preview in the
    chat and no transaction thread. *)
Definition onlyRequestAction : jsval :=
  objLit [Field "reportActionID" (str "402");
          Field "actionName" (str "IOU");
          Field "actorAccountID" (VNum 1);
          Field "originalMessage"
            (objLit [Field "IOUReportID" (str "2"); Field "IOUTransactionID" (str "300")]);
          Field "message" (message "requested 5.00")].

Definition previewOfIOU (count : jsval) : jsval :=
  objLit [Field "reportActionID" (str "500");
          Field "actionName" (str "REPORTPREVIEW");
          Field "childReportID" (str "2");
          Field "childMoneyRequestCount" count;
          Field "message" (message "owes 10.00")].

Definition deleteStore (count : jsval) : store :=
  <[ keyOf REPORT_ACTIONS (str "1") := objLit [Field "500" (previewOfIOU count)] ]>
    (<[ keyOf REPORT_ACTIONS (str "2") := objLit [Field "402" onlyRequestAction] ]>
       (<[ keyOf TRANSACTION (str "300") :=
             objLit [Field "transactionID" (str "300"); Field "reportID" (str "2");
                     Field "amount" (VNum 1000); Field "currency" (str "USD")] ]>
          iouStore)).

(** An expense report that has been submitted and awaits approval, and
    the same report while still open. *)
Definition expenseReportIn (stateNum statusNum : Z) : jsval :=
  objLit [Field "reportID" (str "2");
          Field "type" (str "expense");
          Field "chatReportID" (str "1");
          Field "parentReportID" (str "1");
          Field "managerID" (VNum 9);
          Field "total" (VNum (-1000));
          Field "currency" (str "USD");
          Field "stateNum" (VNum stateNum);
          Field "statusNum" (VNum statusNum)].

Definition reportStore (stateNum statusNum : Z) : store :=
  <[ keyOf REPORT (str "1") := expenseChat ]>
    {[ keyOf REPORT (str "2") := expenseReportIn stateNum statusNum ]}.



(** The entities of a new request, as the builders would hand them to
    [buildOnyxDataForMoneyRequest]. *)
Definition newTransaction : jsval :=
  objLit [Field "transactionID" (str "300");
          Field "amount" (VNum 500);
          Field "currency" (str "USD");
          Field "reportID" (str "2");
          Field "receipt" (objLit []);
          Field "pendingAction" (str "add")].

Definition createdAction : jsval :=
  objLit [Field "reportActionID" (str "400");
          Field "actionName" (str "CREATED");
          Field "pendingAction" (str "add")].

Definition newIOUAction : jsval :=
  objLit [Field "reportActionID" (str "402");
          Field "actionName" (str "IOU");
          Field "pendingAction" (str "add");
          Field "message" (message "requested money")].

Definition preview : jsval :=
  objLit [Field "reportActionID" (str "500");
          Field "actionName" (str "REPORTPREVIEW");
          Field "childReportID" (str "2");
          Field "childMoneyRequestCount" (VNum 1);
          Field "message" (message "owes 10.00")].

Definition build (chat iou : jsval) (isNewChatReport isNewIOUReport : bool) : OnyxData :=
  buildOnyxDataForMoneyRequest env chat iou newTransaction createdAction createdAction
    newIOUAction VUndefined preview (VArr []) (objLit []) isNewChatReport isNewIOUReport
    VUndefined VUndefined VUndefined true.


End Sample.

(* ===================================================================== *)
(** ** Writing to the store outside a request *)
(* ===================================================================== *)

(** What a write of [v] leaves under a key that held [old]: the value the
    key holds after [Onyx.set] or [Onyx.merge], as [applyUpdate] has it. *)
Definition writeValue (m : method) (v : jsval) (old : option jsval) : option jsval :=
  match m, v with
  | SET, (VNull | VUndefined) => None
  | SET, v => Some v
  | MERGE, VNull => None
  | MERGE, VUndefined => old
  | MERGE, v => Some (fastMerge v (default VUndefined old))
  end.

(** [Onyx.set(key, value)] and [Onyx.merge(key, value)] *)
Definition Onyx_set (s : store) (k : onyxKey) (v : jsval) : store :=
  applyUpdate s {| onyxMethod := SET; key := k; value := v |}.

Definition Onyx_merge (s : store) (k : onyxKey) (v : jsval) : store :=
  applyUpdate s {| onyxMethod := MERGE; key := k; value := v |}.

(** The items [_.filter] and [_.map] go through: the elements of an
    array, the characters of a string, the property values of an object
    (an object with a numeric [length], which underscore takes for an
    array, does not occur); nothing for any other value. *)
Definition items (v : jsval) : list jsval :=
  match v with
  | VArr l => l
  | VStr s => (fun c => VStr (String c "")) <$> String.list_ascii_of_string s
  | VObj o => (map_to_list o).*2
  | _ => []
  end.

(** The segment [.0] of a [lodashGet] path. *)
Definition elementAt (v : jsval) (i : nat) : jsval :=
  match v with
  | VArr l => default VUndefined (l !! i)
  | VObj o => default VUndefined (o !! pretty i)
  | _ => VUndefined
  end.

(** [path.slice(1)] on a string. *)
Definition String_slice1 (v : jsval) : jsval :=
  match v with
  | VStr (String _ rest) => VStr rest
  | VStr EmptyString => VStr ""
  | _ => VUndefined
  end.

(** [_.mapObject(o, () => v)] *)
Definition mapObjectConst (o v : jsval) : jsval := VObj ((fun _ => v) <$> fields o).

(** [_.pick(o, _.keys(keys))]: the properties of [o] that [keys] names. *)
Definition pickKeysOf (o keys : jsval) : jsval :=
  VObj (filter (fun kv : string * jsval => is_Some (fields keys !! kv.1)) (fields o)).

(** A key of [allTransactions] given in full: the member under it when it
    starts with the prefix of the collection. *)
Fixpoint stripPrefix (prefix k : string) : option string :=
  match prefix, k with
  | EmptyString, _ => Some k
  | String a p, String b r => if Ascii.eqb a b then stripPrefix p r else None
  | String _ _, EmptyString => None
  end.

(** The further constants, session values and helpers the actions below
    import. *)
Record MoreExternals := {
  (* CONST and ONYXKEYS *)
  CONST_CURRENCY_USD : jsval;
  CONST_TRANSACTION_PARTIAL_TRANSACTION_MERCHANT : jsval;
  CONST_IOU_REQUEST_TYPE_MANUAL : jsval;
  CONST_IOU_RECEIPT_STATE_OPEN : jsval;
  CONST_IOU_REPORT_ACTION_TYPE_PAY : jsval;
  CONST_IOU_PAYMENT_TYPE_EXPENSIFY : jsval;
  CONST_REPORT_STATUS_NUM_REIMBURSED : jsval;
  CONST_DATE_FNS_FORMAT_STRING : jsval;
  ONYXKEYS_COLLECTION_TRANSACTION : string;
  ReceiptGeneric : jsval;
  (* the session and the clock *)
  currentDate : jsval;
  userAccountID : jsval;
  currentUserEmail : jsval;
  format_new_Date : jsval -> jsval;
  (** [DateUtils.getMicroseconds()], read once for each field named. *)
  DateUtils_getMicroseconds : string -> jsval;
  (* built-ins *)
  String_trim : jsval -> jsval;
  JSON_stringify : jsval -> jsval;
  (* libraries *)
  ReportUtils_isMoneyRequestReport : jsval -> bool;
  ROUTES_MONEY_REQUEST_RECEIPT_getRoute : jsval -> jsval -> jsval;
  ROUTES_MONEY_REQUEST_CONFIRMATION_getRoute : jsval -> jsval -> jsval;
  ROUTES_MONEY_REQUEST_PARTICIPANTS_getRoute : jsval -> jsval
}.

(** A call of [API.write]. *)
Record ApiWrite := {
  command : string;
  parameters : jsval;
  onyxData : OnyxData
}.

Section Drafts.
Context (E : Externals) (M : MoreExternals).

(** Initialize money request info *)
Definition startMoneyRequest_temporaryForRefactor (s : store)
    (reportID isFromGlobalCreate iouRequestType : jsval) : store :=
  let iouRequestType :=
    match iouRequestType with
    | VUndefined => CONST_IOU_REQUEST_TYPE_MANUAL M
    | _ => iouRequestType
    end in
  (* Generate a brand new transactionID *)
  let newTransactionID := CONST_IOU_OPTIMISTIC_TRANSACTION_ID E in
  let created := jsOr (currentDate M) (format_new_Date M (VStr "yyyy-MM-dd")) in
  (* Add initial empty waypoints when starting a distance request *)
  let comment :=
    if strictEq iouRequestType (CONST_IOU_REQUEST_TYPE_DISTANCE E)
    then objLit [Field "waypoints"
                   (objLit [Field "waypoint0" (objLit []); Field "waypoint1" (objLit [])])]
    else objLit [] in
  (* Store the transaction in Onyx and mark it as not saved so it can be cleaned up later.
     Use set() here so that there is no way that data will be leaked between objects when
     it gets reset *)
  Onyx_set s (keyOf TRANSACTION_DRAFT newTransactionID)
    (objLit [Field "amount" (VNum 0);
             Field "comment" comment;
             Field "created" created;
             Field "currency"
               (lodashGet (currentUserPersonalDetails E) "localCurrencyCode"
                  (CONST_CURRENCY_USD M));
             Field "iouRequestType" iouRequestType;
             Field "reportID" reportID;
             Field "transactionID" newTransactionID;
             Field "isFromGlobalCreate" isFromGlobalCreate;
             Field "merchant" (CONST_TRANSACTION_PARTIAL_TRANSACTION_MERCHANT M)]).

Definition clearMoneyRequest (s : store) (transactionID : jsval) : store :=
  Onyx_set s (keyOf TRANSACTION_DRAFT transactionID) VNull.

Definition setMoneyRequestAmount_temporaryForRefactor (s : store)
    (transactionID amount currency : jsval) : store :=
  Onyx_merge s (keyOf TRANSACTION_DRAFT transactionID)
    (objLit [Field "amount" amount; Field "currency" currency]).

Definition setMoneyRequestCreated_temporaryForRefactor (s : store)
    (transactionID created : jsval) : store :=
  Onyx_merge s (keyOf TRANSACTION_DRAFT transactionID) (objLit [Field "created" created]).

Definition setMoneyRequestCurrency_temporaryForRefactor (s : store)
    (transactionID currency : jsval) : store :=
  Onyx_merge s (keyOf TRANSACTION_DRAFT transactionID) (objLit [Field "currency" currency]).

Definition setMoneyRequestDescription_temporaryForRefactor (s : store)
    (transactionID comment : jsval) : store :=
  Onyx_merge s (keyOf TRANSACTION_DRAFT transactionID)
    (objLit [Field "comment" (objLit [Field "comment" (String_trim M comment)])]).

Definition setMoneyRequestMerchant_temporaryForRefactor (s : store)
    (transactionID merchant : jsval) : store :=
  Onyx_merge s (keyOf TRANSACTION_DRAFT transactionID)
    (objLit [Field "merchant" (String_trim M merchant)]).

Definition setMoneyRequestCategory_temporaryForRefactor (s : store)
    (transactionID category : jsval) : store :=
  Onyx_merge s (keyOf TRANSACTION_DRAFT transactionID) (objLit [Field "category" category]).

Definition resetMoneyRequestCategory_temporaryForRefactor (s : store)
    (transactionID : jsval) : store :=
  Onyx_merge s (keyOf TRANSACTION_DRAFT transactionID) (objLit [Field "category" VNull]).

Definition setMoneyRequestTag_temporaryForRefactor (s : store)
    (transactionID tag : jsval) : store :=
  Onyx_merge s (keyOf TRANSACTION_DRAFT transactionID) (objLit [Field "tag" tag]).

Definition resetMoneyRequestTag_temporaryForRefactor (s : store)
    (transactionID : jsval) : store :=
  Onyx_merge s (keyOf TRANSACTION_DRAFT transactionID) (objLit [Field "tag" VNull]).

Definition setMoneyRequestBillable_temporaryForRefactor (s : store)
    (transactionID billable : jsval) : store :=
  Onyx_merge s (keyOf TRANSACTION_DRAFT transactionID) (objLit [Field "billable" billable]).

Definition setMoneyRequestParticipants_temporaryForRefactor (s : store)
    (transactionID participants : jsval) : store :=
  Onyx_merge s (keyOf TRANSACTION_DRAFT transactionID)
    (objLit [Field "participants" participants]).

Definition setMoneyRequestReceipt (s : store)
    (transactionID source filename isDraft : jsval) : store :=
  Onyx_merge s
    (keyOf (if truthy isDraft then TRANSACTION_DRAFT else TRANSACTION) transactionID)
    (objLit [Field "receipt" (objLit [Field "source" source]);
             Field "filename" filename]).

Definition setMoneyRequestTaxRate (s : store) (transactionID taxRate : jsval) : store :=
  Onyx_merge s (keyOf TRANSACTION_DRAFT transactionID) (objLit [Field "taxRate" taxRate]).

Definition setMoneyRequestTaxAmount (s : store) (transactionID taxAmount : jsval) : store :=
  Onyx_merge s (keyOf TRANSACTION_DRAFT transactionID) (objLit [Field "taxAmount" taxAmount]).

(** The participants of a request started on a report: the workspace for
    a policy expense chat, the other members of the chat otherwise. *)
Definition participantsOfChat (chatReport : jsval) : jsval :=
  let currentUserAccountID := get (currentUserPersonalDetails E) "accountID" in
  if ReportUtils_isPolicyExpenseChat E chatReport
  then VArr [objLit [Field "reportID" (get chatReport "reportID");
                     Field "isPolicyExpenseChat" (VBool true);
                     Field "selected" (VBool true)]]
  else VArr (map (fun accountID =>
                    objLit [Field "accountID" accountID; Field "selected" (VBool true)])
               (List.filter (fun accountID => negb (strictEq currentUserAccountID accountID))
                  (items (get chatReport "participantAccountIDs")))).

(** Finds the participants for an IOU based on the attached report *)
Definition setMoneyRequestParticipantsFromReport (s : store)
    (transactionID report : jsval) : option store :=
  (* If the report is iou or expense report, we should get the chat report to set
     participant for request money *)
  chatReport ← deref (if ReportUtils_isMoneyRequestReport M report
                      then ReportUtils_getReport E s (get report "chatReportID")
                      else report);
  Some (Onyx_merge s (keyOf TRANSACTION_DRAFT transactionID)
          (objLit [Field "participants" (participantsOfChat chatReport);
                   Field "participantsAutoAssigned" (VBool true)])).

End Drafts.

Section Receipts.
Context (E : Externals) (M : MoreExternals).

Definition detachReceipt (s : store) (transactionID : jsval) : ApiWrite :=
  let transaction := jsOr (doc s (keyOf TRANSACTION transactionID)) (objLit []) in
  let newTransaction :=
    objLit [Spread transaction; Field "filename" (VStr ""); Field "receipt" (objLit [])] in
  {| command := "DetachReceipt";
     parameters := objLit [Field "transactionID" transactionID];
     onyxData :=
       {| optimisticData :=
            [ {| onyxMethod := SET;
                 key := keyOf TRANSACTION transactionID;
                 value := newTransaction |} ];
          successData := [];
          failureData :=
            [ {| onyxMethod := MERGE;
                 key := keyOf TRANSACTION transactionID;
                 value := transaction |} ] |} |}.

(** [lodashGet(allTransactions, k, d)] for a key [k] given in full: the
    keys of [allTransactions] are the prefix of the collection followed by
    the identifier of a transaction. *)
Definition lodashGet_allTransactions (s : store) (k : string) (d : jsval) : jsval :=
  match stripPrefix (ONYXKEYS_COLLECTION_TRANSACTION M) k with
  | Some id =>
      match doc s (TRANSACTION, id) with
      | VUndefined => d
      | transaction => transaction
      end
  | None => d
  end.

Definition replaceReceipt (s : store) (transactionID file source : jsval) : ApiWrite :=
  let transaction := lodashGet_allTransactions s "transactionID" (objLit []) in
  let oldReceipt := lodashGet transaction "receipt" (objLit []) in
  {| command := "ReplaceReceipt";
     parameters := objLit [Field "transactionID" transactionID; Field "receipt" file];
     onyxData :=
       {| optimisticData :=
            [ {| onyxMethod := MERGE;
                 key := keyOf TRANSACTION transactionID;
                 value :=
                   objLit [Field "receipt"
                             (objLit [Field "source" source;
                                      Field "state" (CONST_IOU_RECEIPT_STATE_OPEN M)]);
                           Field "filename" (get file "name")] |} ];
          successData := [];
          failureData :=
            [ {| onyxMethod := MERGE;
                 key := keyOf TRANSACTION transactionID;
                 value :=
                   objLit [Field "receipt" oldReceipt;
                           Field "filename" (get transaction "filename")] |} ] |} |}.

End Receipts.

(* ===================================================================== *)
(** ** Updating one field of a money request *)
(* ===================================================================== *)

Section UpdateMoneyRequest.
Context (E : Externals) (M : MoreExternals).

(** [getUpdateMoneyRequestParams] from the point where it holds the
    documents it updates. *)
Definition getUpdateMoneyRequestParamsData (s : store)
    (transactionID transactionThreadReportID transactionChanges : jsval)
    (onlyIncludeChangedFields : bool) (transactionThread iouReport : jsval)
    : jsval * OnyxData :=
  (* Step 1: Set any "pending fields" (ones updated while the user was offline) to have
     error messages in the failureData *)
  let pendingFields := mapObjectConst transactionChanges (CONST_PENDING_ACTION_UPDATE E) in
  let clearedPendingFields := mapObjectConst transactionChanges VNull in
  let errorFields :=
    VObj (map_imap
            (fun field _ =>
               Some (objLit [Field (toString (DateUtils_getMicroseconds M field))
                               (Localize_translateLocal E
                                  (VStr "iou.error.genericEditFailureMessage") VUndefined)]))
            (fields pendingFields)) in
  (* Step 2: Get all the collections being updated *)
  let transaction := doc s (keyOf TRANSACTION transactionID) in
  let isFromExpenseReport := ReportUtils_isExpenseReport E iouReport in
  let isScanning :=
    TransactionUtils_hasReceipt E transaction
    && TransactionUtils_isReceiptBeingScanned E transaction in
  let updatedTransaction :=
    TransactionUtils_getUpdatedTransaction E
      [transaction; transactionChanges; VBool isFromExpenseReport] in
  let transactionDetails := ReportUtils_getTransactionDetails E updatedTransaction in
  (* This needs to be a JSON string since we're sending this to the MapBox API *)
  let transactionDetails :=
    setField transactionDetails "waypoints"
      (JSON_stringify M (get transactionDetails "waypoints")) in
  let dataToIncludeInParams :=
    if onlyIncludeChangedFields
    then pickKeysOf transactionDetails transactionChanges
    else transactionDetails in
  let params :=
    objLit [Spread dataToIncludeInParams;
            Field "reportID" (get iouReport "reportID");
            Field "transactionID" transactionID] in
  (* Step 3: Build the modified expense report actions.  We don't create a modified report
     action if we're updating the waypoints, since there isn't actually any optimistic data
     we can create for them and the report action is created on the server with the
     response from the MapBox API *)
  let hasWaypoints := has transactionChanges "waypoints" in
  let updatedReportAction :=
    ReportUtils_buildOptimisticModifiedExpenseReportAction E
      [transactionThread; transaction; transactionChanges; VBool isFromExpenseReport] in
  let params :=
    if hasWaypoints then params
    else setField params "reportActionID" (get updatedReportAction "reportActionID") in
  (* Step 4: Compute the IOU total and update the report preview message (and report
     header) so LHN amount owed is correct.  Should only update if the transaction matches
     the currency of the report, else we wait for the update from the server with the
     currency conversion *)
  let updatesReport :=
    negb hasWaypoints
    && strictEq (get updatedTransaction "currency") (get iouReport "currency")
    && truthy (get updatedTransaction "modifiedAmount") in
  let diff :=
    jsSub (TransactionUtils_getAmount E transaction true)
          (TransactionUtils_getAmount E updatedTransaction true) in
  let updatedMoneyRequestReport :=
    let updated :=
      if ReportUtils_isExpenseReport E iouReport
      then setField (objLit [Spread iouReport]) "total" (jsAdd (get iouReport "total") diff)
      else IOUUtils_updateIOUOwnerAndTotal E
             [iouReport; get updatedReportAction "actorAccountID"; diff;
              TransactionUtils_getCurrency E transaction; VBool false] in
    setField updated "cachedTotal"
      (CurrencyUtils_convertToDisplayString E (get updated "total")
         (get updatedTransaction "currency")) in
  let optimisticPolicyRecentlyUsedCategories :=
    Policy_buildOptimisticPolicyRecentlyUsedCategories E (get iouReport "policyID")
      (get transactionChanges "category") in
  let optimisticPolicyRecentlyUsedTags :=
    Policy_buildOptimisticPolicyRecentlyUsedTags E (get iouReport "policyID")
      (get transactionChanges "tag") in
  (params,
   {| optimisticData :=
        spliceIf (negb hasWaypoints)
          [ {| onyxMethod := MERGE;
               key := keyOf REPORT_ACTIONS (get transactionThread "reportID");
               value := objLit [Field (toString (get updatedReportAction "reportActionID"))
                                  updatedReportAction] |} ]
        ++ spliceIf updatesReport
             [ {| onyxMethod := MERGE;
                  key := keyOf REPORT (get iouReport "reportID");
                  value := updatedMoneyRequestReport |} ]
        (* Optimistically modify the transaction *)
        ++ [ {| onyxMethod := MERGE;
                key := keyOf TRANSACTION transactionID;
                value := objLit [Spread updatedTransaction;
                                 Field "pendingFields" pendingFields;
                                 Field "isLoading" (VBool hasWaypoints);
                                 Field "errorFields" VNull] |} ]
        ++ spliceIf (isScanning
                     && (has transactionChanges "amount" || has transactionChanges "currency"))
             [ {| onyxMethod := MERGE;
                  key := keyOf REPORT_ACTIONS (get iouReport "reportID");
                  value := objLit [Field (toString (get transactionThread "parentReportActionID"))
                                     (objLit [Field "whisperedToAccountIDs" (VArr [])])] |};
               {| onyxMethod := MERGE;
                  key := keyOf REPORT_ACTIONS (get iouReport "parentReportID");
                  value := objLit [Field (toString (get iouReport "parentReportActionID"))
                                     (objLit [Field "whisperedToAccountIDs" (VArr [])])] |} ]
        (* Update recently used categories if the category is changed *)
        ++ spliceIf (has transactionChanges "category"
                     && negb (isEmpty optimisticPolicyRecentlyUsedCategories))
             [ {| onyxMethod := SET;
                  key := keyOf POLICY_RECENTLY_USED_CATEGORIES (get iouReport "policyID");
                  value := optimisticPolicyRecentlyUsedCategories |} ]
        (* Update recently used categories if the tag is changed *)
        ++ spliceIf (has transactionChanges "tag"
                     && negb (isEmpty optimisticPolicyRecentlyUsedTags))
             [ {| onyxMethod := MERGE;
                  key := keyOf POLICY_RECENTLY_USED_TAGS (get iouReport "policyID");
                  value := optimisticPolicyRecentlyUsedTags |} ];
      successData :=
        spliceIf (negb hasWaypoints)
          [ {| onyxMethod := MERGE;
               key := keyOf REPORT_ACTIONS (get transactionThread "reportID");
               value := objLit [Field (toString (get updatedReportAction "reportActionID"))
                                  (objLit [Field "pendingAction" VNull])] |} ]
        ++ spliceIf updatesReport
             [ {| onyxMethod := MERGE;
                  key := keyOf REPORT (get iouReport "reportID");
                  value := objLit [Field "pendingAction" VNull] |} ]
        (* Clear out the error fields and loading states on success *)
        ++ [ {| onyxMethod := MERGE;
                key := keyOf TRANSACTION transactionID;
                value := objLit [Field "pendingFields" clearedPendingFields;
                                 Field "isLoading" (VBool false);
                                 Field "errorFields" VNull] |} ]
        (* Delete the draft transaction when editing waypoints when the server responds
           successfully and there are no errors *)
        ++ spliceIf hasWaypoints
             [ {| onyxMethod := SET;
                  key := keyOf TRANSACTION_DRAFT transactionID;
                  value := VNull |} ];
      failureData :=
        spliceIf (negb hasWaypoints)
          [ {| onyxMethod := MERGE;
               key := keyOf REPORT_ACTIONS (get transactionThread "reportID");
               value :=
                 objLit [Field (toString (get updatedReportAction "reportActionID"))
                           (objLit [Spread updatedReportAction;
                                    Field "errors"
                                      (ErrorUtils_getMicroSecondOnyxError E
                                         (VStr "iou.error.genericEditFailureMessage"))])] |} ]
        (* Clear out loading states, pending fields, and add the error fields *)
        ++ [ {| onyxMethod := MERGE;
                key := keyOf TRANSACTION transactionID;
                value := objLit [Field "pendingFields" clearedPendingFields;
                                 Field "isLoading" (VBool false);
                                 Field "errorFields" errorFields] |};
             (* Reset the iouReport to it's original state *)
             {| onyxMethod := MERGE;
                key := keyOf REPORT (get iouReport "reportID");
                value := iouReport |} ] |}).

Definition getUpdateMoneyRequestParams (s : store)
    (transactionID transactionThreadReportID transactionChanges : jsval)
    (onlyIncludeChangedFields : bool) : option (jsval * OnyxData) :=
  transactionThread ← deref (doc s (keyOf REPORT transactionThreadReportID));
  iouReport ← deref (doc s (keyOf REPORT (get transactionThread "parentReportID")));
  Some (getUpdateMoneyRequestParamsData s transactionID transactionThreadReportID
          transactionChanges onlyIncludeChangedFields transactionThread iouReport).

(** Updates the created date of a money request *)
Definition updateMoneyRequestDate (s : store)
    (transactionID transactionThreadReportID val : jsval) : option ApiWrite :=
  let transactionChanges := objLit [Field "created" val] in
  r ← getUpdateMoneyRequestParams s transactionID transactionThreadReportID
         transactionChanges true;
  Some {| command := "UpdateMoneyRequestDate"; parameters := r.1; onyxData := r.2 |}.

(** Updates the billable field of a money request *)
Definition updateMoneyRequestBillable (s : store)
    (transactionID transactionThreadReportID val : jsval) : option ApiWrite :=
  let transactionChanges := objLit [Field "billable" val] in
  r ← getUpdateMoneyRequestParams s transactionID transactionThreadReportID
         transactionChanges true;
  Some {| command := "UpdateMoneyRequestBillable"; parameters := r.1; onyxData := r.2 |}.

(** Updates the merchant field of a money request *)
Definition updateMoneyRequestMerchant (s : store)
    (transactionID transactionThreadReportID val : jsval) : option ApiWrite :=
  let transactionChanges := objLit [Field "merchant" val] in
  r ← getUpdateMoneyRequestParams s transactionID transactionThreadReportID
         transactionChanges true;
  Some {| command := "UpdateMoneyRequestMerchant"; parameters := r.1; onyxData := r.2 |}.

(** Updates the tag of a money request *)
Definition updateMoneyRequestTag (s : store)
    (transactionID transactionThreadReportID tag : jsval) : option ApiWrite :=
  let transactionChanges := objLit [Field "tag" tag] in
  r ← getUpdateMoneyRequestParams s transactionID transactionThreadReportID
         transactionChanges true;
  Some {| command := "UpdateMoneyRequestTag"; parameters := r.1; onyxData := r.2 |}.

(** Updates the waypoints of a distance money request *)
Definition updateMoneyRequestDistance (s : store)
    (transactionID transactionThreadReportID waypoints : jsval) : option ApiWrite :=
  let transactionChanges := objLit [Field "waypoints" waypoints] in
  r ← getUpdateMoneyRequestParams s transactionID transactionThreadReportID
         transactionChanges true;
  Some {| command := "UpdateMoneyRequestDistance"; parameters := r.1; onyxData := r.2 |}.

(** Updates the category of a money request *)
Definition updateMoneyRequestCategory (s : store)
    (transactionID transactionThreadReportID category : jsval) : option ApiWrite :=
  let transactionChanges := objLit [Field "category" category] in
  r ← getUpdateMoneyRequestParams s transactionID transactionThreadReportID
         transactionChanges true;
  Some {| command := "UpdateMoneyRequestCategory"; parameters := r.1; onyxData := r.2 |}.

(** Updates the description of a money request *)
Definition updateMoneyRequestDescription (s : store)
    (transactionID transactionThreadReportID comment : jsval) : option ApiWrite :=
  let transactionChanges := objLit [Field "comment" comment] in
  r ← getUpdateMoneyRequestParams s transactionID transactionThreadReportID
         transactionChanges true;
  Some {| command := "UpdateMoneyRequestDescription"; parameters := r.1; onyxData := r.2 |}.

End UpdateMoneyRequest.

(* ===================================================================== *)
(** ** The request in progress under [ONYXKEYS.IOU] *)
(* ===================================================================== *)

(** The document under [ONYXKEYS.IOU] is one document outside the
    collections: [None] when there is none. *)
Section RequestInProgress.
Context (E : Externals) (M : MoreExternals).

(** [Onyx.merge(ONYXKEYS.IOU, patch)] *)
Definition mergeIOU (stored : option jsval) (patch : jsval) : option jsval :=
  writeValue MERGE patch stored.

(** Reset money request info from the store with its initial value *)
Definition resetMoneyRequestInfo (stored : option jsval) (id : jsval) : option jsval :=
  let id := match id with VUndefined => VStr "" | _ => id end in
  let created :=
    jsOr (currentDate M) (format_new_Date M (CONST_DATE_FNS_FORMAT_STRING M)) in
  mergeIOU stored
    (objLit [Field "id" id;
             Field "amount" (VNum 0);
             Field "currency"
               (lodashGet (currentUserPersonalDetails E) "localCurrencyCode"
                  (CONST_CURRENCY_USD M));
             Field "comment" (VStr "");
             Field "participants" (VArr []);
             Field "merchant" (CONST_TRANSACTION_PARTIAL_TRANSACTION_MERCHANT M);
             Field "category" (VStr "");
             Field "tag" (VStr "");
             Field "created" created;
             Field "receiptPath" (VStr "");
             Field "receiptFilename" (VStr "");
             Field "transactionID" (VStr "");
             Field "billable" VNull;
             Field "isSplitRequest" (VBool false)]).

Definition resetMoneyRequestCategory (stored : option jsval) : option jsval :=
  mergeIOU stored (objLit [Field "category" (VStr "")]).

Definition resetMoneyRequestTag (stored : option jsval) : option jsval :=
  mergeIOU stored (objLit [Field "tag" (VStr "")]).

Definition setMoneyRequestParticipants (stored : option jsval)
    (participants isSplitRequest : jsval) : option jsval :=
  mergeIOU stored
    (objLit [Field "participants" participants; Field "isSplitRequest" isSplitRequest]).

(** Navigates to the next IOU page based on where the IOU request was
    started: the document under [ONYXKEYS.IOU] afterwards, and the route
    navigated to. *)
Definition navigateToNextPage (s : store) (stored : option jsval)
    (iou iouType report path : jsval) : option (option jsval * jsval) :=
  let path := match path with VUndefined => VStr "" | _ => path end in
  let moneyRequestID :=
    VStr (toString iouType +:+ toString (jsOr (get report "reportID") (VStr ""))) in
  let shouldReset :=
    negb (strictEq (get iou "id") moneyRequestID)
    && negb (isEmpty (get report "reportID")) in
  (* If the money request ID in Onyx does not match the ID from params, we want to start a
     new request with the ID from params. We need to clear the participants in case the new
     request is initiated from FAB. *)
  let stored := if shouldReset then resetMoneyRequestInfo stored moneyRequestID else stored in
  let confirmation :=
    ROUTES_MONEY_REQUEST_CONFIRMATION_getRoute M iouType (get report "reportID") in
  (* If we're adding a receipt, that means the user came from the confirmation page and we
     need to navigate back to it. *)
  if strictEq (String_slice1 path)
       (ROUTES_MONEY_REQUEST_RECEIPT_getRoute M iouType (get report "reportID"))
  then Some (stored, confirmation)
  (* If a request is initiated on a report, skip the participants selection step and
     navigate to the confirmation page. *)
  else if truthy (get report "reportID") then
    (* Reinitialize the participants when the money request ID in Onyx does not match the
       ID from params *)
    if isEmpty (get iou "participants") || shouldReset then
      (* If the report is iou or expense report, we should get the chat report to set
         participant for request money *)
      chatReport ← deref (if ReportUtils_isMoneyRequestReport M report
                          then ReportUtils_getReport E s (get report "chatReportID")
                          else report);
      let stored :=
        setMoneyRequestParticipants stored (participantsOfChat E chatReport) VUndefined in
      let stored := resetMoneyRequestCategory stored in
      let stored := resetMoneyRequestTag stored in
      Some (stored, confirmation)
    else Some (stored, confirmation)
  else Some (stored, ROUTES_MONEY_REQUEST_PARTICIPANTS_getRoute M iouType).

(** When the money request or split bill creation flow is initialized via
    FAB, the reportID is not passed as a navigation parameter.  Gets a
    report id from the first participant of the IOU object stored in
    Onyx. *)
Definition getIOUReportID (iou route : jsval) : jsval :=
  jsOr (get (get route "params") "reportID")
       (lodashGet (elementAt (get iou "participants") 0) "reportID" (VStr "")).

End RequestInProgress.

(* ===================================================================== *)
(** ** Sending a request to the server *)
(* ===================================================================== *)

(** What a request does besides writing to the server: the request in
    progress under [ONYXKEYS.IOU] afterwards, the report
    [Navigation.dismissModal] goes to, and the arguments of
    [Report.notifyNewAction]. *)
Record RequestEffects := {
  apiWrite : ApiWrite;
  requestInProgress : option jsval;
  dismissModal : jsval;
  notifyNewAction : jsval * jsval
}.

Section Requests.
Context (E : Externals) (M : MoreExternals).

(** Requests money based on a distance (eg. mileage from a map) *)
Definition createDistanceRequest (s : store) (stored : option jsval)
    (report participant comment created category tag amount currency merchant billable
     validWaypoints policy policyTags policyCategories : jsval) : RequestEffects :=
  (* If the report is an iou or expense report, we should get the linked chat report to be
     passed to the getMoneyRequestInformation function *)
  let isMoneyRequestReport := ReportUtils_isMoneyRequestReport M report in
  let currentChatReport :=
    if isMoneyRequestReport
    then ReportUtils_getReport E s (get report "chatReportID") else report in
  let optimisticReceipt :=
    objLit [Field "source" (ReceiptGeneric M);
            Field "state" (CONST_IOU_RECEIPT_STATE_OPEN M)] in
  let r :=
    getMoneyRequestInformation E s currentChatReport participant comment amount currency
      created merchant (userAccountID M) (currentUserEmail M) optimisticReceipt VUndefined
      category tag billable policy policyTags policyCategories in
  let iouReport := MoneyRequestInformation.iouReport r in
  let chatReport := MoneyRequestInformation.chatReport r in
  {| apiWrite :=
       {| command := "CreateDistanceRequest";
          parameters :=
            objLit [Field "comment" comment;
                    Field "iouReportID" (get iouReport "reportID");
                    Field "chatReportID" (get chatReport "reportID");
                    Field "transactionID"
                      (get (MoneyRequestInformation.transaction r) "transactionID");
                    Field "reportActionID"
                      (get (MoneyRequestInformation.iouAction r) "reportActionID");
                    Field "createdChatReportActionID"
                      (MoneyRequestInformation.createdChatReportActionID r);
                    Field "createdIOUReportActionID"
                      (MoneyRequestInformation.createdIOUReportActionID r);
                    Field "reportPreviewReportActionID"
                      (get (MoneyRequestInformation.reportPreviewAction r) "reportActionID");
                    Field "waypoints" (JSON_stringify M validWaypoints);
                    Field "created" created;
                    Field "category" category;
                    Field "tag" tag;
                    Field "billable" billable];
          onyxData := MoneyRequestInformation.onyxData r |};
     requestInProgress := stored;
     dismissModal :=
       if isMoneyRequestReport then get report "reportID" else get chatReport "reportID";
     notifyNewAction := (get chatReport "reportID", userAccountID M) |}.

(** Request money from another user *)
Definition requestMoney (s : store) (stored : option jsval)
    (report amount currency created merchant payeeEmail payeeAccountID participant comment
     receipt category tag taxCode taxAmount billable policy policyTags policyCategories
     : jsval) : RequestEffects :=
  let taxCode := match taxCode with VUndefined => VStr "" | _ => taxCode end in
  let taxAmount := match taxAmount with VUndefined => VNum 0 | _ => taxAmount end in
  (* If the report is iou or expense report, we should get the linked chat report to be
     passed to the getMoneyRequestInformation function *)
  let isMoneyRequestReport := ReportUtils_isMoneyRequestReport M report in
  let currentChatReport :=
    if isMoneyRequestReport
    then ReportUtils_getReport E s (get report "chatReportID") else report in
  let r :=
    getMoneyRequestInformation E s currentChatReport participant comment amount currency
      created merchant payeeAccountID payeeEmail receipt VUndefined category tag billable
      policy policyTags policyCategories in
  let iouReport := MoneyRequestInformation.iouReport r in
  let chatReport := MoneyRequestInformation.chatReport r in
  let activeReportID :=
    if isMoneyRequestReport then get report "reportID" else get chatReport "reportID" in
  {| apiWrite :=
       {| command := "RequestMoney";
          parameters :=
            objLit [Field "debtorEmail" (MoneyRequestInformation.payerEmail r);
                    Field "debtorAccountID" (MoneyRequestInformation.payerAccountID r);
                    Field "amount" amount;
                    Field "currency" currency;
                    Field "comment" comment;
                    Field "created" created;
                    Field "merchant" merchant;
                    Field "iouReportID" (get iouReport "reportID");
                    Field "chatReportID" (get chatReport "reportID");
                    Field "transactionID"
                      (get (MoneyRequestInformation.transaction r) "transactionID");
                    Field "reportActionID"
                      (get (MoneyRequestInformation.iouAction r) "reportActionID");
                    Field "createdChatReportActionID"
                      (MoneyRequestInformation.createdChatReportActionID r);
                    Field "createdIOUReportActionID"
                      (MoneyRequestInformation.createdIOUReportActionID r);
                    Field "reportPreviewReportActionID"
                      (get (MoneyRequestInformation.reportPreviewAction r) "reportActionID");
                    Field "receipt" receipt;
                    Field "receiptState" (get receipt "state");
                    Field "category" category;
                    Field "tag" tag;
                    Field "taxCode" taxCode;
                    Field "taxAmount" taxAmount;
                    Field "billable" billable];
          onyxData := MoneyRequestInformation.onyxData r |};
     requestInProgress := resetMoneyRequestInfo E M stored VUndefined;
     dismissModal := activeReportID;
     notifyNewAction := (activeReportID, payeeAccountID) |}.

End Requests.

(* ===================================================================== *)
(** ** Paying a money request *)
(* ===================================================================== *)

(** A payment writes the collections and one document outside them, the
    last payment methods under [ONYXKEYS.NVP_LAST_PAYMENT_METHOD]. *)
Module Payment.

Inductive Update :=
| OnCollections (u : OnyxUpdate)
| OnLastPaymentMethod (m : method) (v : jsval).

(** The collections and the last payment methods ([None]: no document). *)
Abbreviation state := (store * option jsval)%type.

Definition applyUpdate (st : state) (u : Update) : state :=
  match u with
  | OnCollections u => (applyUpdate st.1 u, st.2)
  | OnLastPaymentMethod m v => (st.1, writeValue m v st.2)
  end.

Definition applyUpdates (st : state) (us : list Update) : state :=
  foldl applyUpdate st us.

Record OnyxData := {
  optimisticData : list Update;
  successData : list Update;
  failureData : list Update
}.

Record ApiWrite := {
  command : string;
  parameters : jsval;
  onyxData : OnyxData
}.

Section Actions.
Context (E : Externals) (M : MoreExternals).

Definition getPayMoneyRequestParams (s : store)
    (chatReport iouReport recipient paymentMethodType : jsval) : jsval * OnyxData :=
  let optimisticIOUReportAction :=
    ReportUtils_buildOptimisticIOUReportAction E
      [CONST_IOU_REPORT_ACTION_TYPE_PAY M; jsNeg (get iouReport "total");
       get iouReport "currency"; VStr ""; VArr [recipient]; VStr ""; paymentMethodType;
       get iouReport "reportID"; VBool true] in
  (* In some instances, the report preview action might not be available to the payer (only
     whispered to the requestor) hence we need to make the updates to the action safely. *)
  let reportPreviewAction :=
    getReportPreviewAction s (get chatReport "reportID") (get iouReport "reportID") in
  let optimisticReportPreviewAction :=
    if truthy reportPreviewAction
    then updateReportPreview E iouReport reportPreviewAction true VUndefined VUndefined
    else VNull in
  let currentNextStep := docOrNull s (keyOf NEXT_STEP (get iouReport "reportID")) in
  let lastMessageText := get (getIndex (get optimisticIOUReportAction "message") 0) "text" in
  let lastMessageHtml := get (getIndex (get optimisticIOUReportAction "message") 0) "html" in
  (objLit [Field "iouReportID" (get iouReport "reportID");
           Field "chatReportID" (get chatReport "reportID");
           Field "reportActionID" (get optimisticIOUReportAction "reportActionID");
           Field "paymentMethodType" paymentMethodType],
   {| optimisticData :=
        [ OnCollections
            {| onyxMethod := MERGE;
               key := keyOf REPORT (get chatReport "reportID");
               value :=
                 objLit [Spread chatReport;
                         Field "lastReadTime" (DateUtils_getDBTime E);
                         Field "lastVisibleActionCreated"
                           (get optimisticIOUReportAction "created");
                         Field "hasOutstandingChildRequest" (VBool false);
                         Field "iouReportID" VNull;
                         Field "lastMessageText" lastMessageText;
                         Field "lastMessageHtml" lastMessageHtml] |};
          OnCollections
            {| onyxMethod := MERGE;
               key := keyOf REPORT_ACTIONS (get iouReport "reportID");
               value :=
                 objLit [Field (toString (get optimisticIOUReportAction "reportActionID"))
                           (objLit [Spread optimisticIOUReportAction;
                                    Field "pendingAction" (CONST_PENDING_ACTION_ADD E)])] |};
          OnCollections
            {| onyxMethod := MERGE;
               key := keyOf REPORT (get iouReport "reportID");
               value :=
                 objLit [Spread iouReport;
                         Field "lastMessageText" lastMessageText;
                         Field "lastMessageHtml" lastMessageHtml;
                         Field "hasOutstandingChildRequest" (VBool false);
                         Field "statusNum" (CONST_REPORT_STATUS_NUM_REIMBURSED M)] |};
          OnLastPaymentMethod MERGE
            (objLit [Field (toString (get iouReport "policyID")) paymentMethodType]) ]
        ++ spliceIf (negb (isNull currentNextStep))
             [ OnCollections
                 {| onyxMethod := SET;
                    key := keyOf NEXT_STEP (get iouReport "reportID");
                    value := VNull |} ]
        (* In case the report preview action is loaded locally, let's update it. *)
        ++ spliceIf (truthy optimisticReportPreviewAction)
             [ OnCollections
                 {| onyxMethod := MERGE;
                    key := keyOf REPORT_ACTIONS (get chatReport "reportID");
                    value :=
                      objLit [Field (toString (get optimisticReportPreviewAction
                                                 "reportActionID"))
                                optimisticReportPreviewAction] |} ];
      successData :=
        [ OnCollections
            {| onyxMethod := MERGE;
               key := keyOf REPORT_ACTIONS (get iouReport "reportID");
               value :=
                 objLit [Field (toString (get optimisticIOUReportAction "reportActionID"))
                           (objLit [Field "pendingAction" VNull])] |} ];
      failureData :=
        [ OnCollections
            {| onyxMethod := MERGE;
               key := keyOf REPORT_ACTIONS (get iouReport "reportID");
               value :=
                 objLit [Field (toString (get optimisticIOUReportAction "reportActionID"))
                           (objLit [Field "errors"
                                      (ErrorUtils_getMicroSecondOnyxError E
                                         (VStr "iou.error.other"))])] |};
          OnCollections
            {| onyxMethod := MERGE;
               key := keyOf REPORT (get iouReport "reportID");
               value := iouReport |};
          OnCollections
            {| onyxMethod := MERGE;
               key := keyOf REPORT (get chatReport "reportID");
               value := chatReport |} ]
        ++ spliceIf (negb (isNull currentNextStep))
             [ OnCollections
                 {| onyxMethod := MERGE;
                    key := keyOf NEXT_STEP (get iouReport "reportID");
                    value := currentNextStep |} ]
        ++ spliceIf (truthy optimisticReportPreviewAction)
             [ OnCollections
                 {| onyxMethod := MERGE;
                    key := keyOf REPORT_ACTIONS (get chatReport "reportID");
                    value :=
                      objLit [Field (toString (get optimisticReportPreviewAction
                                                 "reportActionID"))
                                (objLit [Field "created"
                                           (get optimisticReportPreviewAction "created")])] |} ]
   |}).

(** [payMoneyRequest]: the request written, and the report
    [Navigation.dismissModal] goes to. *)
Definition payMoneyRequest (s : store) (paymentType chatReport iouReport : jsval)
    : ApiWrite * jsval :=
  let recipient := objLit [Field "accountID" (get iouReport "ownerAccountID")] in
  let r := getPayMoneyRequestParams s chatReport iouReport recipient paymentType in
  (* For now we need to call the PayMoneyRequestWithWallet API since PayMoneyRequest was not
     updated to work with Expensify Wallets. *)
  let apiCommand :=
    if strictEq paymentType (CONST_IOU_PAYMENT_TYPE_EXPENSIFY M)
    then "PayMoneyRequestWithWallet" else "PayMoneyRequest" in
  ({| command := apiCommand; parameters := r.1; onyxData := r.2 |},
   get chatReport "reportID").

End Actions.
End Payment.

(* ===================================================================== *)
(** ** Bank accounts *)
(* ===================================================================== *)

(** The requests of [BankAccounts.ts] write three documents outside the
    collections, each under a key of its own. *)
Module BankAccounts.

Inductive onyxKey :=
| PERSONAL_BANK_ACCOUNT
| REIMBURSEMENT_ACCOUNT
| BANK_ACCOUNT_LIST.

#[global] Instance onyxKey_eq_dec : EqDecision onyxKey.
Proof. solve_decision. Defined.

Definition onyxKey_to_nat (k : onyxKey) : nat :=
  match k with
  | PERSONAL_BANK_ACCOUNT => 0 | REIMBURSEMENT_ACCOUNT => 1 | BANK_ACCOUNT_LIST => 2
  end.

Definition onyxKey_of_nat (n : nat) : onyxKey :=
  match n with
  | 0 => PERSONAL_BANK_ACCOUNT | 1 => REIMBURSEMENT_ACCOUNT | _ => BANK_ACCOUNT_LIST
  end.

#[global] Instance onyxKey_countable : Countable onyxKey.
Proof.
  refine (inj_countable' onyxKey_to_nat onyxKey_of_nat _).
  intros k; destruct k; reflexivity.
Defined.

Abbreviation store := (gmap onyxKey jsval).

Definition doc (s : store) (k : onyxKey) : jsval := default VUndefined (s !! k).

Record OnyxUpdate := {
  onyxMethod : method;
  key : onyxKey;
  value : jsval
}.

Definition applyUpdate (s : store) (u : OnyxUpdate) : store :=
  match writeValue (onyxMethod u) (value u) (s !! key u) with
  | Some v => <[key u := v]> s
  | None => delete (key u) s
  end.

Definition applyUpdates (s : store) (us : list OnyxUpdate) : store :=
  foldl applyUpdate s us.

Record OnyxData := {
  optimisticData : list OnyxUpdate;
  successData : list OnyxUpdate;
  failureData : list OnyxUpdate
}.

Inductive apiCommand :=
| CONNECT_BANK_ACCOUNT_WITH_PLAID
| ADD_PERSONAL_BANK_ACCOUNT
| DELETE_PAYMENT_BANK_ACCOUNT
| UPDATE_PERSONAL_INFORMATION_FOR_BANK_ACCOUNT
| VALIDATE_BANK_ACCOUNT_WITH_TRANSACTIONS
| OPEN_REIMBURSEMENT_ACCOUNT_PAGE
| UPDATE_COMPANY_INFORMATION_FOR_BANK_ACCOUNT
| UPDATE_BENEFICIAL_OWNERS_FOR_BANK_ACCOUNT
| CONNECT_BANK_ACCOUNT_MANUALLY
| VERIFY_IDENTITY_FOR_BANK_ACCOUNT
| OPEN_WORKSPACE_VIEW.

(** A call of [API.write] or [API.read]. *)
Record ApiRequest := {
  command : apiCommand;
  parameters : jsval;
  onyxData : OnyxData
}.

(** The constants of the bank-account flow. *)
Record Constants := {
  CONST_BANK_ACCOUNT_STEP_REQUESTOR : jsval;
  CONST_BANK_ACCOUNT_STEP_COMPANY : jsval;
  CONST_BANK_ACCOUNT_STEP_BANK_ACCOUNT : jsval
}.

Section Actions.
Context (E : Externals) (M : MoreExternals) (C : Constants).

(** Helper method to build the Onyx data required during setup of a
    Verified Business Bank Account *)
Definition getVBBADataForOnyx (currentStep : jsval) : OnyxData :=
  {| optimisticData :=
       [ {| onyxMethod := MERGE;
            key := REIMBURSEMENT_ACCOUNT;
            value := objLit [Field "isLoading" (VBool true); Field "errors" VNull] |} ];
     successData :=
       [ {| onyxMethod := MERGE;
            key := REIMBURSEMENT_ACCOUNT;
            value := objLit [Field "isLoading" (VBool false);
                             Field "errors" VNull;
                             (* If currentStep is undefined that means this step don't need to
                                update the data of the draft in Onyx. *)
                             Field "draftStep" currentStep] |} ];
     failureData :=
       [ {| onyxMethod := MERGE;
            key := REIMBURSEMENT_ACCOUNT;
            value := objLit [Field "isLoading" (VBool false);
                             Field "errors"
                               (ErrorUtils_getMicroSecondOnyxError E
                                  (VStr "walletPage.addBankAccountFailure"))] |} ] |}.

(** Submit Bank Account step with Plaid data so php can perform some
    checks. *)
Definition connectBankAccountWithPlaid (bankAccountID selectedPlaidBankAccount : jsval)
    : ApiRequest :=
  {| command := CONNECT_BANK_ACCOUNT_WITH_PLAID;
     parameters :=
       objLit [Field "bankAccountID" bankAccountID;
               Field "routingNumber" (get selectedPlaidBankAccount "routingNumber");
               Field "accountNumber" (get selectedPlaidBankAccount "accountNumber");
               Field "bank" (get selectedPlaidBankAccount "bankName");
               Field "plaidAccountID" (get selectedPlaidBankAccount "plaidAccountID");
               Field "plaidAccessToken" (get selectedPlaidBankAccount "plaidAccessToken")];
     onyxData := getVBBADataForOnyx VUndefined |}.

(** Adds a bank account via Plaid *)
Definition addPersonalBankAccount (account : jsval) : ApiRequest :=
  {| command := ADD_PERSONAL_BANK_ACCOUNT;
     parameters :=
       objLit [Field "addressName" (get account "addressName");
               Field "routingNumber" (get account "routingNumber");
               Field "accountNumber" (get account "accountNumber");
               Field "isSavings" (get account "isSavings");
               Field "setupType" (VStr "plaid");
               Field "bank" (get account "bankName");
               Field "plaidAccountID" (get account "plaidAccountID");
               Field "plaidAccessToken" (get account "plaidAccessToken")];
     onyxData :=
       {| optimisticData :=
            [ {| onyxMethod := MERGE;
                 key := PERSONAL_BANK_ACCOUNT;
                 value := objLit [Field "isLoading" (VBool true);
                                  Field "errors" VNull;
                                  Field "plaidAccountID" (get account "plaidAccountID")] |} ];
          successData :=
            [ {| onyxMethod := MERGE;
                 key := PERSONAL_BANK_ACCOUNT;
                 value := objLit [Field "isLoading" (VBool false);
                                  Field "errors" VNull;
                                  Field "shouldShowSuccess" (VBool true)] |} ];
          failureData :=
            [ {| onyxMethod := MERGE;
                 key := PERSONAL_BANK_ACCOUNT;
                 value := objLit [Field "isLoading" (VBool false);
                                  Field "errors"
                                    (ErrorUtils_getMicroSecondOnyxError E
                                       (VStr "walletPage.addBankAccountFailure"))] |} ] |} |}.

Definition deletePaymentBankAccount (bankAccountID : jsval) : ApiRequest :=
  {| command := DELETE_PAYMENT_BANK_ACCOUNT;
     parameters := objLit [Field "bankAccountID" bankAccountID];
     onyxData :=
       {| optimisticData :=
            [ {| onyxMethod := MERGE;
                 key := BANK_ACCOUNT_LIST;
                 value :=
                   objLit [Field (toString bankAccountID)
                             (objLit [Field "pendingAction"
                                        (CONST_PENDING_ACTION_DELETE E)])] |} ];
          (* Sometimes pusher updates aren't received when we close the App while still
             offline, so we are setting the bankAccount to null here to ensure that it gets
             cleared out once we come back online. *)
          successData :=
            [ {| onyxMethod := MERGE;
                 key := BANK_ACCOUNT_LIST;
                 value := objLit [Field (toString bankAccountID) VNull] |} ];
          failureData := [] |} |}.

(** Update the user's personal information on the bank account in
    database. *)
Definition updatePersonalInformationForBankAccount (params : jsval) : ApiRequest :=
  {| command := UPDATE_PERSONAL_INFORMATION_FOR_BANK_ACCOUNT;
     parameters := params;
     onyxData := getVBBADataForOnyx (CONST_BANK_ACCOUNT_STEP_REQUESTOR C) |}.

Definition validateBankAccount (bankAccountID validateCode : jsval) : ApiRequest :=
  {| command := VALIDATE_BANK_ACCOUNT_WITH_TRANSACTIONS;
     parameters :=
       objLit [Field "bankAccountID" bankAccountID; Field "validateCode" validateCode];
     onyxData :=
       {| optimisticData :=
            [ {| onyxMethod := MERGE;
                 key := REIMBURSEMENT_ACCOUNT;
                 value := objLit [Field "isLoading" (VBool true); Field "errors" VNull] |} ];
          successData :=
            [ {| onyxMethod := MERGE;
                 key := REIMBURSEMENT_ACCOUNT;
                 value := objLit [Field "isLoading" (VBool false)] |} ];
          failureData :=
            [ {| onyxMethod := MERGE;
                 key := REIMBURSEMENT_ACCOUNT;
                 value := objLit [Field "isLoading" (VBool false)] |} ] |} |}.

Definition openReimbursementAccountPage (stepToOpen subStep localCurrentStep : jsval)
    : ApiRequest :=
  {| command := OPEN_REIMBURSEMENT_ACCOUNT_PAGE;
     parameters :=
       objLit [Field "stepToOpen" stepToOpen;
               Field "subStep" subStep;
               Field "localCurrentStep" localCurrentStep];
     onyxData :=
       {| optimisticData :=
            [ {| onyxMethod := MERGE;
                 key := REIMBURSEMENT_ACCOUNT;
                 value := objLit [Field "isLoading" (VBool true)] |} ];
          successData :=
            [ {| onyxMethod := MERGE;
                 key := REIMBURSEMENT_ACCOUNT;
                 value := objLit [Field "isLoading" (VBool false)] |} ];
          failureData :=
            [ {| onyxMethod := MERGE;
                 key := REIMBURSEMENT_ACCOUNT;
                 value := objLit [Field "isLoading" (VBool false)] |} ] |} |}.

(** Updates the bank account in the database with the company step data *)
Definition updateCompanyInformationForBankAccount (bankAccount policyID : jsval)
    : ApiRequest :=
  {| command := UPDATE_COMPANY_INFORMATION_FOR_BANK_ACCOUNT;
     parameters := objLit [Spread bankAccount; Field "policyID" policyID];
     onyxData := getVBBADataForOnyx (CONST_BANK_ACCOUNT_STEP_COMPANY C) |}.

(** Add beneficial owners for the bank account, accept the ACH terms and
    conditions and verify the accuracy of the information provided *)
Definition updateBeneficialOwnersForBankAccount (params : jsval) : ApiRequest :=
  {| command := UPDATE_BENEFICIAL_OWNERS_FOR_BANK_ACCOUNT;
     parameters := params;
     onyxData := getVBBADataForOnyx VUndefined |}.

(** Create the bank account with manually entered data. *)
Definition connectBankAccountManually
    (bankAccountID accountNumber routingNumber plaidMask : jsval) : ApiRequest :=
  {| command := CONNECT_BANK_ACCOUNT_MANUALLY;
     parameters :=
       objLit [Field "bankAccountID" bankAccountID;
               Field "accountNumber" accountNumber;
               Field "routingNumber" routingNumber;
               Field "plaidMask" plaidMask];
     onyxData := getVBBADataForOnyx (CONST_BANK_ACCOUNT_STEP_BANK_ACCOUNT C) |}.

(** Verify the user's identity via Onfido *)
Definition verifyIdentityForBankAccount (bankAccountID onfidoData : jsval) : ApiRequest :=
  {| command := VERIFY_IDENTITY_FOR_BANK_ACCOUNT;
     parameters :=
       objLit [Field "bankAccountID" bankAccountID;
               Field "onfidoData" (JSON_stringify M onfidoData)];
     onyxData := getVBBADataForOnyx VUndefined |}.

Definition openWorkspaceView : ApiRequest :=
  {| command := OPEN_WORKSPACE_VIEW;
     parameters := objLit [];
     onyxData :=
       {| optimisticData :=
            [ {| onyxMethod := MERGE;
                 key := REIMBURSEMENT_ACCOUNT;
                 value := objLit [Field "isLoading" (VBool true)] |} ];
          successData :=
            [ {| onyxMethod := MERGE;
                 key := REIMBURSEMENT_ACCOUNT;
                 value := objLit [Field "isLoading" (VBool false)] |} ];
          failureData :=
            [ {| onyxMethod := MERGE;
                 key := REIMBURSEMENT_ACCOUNT;
                 value := objLit [Field "isLoading" (VBool false)] |} ] |} |}.

(** The requests that set up a verified business bank account or load
    the reimbursement account. *)
Definition reimbursementAccountRequests (a b c d : jsval) : list ApiRequest :=
  [ connectBankAccountWithPlaid a b;
    updatePersonalInformationForBankAccount a;
    validateBankAccount a b;
    openReimbursementAccountPage a b c;
    updateCompanyInformationForBankAccount a b;
    updateBeneficialOwnersForBankAccount a;
    connectBankAccountManually a b c d;
    verifyIdentityForBankAccount a b;
    openWorkspaceView ].

End Actions.
End BankAccounts.

(* ===================================================================== *)
(** ** Further vocabulary of the statements *)
(* ===================================================================== *)

(** The properties of a transaction that hold the edited values. *)
Definition modifiedFields : list string :=
  ["modifiedCreated"; "modifiedAmount"; "modifiedCurrency"; "modifiedMerchant";
   "modifiedWaypoints"].

(** A list of patches writes an entry of a document: one of them has the
    key of the document and a value with that property. *)
Definition writesEntry (us : list OnyxUpdate) (k : onyxKey) (entry : jsval) : Prop :=
  exists u, u ∈ us /\ key u = k /\ has (value u) (toString entry) = true.

(** A list of patches writes a document. *)
Definition writesDocument (us : list OnyxUpdate) (k : onyxKey) : Prop :=
  exists u, u ∈ us /\ key u = k.

(** The patches of a payment that write the collections. *)
Definition collectionPatches (us : list Payment.Update) : list OnyxUpdate :=
  omap (fun u => match u with Payment.OnCollections u => Some u | _ => None end) us.

(** The identifiers a request sends name what its optimistic patches
    write: the two reports, the transaction, the money-request action of
    the money report, the preview of the chat, and the created actions
    when the request creates the chat or the money report. *)
Definition namesWhatIsWritten (w : ApiWrite) : Prop :=
  let p := parameters w in
  let opt := optimisticData (onyxData w) in
  writesDocument opt (keyOf REPORT (get p "chatReportID"))
  /\ writesDocument opt (keyOf REPORT (get p "iouReportID"))
  /\ writesDocument opt (keyOf TRANSACTION (get p "transactionID"))
  /\ writesEntry opt (keyOf REPORT_ACTIONS (get p "iouReportID")) (get p "reportActionID")
  /\ writesEntry opt (keyOf REPORT_ACTIONS (get p "chatReportID"))
       (get p "reportPreviewReportActionID")
  /\ (get p "createdChatReportActionID" ≠ VNum 0 ->
      writesEntry opt (keyOf REPORT_ACTIONS (get p "chatReportID"))
        (get p "createdChatReportActionID"))
  /\ (get p "createdIOUReportActionID" ≠ VNum 0 ->
      writesEntry opt (keyOf REPORT_ACTIONS (get p "iouReportID"))
        (get p "createdIOUReportActionID")).

(** The updates of a single field, each with the field it updates. *)
Definition singleFieldUpdates (E : Externals) (M : MoreExternals)
    : list (string * (store -> jsval -> jsval -> jsval -> option ApiWrite)) :=
  [ ("created", updateMoneyRequestDate E M);
    ("billable", updateMoneyRequestBillable E M);
    ("merchant", updateMoneyRequestMerchant E M);
    ("tag", updateMoneyRequestTag E M);
    ("waypoints", updateMoneyRequestDistance E M);
    ("category", updateMoneyRequestCategory E M);
    ("comment", updateMoneyRequestDescription E M) ].

(** One call of a setter of the draft, with the properties it writes. *)
Inductive draftSetter :=
| SetAmount (amount currency : jsval)
| SetCreated (created : jsval)
| SetCurrency (currency : jsval)
| SetDescription (comment : jsval)
| SetMerchant (merchant : jsval)
| SetCategory (category : jsval)
| ResetCategory
| SetTag (tag : jsval)
| ResetTag
| SetBillable (billable : jsval)
| SetParticipants (participants : jsval)
| SetTaxRate (taxRate : jsval)
| SetTaxAmount (taxAmount : jsval).

Definition runDraftSetter (M : MoreExternals) (c : draftSetter) (s : store)
    (transactionID : jsval) : store :=
  match c with
  | SetAmount amount currency =>
      setMoneyRequestAmount_temporaryForRefactor s transactionID amount currency
  | SetCreated created => setMoneyRequestCreated_temporaryForRefactor s transactionID created
  | SetCurrency currency => setMoneyRequestCurrency_temporaryForRefactor s transactionID currency
  | SetDescription comment =>
      setMoneyRequestDescription_temporaryForRefactor M s transactionID comment
  | SetMerchant merchant => setMoneyRequestMerchant_temporaryForRefactor M s transactionID merchant
  | SetCategory category => setMoneyRequestCategory_temporaryForRefactor s transactionID category
  | ResetCategory => resetMoneyRequestCategory_temporaryForRefactor s transactionID
  | SetTag tag => setMoneyRequestTag_temporaryForRefactor s transactionID tag
  | ResetTag => resetMoneyRequestTag_temporaryForRefactor s transactionID
  | SetBillable billable => setMoneyRequestBillable_temporaryForRefactor s transactionID billable
  | SetParticipants participants =>
      setMoneyRequestParticipants_temporaryForRefactor s transactionID participants
  | SetTaxRate taxRate => setMoneyRequestTaxRate s transactionID taxRate
  | SetTaxAmount taxAmount => setMoneyRequestTaxAmount s transactionID taxAmount
  end.

Definition writtenBy (c : draftSetter) : list string :=
  match c with
  | SetAmount _ _ => ["amount"; "currency"]
  | SetCreated _ => ["created"]
  | SetCurrency _ => ["currency"]
  | SetDescription _ => ["comment"]
  | SetMerchant _ => ["merchant"]
  | SetCategory _ | ResetCategory => ["category"]
  | SetTag _ | ResetTag => ["tag"]
  | SetBillable _ => ["billable"]
  | SetParticipants _ => ["participants"]
  | SetTaxRate _ => ["taxRate"]
  | SetTaxAmount _ => ["taxAmount"]
  end.

(** The patch a setter of the draft merges. *)
Definition patchOf (M : MoreExternals) (c : draftSetter) : gmap string jsval :=
  match c with
  | SetAmount amount currency => fields (objLit [Field "amount" amount; Field "currency" currency])
  | SetCreated created => fields (objLit [Field "created" created])
  | SetCurrency currency => fields (objLit [Field "currency" currency])
  | SetDescription comment =>
      fields (objLit [Field "comment" (objLit [Field "comment" (String_trim M comment)])])
  | SetMerchant merchant => fields (objLit [Field "merchant" (String_trim M merchant)])
  | SetCategory category => fields (objLit [Field "category" category])
  | ResetCategory => fields (objLit [Field "category" VNull])
  | SetTag tag => fields (objLit [Field "tag" tag])
  | ResetTag => fields (objLit [Field "tag" VNull])
  | SetBillable billable => fields (objLit [Field "billable" billable])
  | SetParticipants participants => fields (objLit [Field "participants" participants])
  | SetTaxRate taxRate => fields (objLit [Field "taxRate" taxRate])
  | SetTaxAmount taxAmount => fields (objLit [Field "taxAmount" taxAmount])
  end.


(* ===================================================================== *)
(** ** Further concrete inputs *)
(* ===================================================================== *)

Module Scenario.
Import Sample.

(** A request whose transaction thread nobody has commented in. *)
Definition quietRequestAction : jsval :=
  objLit [Field "reportActionID" (str "402");
          Field "actionName" (str "IOU");
          Field "actorAccountID" (VNum 1);
          Field "childReportID" (str "3");
          Field "originalMessage"
            (objLit [Field "IOUReportID" (str "2"); Field "IOUTransactionID" (str "300")]);
          Field "message" (message "requested 5.00")].

Definition threadStore : store :=
  <[ keyOf REPORT (str "3") := transactionThread ]>
    (<[ keyOf REPORT_ACTIONS (str "3") :=
          objLit [Field "400" createdAction] ]> (deleteStore (VNum 1))).

(** An expense report with the next step its submitter is shown. *)
Definition nextStepStore : store :=
  <[ keyOf NEXT_STEP (str "2") := objLit [Field "title" (str "Submit this report")] ]>
    (reportStore 0 0).

(** Stand-ins for the further helpers. *)
Definition more : MoreExternals := {|
  CONST_CURRENCY_USD := str "USD";
  CONST_TRANSACTION_PARTIAL_TRANSACTION_MERCHANT := str "(none)";
  CONST_IOU_REQUEST_TYPE_MANUAL := str "manual";
  CONST_IOU_RECEIPT_STATE_OPEN := str "OPEN";
  CONST_IOU_REPORT_ACTION_TYPE_PAY := str "pay";
  CONST_IOU_PAYMENT_TYPE_EXPENSIFY := str "Expensify";
  CONST_REPORT_STATUS_NUM_REIMBURSED := VNum 4;
  CONST_DATE_FNS_FORMAT_STRING := str "yyyy-MM-dd";
  ONYXKEYS_COLLECTION_TRANSACTION := "transactions_";
  ReceiptGeneric := str "receipt-generic.png";
  currentDate := str "2023-12-01";
  userAccountID := VNum 1;
  currentUserEmail := str "me@example.com";
  format_new_Date := fun _ => str "2023-12-01";
  DateUtils_getMicroseconds := fun _ => VNum 1701424800000000;
  String_trim := fun v => v;
  JSON_stringify := fun v => v;
  ReportUtils_isMoneyRequestReport := fun report =>
    strictEq (get report "type") (str "iou") || strictEq (get report "type") (str "expense");
  ROUTES_MONEY_REQUEST_RECEIPT_getRoute := fun iouType reportID =>
    str (toString iouType +:+ "/new/receipt/" +:+ toString reportID);
  ROUTES_MONEY_REQUEST_CONFIRMATION_getRoute := fun iouType reportID =>
    str (toString iouType +:+ "/new/confirmation/" +:+ toString reportID);
  ROUTES_MONEY_REQUEST_PARTICIPANTS_getRoute := fun iouType =>
    str (toString iouType +:+ "/new/participants")
|}.




(** A group chat of the user [1] with two others. *)
Definition groupChat : jsval :=
  objLit [Field "reportID" (str "5");
          Field "participantAccountIDs" (VArr [VNum 7; VNum 1; VNum 8])].

(** A transaction with a scanned receipt, and one without a receipt. *)
Definition receiptStore : store :=
  <[ keyOf TRANSACTION (str "300") :=
       objLit [Field "transactionID" (str "300");
               Field "amount" (VNum 500);
               Field "filename" (str "old.png");
               Field "receipt" (objLit [Field "source" (str "old.png");
                                        Field "state" (str "SCANREADY")])] ]>
    {[ keyOf TRANSACTION (str "301") :=
         objLit [Field "transactionID" (str "301"); Field "amount" (VNum 700)] ]}.

Definition newFile : jsval := objLit [Field "name" (str "new.png")].

(** A request of 5.00 USD filed on the expense report in USD, with its
    transaction thread. *)
Definition dollarTransaction : jsval :=
  objLit [Field "transactionID" (str "300");
          Field "reportID" (str "2");
          Field "amount" (VNum 500);
          Field "currency" (str "USD");
          Field "merchant" (str "Bistro");
          Field "pendingFields" (objLit [Field "merchant" (str "update")])].

Definition expenseEditStore : store :=
  <[ keyOf REPORT (str "3") := transactionThread ]>
    (<[ keyOf TRANSACTION (str "300") := dollarTransaction ]> (expenseStore "USD")).

(** The request in progress of type [request] on the chat [1], and the
    chat itself as the report of the page. *)
Definition requestInProgress : jsval :=
  objLit [Field "id" (str "request1");
          Field "amount" (VNum 500);
          Field "participants"
            (VArr [objLit [Field "accountID" (VNum 7); Field "selected" (VBool true)]])].

(** The constants of the bank-account flow, and a list of two bank
    accounts. *)
Definition bankConstants : BankAccounts.Constants := {|
  BankAccounts.CONST_BANK_ACCOUNT_STEP_REQUESTOR := str "RequestorStep";
  BankAccounts.CONST_BANK_ACCOUNT_STEP_COMPANY := str "CompanyStep";
  BankAccounts.CONST_BANK_ACCOUNT_STEP_BANK_ACCOUNT := str "BankAccountStep"
|}.

Definition bankStore : BankAccounts.store :=
  <[ BankAccounts.BANK_ACCOUNT_LIST :=
       objLit [Field "11" (objLit [Field "title" (str "Checking")]);
               Field "12" (objLit [Field "title" (str "Savings")])] ]>
    {[ BankAccounts.REIMBURSEMENT_ACCOUNT :=
         objLit [Field "draftStep" (str "CompanyStep");
                 Field "errors" (objLit [Field "1" (str "earlier failure")])] ]}.

(** A draft with an amount. *)
Definition draftStore : store :=
  {[ keyOf TRANSACTION_DRAFT (str "1") := objLit [Field "amount" (VNum 500)] ]}.

End Scenario.

(* ===================================================================== *)
(** ** Reading objects and documents after a write *)
(* ===================================================================== *)

Arguments applyUpdate : simpl never.
Arguments fastMerge : simpl never.
Arguments keyOf : simpl never.

Lemma fields_fastMerge_obj so target k :
  fields (fastMerge (VObj so) target) !! k =
  match so !! k with
  | None | Some VUndefined => fields target !! k
  | Some VNull => None
  | Some (VObj o) => Some (fastMerge (VObj o) (default VUndefined (fields target !! k)))
  | Some v => Some v
  end.
Proof.
  unfold fastMerge at 1; fold fastMerge. cbn [fields].
  rewrite lookup_merge, lookup_fmap.
  destruct (so !! k) as [[]|] eqn:Hk; cbn;
    destruct (fields target !! k); reflexivity.
Qed.


(** A property the patch sets to [null] is cleared. *)
Lemma get_fastMerge_null ps target k :
  fields (objLit ps) !! k = Some VNull ->
  get (fastMerge (objLit ps) target) k = VUndefined.
Proof.
  unfold objLit, get. intros H. rewrite fields_fastMerge_obj.
  cbn [fields] in H. rewrite H. reflexivity.
Qed.

(** A property the patch sets to [undefined] counts as omitted. *)
Lemma get_fastMerge_undefined ps target k :
  fields (objLit ps) !! k = Some VUndefined ->
  get (fastMerge (objLit ps) target) k = get target k.
Proof.
  unfold objLit, get. intros H. rewrite fields_fastMerge_obj.
  cbn [fields] in H. rewrite H. reflexivity.
Qed.

(** A boolean, number, string or array in the patch replaces what was
    there. *)
Lemma get_fastMerge_atom ps target k v :
  fields (objLit ps) !! k = Some v -> isAtom v = true ->
  get (fastMerge (objLit ps) target) k = v.
Proof.
  unfold objLit, get. intros H Hv. rewrite fields_fastMerge_obj.
  cbn [fields] in H. rewrite H. destruct v; try discriminate; reflexivity.
Qed.

(** An object in the patch is merged into the property that was there. *)
Lemma get_fastMerge_obj ps target k o :
  fields (objLit ps) !! k = Some (VObj o) ->
  get (fastMerge (objLit ps) target) k = fastMerge (VObj o) (get target k).
Proof.
  unfold objLit, get. intros H. rewrite fields_fastMerge_obj.
  cbn [fields] in H. rewrite H. reflexivity.
Qed.

Lemma doc_applyUpdate_ne s u k :
  key u ≠ k -> doc (applyUpdate s u) k = doc s k.
Proof.
  intros Hk. unfold applyUpdate, doc.
  destruct (onyxMethod u), (value u);
    rewrite ?lookup_delete_ne, ?lookup_insert_ne by done; reflexivity.
Qed.

Lemma doc_applyUpdate_merge_obj s k ps :
  doc (applyUpdate s {| onyxMethod := MERGE; key := k; value := objLit ps |}) k =
  fastMerge (objLit ps) (doc s k).
Proof.
  unfold applyUpdate, doc at 1. cbn. rewrite lookup_insert_eq. reflexivity.
Qed.

Lemma doc_applyUpdate_set_obj s k ps :
  doc (applyUpdate s {| onyxMethod := SET; key := k; value := objLit ps |}) k = objLit ps.
Proof.
  unfold applyUpdate, doc at 1. cbn. rewrite lookup_insert_eq. reflexivity.
Qed.

Lemma doc_applyUpdate_set_null s k :
  doc (applyUpdate s {| onyxMethod := SET; key := k; value := VNull |}) k = VUndefined.
Proof.
  unfold applyUpdate, doc. cbn. rewrite lookup_delete_eq. reflexivity.
Qed.

Lemma lookup_applyUpdate_set_null s k :
  applyUpdate s {| onyxMethod := SET; key := k; value := VNull |} !! k = None.
Proof. unfold applyUpdate. cbn. apply lookup_delete_eq. Qed.

Lemma applyUpdates_app s us vs :
  applyUpdates s (us ++ vs) = applyUpdates (applyUpdates s us) vs.
Proof. apply foldl_app. Qed.

Lemma applyUpdates_cons s u us :
  applyUpdates s (u :: us) = applyUpdates (applyUpdate s u) us.
Proof. reflexivity. Qed.

Lemma applyUpdates_nil s : applyUpdates s [] = s.
Proof. reflexivity. Qed.

(** Keys of different documents of a collection differ. *)
Lemma keyOf_ne c a b : toString a ≠ toString b -> keyOf c a ≠ keyOf c b.
Proof. unfold keyOf. congruence. Qed.

(** Keys of different collections differ. *)
Lemma keyOf_collection_ne c1 c2 a b : c1 ≠ c2 -> keyOf c1 a ≠ keyOf c2 b.
Proof. unfold keyOf. intros H Heq. apply H. congruence. Qed.

Lemma fields_objLit_nil k : fields (objLit []) !! k = None.
Proof. apply lookup_empty. Qed.

Lemma fields_objLit_snoc_field ps k v k' :
  fields (objLit (ps ++ [Field k v])) !! k' =
  if decide (k = k') then Some v else fields (objLit ps) !! k'.
Proof.
  unfold objLit. cbn [fields]. rewrite foldl_app. cbn [foldl addPart].
  apply lookup_insert.
Qed.

Lemma fields_objLit_snoc_spread ps v k' :
  fields (objLit (ps ++ [Spread v])) !! k' =
  match fields v !! k' with Some x => Some x | None => fields (objLit ps) !! k' end.
Proof.
  unfold objLit. cbn [fields]. rewrite foldl_app. cbn [foldl addPart].
  rewrite lookup_union. destruct (fields v !! k'), (foldl addPart ∅ ps !! k'); reflexivity.
Qed.

Lemma option_union_Some_l {A} (x : A) (o : option A) : Some x ∪ o = Some x.
Proof. destruct o; reflexivity. Qed.

Lemma option_union_None_l {A} (o : option A) : None ∪ o = o.
Proof. destruct o; reflexivity. Qed.

Lemma option_union_None_r {A} (o : option A) : o ∪ None = o.
Proof. destruct o; reflexivity. Qed.

(** Two different string literals. *)
Ltac str_neq := apply String.eqb_neq; reflexivity.

(** Looks a property up in an object literal whose property names are
    string literals. *)
Ltac lookup_lit :=
  repeat first
    [ progress unfold objLit, SpreadIf
    | progress cbn [fields foldl addPart]
    | rewrite lookup_union
    | rewrite lookup_empty
    | rewrite lookup_insert_eq
    | rewrite lookup_insert_ne by str_neq
    | rewrite option_union_Some_l
    | rewrite option_union_None_l
    | rewrite option_union_None_r ].

Lemma get_fastMerge ps t f :
  get (fastMerge (objLit ps) t) f =
  match fields (objLit ps) !! f with
  | None | Some VUndefined => get t f
  | Some VNull => VUndefined
  | Some (VObj o) => fastMerge (VObj o) (get t f)
  | Some v => v
  end.
Proof.
  unfold objLit, get. rewrite fields_fastMerge_obj. cbn [fields].
  destruct (foldl addPart ∅ ps !! f) as [[]|]; reflexivity.
Qed.

(** What a merge patch does to a property of a document. *)
Lemma get_doc_applyUpdate_merge s k' ps k f :
  get (doc (applyUpdate s {| onyxMethod := MERGE; key := k'; value := objLit ps |}) k) f =
  if decide (k' = k) then
    match fields (objLit ps) !! f with
    | None | Some VUndefined => get (doc s k) f
    | Some VNull => VUndefined
    | Some (VObj o) => fastMerge (VObj o) (get (doc s k) f)
    | Some v => v
    end
  else get (doc s k) f.
Proof.
  case_decide as Hk.
  - subst. rewrite doc_applyUpdate_merge_obj. apply get_fastMerge.
  - rewrite doc_applyUpdate_ne by exact Hk. reflexivity.
Qed.

(** A merge patch that does not mention a property leaves it alone,
    whatever its key. *)
Lemma get_doc_applyUpdate_frame s k' ps k f :
  fields (objLit ps) !! f = None ->
  get (doc (applyUpdate s {| onyxMethod := MERGE; key := k'; value := objLit ps |}) k) f =
  get (doc s k) f.
Proof.
  intros H. rewrite get_doc_applyUpdate_merge, H. by case_decide.
Qed.

(** A merge patch that nulls a property keeps it cleared where it was. *)
Lemma get_doc_applyUpdate_null s k' ps k f :
  fields (objLit ps) !! f = Some VNull ->
  get (doc s k) f = VUndefined ->
  get (doc (applyUpdate s {| onyxMethod := MERGE; key := k'; value := objLit ps |}) k) f =
  VUndefined.
Proof.
  intros H H0. rewrite get_doc_applyUpdate_merge, H. by case_decide.
Qed.

Lemma get_doc_applyUpdate_null_eq s ps k f :
  fields (objLit ps) !! f = Some VNull ->
  get (doc (applyUpdate s {| onyxMethod := MERGE; key := k; value := objLit ps |}) k) f =
  VUndefined.
Proof.
  intros H. rewrite get_doc_applyUpdate_merge, H. by rewrite decide_True.
Qed.

(** A merge patch that writes a boolean, number, string or array. *)
Lemma get_doc_applyUpdate_atom_eq s ps k f v :
  fields (objLit ps) !! f = Some v -> isAtom v = true ->
  get (doc (applyUpdate s {| onyxMethod := MERGE; key := k; value := objLit ps |}) k) f = v.
Proof.
  intros H Hv. rewrite get_doc_applyUpdate_merge, H, decide_True by reflexivity.
  destruct v; try discriminate; reflexivity.
Qed.

(** A patch on another collection leaves the document alone. *)
Lemma doc_applyUpdate_collection_ne s u c a :
  (key u).1 ≠ c -> doc (applyUpdate s u) (keyOf c a) = doc s (keyOf c a).
Proof.
  intros H. apply doc_applyUpdate_ne. unfold keyOf. intros Heq. apply H. by rewrite Heq.
Qed.

Ltac run_updates :=
  repeat first
    [ rewrite applyUpdates_app
    | rewrite applyUpdates_cons
    | rewrite applyUpdates_nil
    | progress cbn [spliceIf] ].

Ltac skip_collections :=
  repeat (rewrite doc_applyUpdate_collection_ne by (cbn; discriminate)).

Lemma get2_fastMerge_nulls o t a f :
  nullsProperty f o ->
  get (get t a) f = VUndefined \/ is_Some (o !! a) ->
  get (get (fastMerge (VObj o) t) a) f = VUndefined.
Proof.
  intros Hall Hor. unfold get at 2. rewrite fields_fastMerge_obj.
  destruct (o !! a) as [v|] eqn:Ha.
  - specialize (Hall a v Ha). cbn beta in Hall.
    destruct v; cbn [fields] in Hall; try (rewrite lookup_empty in Hall; discriminate).
    cbn [default from_option id]. unfold get. rewrite fields_fastMerge_obj, Hall. reflexivity.
  - destruct Hor as [H|[? ?]]; [exact H|discriminate].
Qed.

Lemma get2_doc_applyUpdate_nulls s k' ps k a f :
  nullsProperty f (fields (objLit ps)) ->
  get (get (doc s k) a) f = VUndefined \/ (k' = k /\ is_Some (fields (objLit ps) !! a)) ->
  get (get (doc (applyUpdate s {| onyxMethod := MERGE; key := k'; value := objLit ps |}) k) a) f
  = VUndefined.
Proof.
  intros Hall Hor. destruct (decide (k' = k)) as [->|Hne].
  - rewrite doc_applyUpdate_merge_obj. unfold objLit in *. cbn [fields] in *.
    apply get2_fastMerge_nulls; [exact Hall|].
    destruct Hor as [H|[_ H]]; [left|right]; exact H.
  - rewrite doc_applyUpdate_ne by exact Hne.
    destruct Hor as [H|[H _]]; [exact H|contradiction].
Qed.

Lemma nullsProperty_empty f : nullsProperty f ∅.
Proof. apply map_Forall_empty. Qed.

Lemma nullsProperty_insert f k v p :
  fields v !! f = Some VNull -> nullsProperty f p -> nullsProperty f (<[k := v]> p).
Proof. intros. by apply map_Forall_insert_2. Qed.

Lemma nullsProperty_union f p q :
  nullsProperty f p -> nullsProperty f q -> nullsProperty f (p ∪ q).
Proof. intros. by apply map_Forall_union_2. Qed.

Ltac nulls_lit :=
  unfold objLit, SpreadIf; cbn [fields foldl addPart];
  repeat first
    [ apply nullsProperty_empty
    | apply nullsProperty_union
    | apply nullsProperty_insert; [lookup_lit; reflexivity|]
    | match goal with
      | |- context [if ?b then _ else _] => destruct b; cbn [fields foldl addPart]
      end ].

(* ===================================================================== *)
(** ** The outstanding-child-request flag *)
(* ===================================================================== *)

Lemma getOutstandingChildRequest_lookup E policy needs :
  fields (getOutstandingChildRequest E policy needs) !! "hasOutstandingChildRequest" =
  if negb (truthy needs) then Some (VBool false)
  else if PolicyUtils_isPolicyAdmin E policy then Some (VBool true) else None.
Proof.
  unfold getOutstandingChildRequest.
  destruct (truthy needs), (PolicyUtils_isPolicyAdmin E policy); cbn [negb];
    lookup_lit; reflexivity.
Qed.

(** C4, as the code has it: the flag is written as [false] whenever manual
    submission is not needed, as [true] when it is needed and the policy
    argument belongs to a policy admin, and left out only when it is needed
    and the user is not an admin. *)
Theorem getOutstandingChildRequest_cases E policy needsToBeManuallySubmitted :
  let r := getOutstandingChildRequest E policy needsToBeManuallySubmitted in
  (fields r !! "hasOutstandingChildRequest" = Some (VBool false)
   <-> truthy needsToBeManuallySubmitted = false)
  /\ (fields r !! "hasOutstandingChildRequest" = Some (VBool true)
      <-> truthy needsToBeManuallySubmitted = true /\ PolicyUtils_isPolicyAdmin E policy = true)
  /\ (fields r !! "hasOutstandingChildRequest" = None
      <-> truthy needsToBeManuallySubmitted = true /\ PolicyUtils_isPolicyAdmin E policy = false).
Proof.
  cbv zeta. rewrite getOutstandingChildRequest_lookup.
  destruct (truthy needsToBeManuallySubmitted), (PolicyUtils_isPolicyAdmin E policy);
    cbn [negb]; intuition congruence.
Qed.

(** C4 as stated fails: a user who is not the policy admin, on a policy
    that needs manual submission, does not get [true] (the field is left
    out), and when manual submission is not needed the field is written as
    [false] instead of being left out. *)
Lemma getOutstandingChildRequest_not_as_claimed :
  let user := objLit [Field "role" (VStr "user")] in
  PolicyUtils_isPolicyAdmin Sample.env user = false
  /\ get (getOutstandingChildRequest Sample.env user (VBool true)) "hasOutstandingChildRequest"
     ≠ VBool true
  /\ fields (getOutstandingChildRequest Sample.env user (VBool false))
       !! "hasOutstandingChildRequest" ≠ None.
Proof.
  cbv zeta. unfold get. rewrite !getOutstandingChildRequest_lookup.
  split; [vm_compute; reflexivity|]. split.
  - replace (PolicyUtils_isPolicyAdmin Sample.env (objLit [Field "role" (VStr "user")]))
      with false by (vm_compute; reflexivity).
    cbn. discriminate.
  - cbn. discriminate.
Qed.

Lemma optimisticChatReportValue_outstanding E chatReport iouReport policy isNew needs :
  fields (optimisticChatReportValue E chatReport iouReport policy isNew needs)
    !! "hasOutstandingChildRequest" =
  match fields (getOutstandingChildRequest E (VBool needs) policy)
          !! "hasOutstandingChildRequest" with
  | Some v => Some v
  | None => fields chatReport !! "hasOutstandingChildRequest"
  end.
Proof.
  unfold optimisticChatReportValue, outstandingChildRequest.
  destruct isNew; lookup_lit;
    destruct (fields (getOutstandingChildRequest E (VBool needs) policy) !! _);
    try reflexivity; destruct (fields chatReport !! _); reflexivity.
Qed.

Lemma buildOnyxDataForMoneyRequest_optimistic_head E
    chatReport iouReport transaction chatCreatedAction iouCreatedAction iouAction
    optimisticPersonalDetailListAction reportPreviewAction
    optimisticPolicyRecentlyUsedCategories optimisticPolicyRecentlyUsedTags
    isNewChatReport isNewIOUReport policy policyTags policyCategories
    needsToBeManuallySubmitted :
  head (optimisticData
          (buildOnyxDataForMoneyRequest E chatReport iouReport transaction chatCreatedAction
             iouCreatedAction iouAction optimisticPersonalDetailListAction reportPreviewAction
             optimisticPolicyRecentlyUsedCategories optimisticPolicyRecentlyUsedTags
             isNewChatReport isNewIOUReport policy policyTags policyCategories
             needsToBeManuallySubmitted)) =
  Some {| onyxMethod := if isNewChatReport then SET else MERGE;
          key := keyOf REPORT (get chatReport "reportID");
          value := optimisticChatReportValue E chatReport iouReport policy
                     isNewChatReport needsToBeManuallySubmitted |}.
Proof.
  unfold buildOnyxDataForMoneyRequest. cbv zeta.
  destruct (negb (truthy policy) || negb (truthy (get policy "id"))); [reflexivity|].
  destruct (ViolationsUtils_getViolationsOnyxData E _); reflexivity.
Qed.

Lemma buildOnyxDataForMoneyRequest_successData E
    chatReport iouReport transaction chatCreatedAction iouCreatedAction iouAction
    optimisticPersonalDetailListAction reportPreviewAction
    optimisticPolicyRecentlyUsedCategories optimisticPolicyRecentlyUsedTags
    isNewChatReport isNewIOUReport policy policyTags policyCategories
    needsToBeManuallySubmitted :
  successData
    (buildOnyxDataForMoneyRequest E chatReport iouReport transaction chatCreatedAction
       iouCreatedAction iouAction optimisticPersonalDetailListAction reportPreviewAction
       optimisticPolicyRecentlyUsedCategories optimisticPolicyRecentlyUsedTags
       isNewChatReport isNewIOUReport policy policyTags policyCategories
       needsToBeManuallySubmitted) =
  moneyRequestSuccessData chatReport iouReport transaction chatCreatedAction
    iouCreatedAction iouAction reportPreviewAction isNewChatReport isNewIOUReport.
Proof.
  unfold buildOnyxDataForMoneyRequest. cbv zeta.
  destruct (negb (truthy policy) || negb (truthy (get policy "id"))); [reflexivity|].
  destruct (ViolationsUtils_getViolationsOnyxData E _); reflexivity.
Qed.

Lemma buildOnyxDataForMoneyRequest_failureData E
    chatReport iouReport transaction chatCreatedAction iouCreatedAction iouAction
    optimisticPersonalDetailListAction reportPreviewAction
    optimisticPolicyRecentlyUsedCategories optimisticPolicyRecentlyUsedTags
    isNewChatReport isNewIOUReport policy policyTags policyCategories
    needsToBeManuallySubmitted :
  exists violationsReset,
    failureData
      (buildOnyxDataForMoneyRequest E chatReport iouReport transaction chatCreatedAction
         iouCreatedAction iouAction optimisticPersonalDetailListAction reportPreviewAction
         optimisticPolicyRecentlyUsedCategories optimisticPolicyRecentlyUsedTags
         isNewChatReport isNewIOUReport policy policyTags policyCategories
         needsToBeManuallySubmitted) =
    moneyRequestFailureData E chatReport iouReport transaction chatCreatedAction
      iouCreatedAction iouAction reportPreviewAction isNewChatReport isNewIOUReport
    ++ spliceIf violationsReset
         [ {| onyxMethod := SET;
              key := keyOf TRANSACTION_VIOLATIONS (get transaction "transactionID");
              value := VArr [] |} ].
Proof.
  unfold buildOnyxDataForMoneyRequest. cbv zeta.
  destruct (negb (truthy policy) || negb (truthy (get policy "id"))).
  - exists false. cbn [failureData spliceIf]. by rewrite app_nil_r.
  - destruct (ViolationsUtils_getViolationsOnyxData E _).
    + exists true. reflexivity.
    + exists false. cbn [failureData spliceIf]. by rewrite app_nil_r.
Qed.

(** C5: the object merged into the chat report's optimistic value comes
    from [getOutstandingChildRequest] called with the boolean in the place
    of [policy] and the policy in the place of [needsToBeManuallySubmitted].
    What decides between [false] and the rest is therefore whether a policy
    was passed at all, and the admin test is run on the boolean. *)
Theorem outstandingChildRequest_arguments_swapped E
    chatReport iouReport transaction chatCreatedAction iouCreatedAction iouAction
    optimisticPersonalDetailListAction reportPreviewAction
    optimisticPolicyRecentlyUsedCategories optimisticPolicyRecentlyUsedTags
    isNewChatReport isNewIOUReport policy policyTags policyCategories
    needsToBeManuallySubmitted :
  let D := buildOnyxDataForMoneyRequest E chatReport iouReport transaction chatCreatedAction
             iouCreatedAction iouAction optimisticPersonalDetailListAction reportPreviewAction
             optimisticPolicyRecentlyUsedCategories optimisticPolicyRecentlyUsedTags
             isNewChatReport isNewIOUReport policy policyTags policyCategories
             needsToBeManuallySubmitted in
  let swapped := getOutstandingChildRequest E (VBool needsToBeManuallySubmitted) policy in
  (exists u, head (optimisticData D) = Some u
             /\ key u = keyOf REPORT (get chatReport "reportID")
             /\ fields (value u) !! "hasOutstandingChildRequest" =
                match fields swapped !! "hasOutstandingChildRequest" with
                | Some v => Some v
                | None => fields chatReport !! "hasOutstandingChildRequest"
                end)
  /\ outstandingChildRequest E policy needsToBeManuallySubmitted = swapped
  /\ (fields swapped !! "hasOutstandingChildRequest" = Some (VBool false)
      <-> truthy policy = false)
  /\ (fields swapped !! "hasOutstandingChildRequest" = Some (VBool true)
      <-> truthy policy = true
          /\ PolicyUtils_isPolicyAdmin E (VBool needsToBeManuallySubmitted) = true).
Proof.
  cbv zeta. split; [|split; [reflexivity|]].
  - eexists. split; [apply buildOnyxDataForMoneyRequest_optimistic_head|].
    split; [reflexivity|]. cbn [value]. apply optimisticChatReportValue_outstanding.
  - rewrite getOutstandingChildRequest_lookup.
    destruct (truthy policy), (PolicyUtils_isPolicyAdmin E (VBool needsToBeManuallySubmitted));
      cbn [negb]; intuition congruence.
Qed.

(* ===================================================================== *)
(** ** Creating a money request: what success and failure leave behind *)
(* ===================================================================== *)

Section CreateRequest.
Context (E : Externals).
Variables chatReport iouReport transaction chatCreatedAction iouCreatedAction iouAction
  optimisticPersonalDetailListAction reportPreviewAction
  optimisticPolicyRecentlyUsedCategories optimisticPolicyRecentlyUsedTags : jsval.
Variables isNewChatReport isNewIOUReport : bool.
Variables policy policyTags policyCategories : jsval.
Variable needsToBeManuallySubmitted : bool.

Local Abbreviation D :=
  (buildOnyxDataForMoneyRequest E chatReport iouReport transaction chatCreatedAction
     iouCreatedAction iouAction optimisticPersonalDetailListAction reportPreviewAction
     optimisticPolicyRecentlyUsedCategories optimisticPolicyRecentlyUsedTags
     isNewChatReport isNewIOUReport policy policyTags policyCategories
     needsToBeManuallySubmitted).
Local Abbreviation succ :=
  (moneyRequestSuccessData chatReport iouReport transaction chatCreatedAction
     iouCreatedAction iouAction reportPreviewAction isNewChatReport isNewIOUReport).
Local Abbreviation chatKey := (keyOf REPORT (get chatReport "reportID")).
Local Abbreviation iouKey := (keyOf REPORT (get iouReport "reportID")).
Local Abbreviation transactionKey := (keyOf TRANSACTION (get transaction "transactionID")).
Local Abbreviation chatActionsKey := (keyOf REPORT_ACTIONS (get chatReport "reportID")).
Local Abbreviation iouActionsKey := (keyOf REPORT_ACTIONS (get iouReport "reportID")).
Local Abbreviation idOf action := (toString (get action "reportActionID")).

Lemma success_iou_pendingFields s1 :
  get (doc (applyUpdates s1 succ) iouKey) "pendingFields" = VUndefined.
Proof.
  unfold moneyRequestSuccessData. run_updates. skip_collections.
  apply get_doc_applyUpdate_null_eq. lookup_lit. reflexivity.
Qed.

Lemma success_chat_pendingFields s1 :
  get (doc (applyUpdates s1 succ) chatKey) "pendingFields" =
  if isNewChatReport then VUndefined
  else if decide (iouKey = chatKey) then VUndefined
       else get (doc s1 chatKey) "pendingFields".
Proof.
  unfold moneyRequestSuccessData. destruct isNewChatReport; run_updates; skip_collections.
  - apply get_doc_applyUpdate_null; [lookup_lit; reflexivity|].
    apply get_doc_applyUpdate_null_eq. lookup_lit; reflexivity.
  - rewrite get_doc_applyUpdate_merge. case_decide; [|reflexivity].
    lookup_lit. reflexivity.
Qed.

Lemma success_transaction s1 f :
  f = "pendingAction" \/ f = "pendingFields" ->
  get (doc (applyUpdates s1 succ) transactionKey) f = VUndefined.
Proof.
  unfold moneyRequestSuccessData. run_updates; skip_collections.
  intros [->| ->]; apply get_doc_applyUpdate_null_eq; lookup_lit; reflexivity.
Qed.

Lemma success_preview s1 :
  get (get (doc (applyUpdates s1 succ) chatActionsKey) (idOf reportPreviewAction))
      "pendingAction" = VUndefined.
Proof.
  unfold moneyRequestSuccessData. run_updates.
  apply get2_doc_applyUpdate_nulls; [nulls_lit|left].
  apply get2_doc_applyUpdate_nulls; [nulls_lit|right].
  split; [reflexivity|]. unfold objLit. cbn [fields foldl addPart].
  rewrite lookup_insert_eq. eauto.
Qed.

Lemma success_chatCreated s1 :
  isNewChatReport = true ->
  get (get (doc (applyUpdates s1 succ) chatActionsKey) (idOf chatCreatedAction))
      "pendingAction" = VUndefined.
Proof.
  intros ->. unfold moneyRequestSuccessData. run_updates.
  apply get2_doc_applyUpdate_nulls; [nulls_lit|left].
  apply get2_doc_applyUpdate_nulls; [nulls_lit|right].
  split; [reflexivity|]. unfold SpreadIf, objLit. cbn [fields foldl addPart].
  rewrite lookup_insert. case_decide; [eauto|].
  rewrite lookup_union, lookup_insert_eq. cbn. eauto.
Qed.

Lemma success_iouAction s1 :
  get (get (doc (applyUpdates s1 succ) iouActionsKey) (idOf iouAction))
      "pendingAction" = VUndefined.
Proof.
  unfold moneyRequestSuccessData. run_updates.
  apply get2_doc_applyUpdate_nulls; [nulls_lit|right].
  split; [reflexivity|]. unfold objLit. cbn [fields foldl addPart].
  rewrite lookup_insert_eq. eauto.
Qed.

Lemma success_iouCreated s1 :
  isNewIOUReport = true ->
  get (get (doc (applyUpdates s1 succ) iouActionsKey) (idOf iouCreatedAction))
      "pendingAction" = VUndefined.
Proof.
  intros ->. unfold moneyRequestSuccessData. run_updates.
  apply get2_doc_applyUpdate_nulls; [nulls_lit|right].
  split; [reflexivity|]. unfold SpreadIf, objLit. cbn [fields foldl addPart].
  rewrite lookup_insert. case_decide; [eauto|].
  rewrite lookup_union, lookup_insert_eq. cbn. eauto.
Qed.

(** C3, as the code has it: after the success patches, the money report
    carries no [pendingFields], the transaction no [pendingAction] and no
    [pendingFields], and the preview, IOU and created report actions the
    patches wrote no [pendingAction].  The chat report's [pendingFields] is
    cleared when the chat report is new; for an existing chat report the
    success list has no entry, and its [pendingFields] is what the
    optimistic patch left. *)
Theorem moneyRequest_success_clears_pending (s : store) :
  let s1 := applyUpdates s (optimisticData D) in
  let s2 := applyUpdates s1 (successData D) in
  get (doc s2 iouKey) "pendingFields" = VUndefined
  /\ get (doc s2 chatKey) "pendingFields" =
     (if isNewChatReport then VUndefined
      else if decide (iouKey = chatKey) then VUndefined
           else get (doc s1 chatKey) "pendingFields")
  /\ get (doc s2 transactionKey) "pendingAction" = VUndefined
  /\ get (doc s2 transactionKey) "pendingFields" = VUndefined
  /\ get (get (doc s2 chatActionsKey) (idOf reportPreviewAction)) "pendingAction" = VUndefined
  /\ get (get (doc s2 iouActionsKey) (idOf iouAction)) "pendingAction" = VUndefined
  /\ (if isNewChatReport
      then get (get (doc s2 chatActionsKey) (idOf chatCreatedAction)) "pendingAction"
           = VUndefined
      else True)
  /\ (if isNewIOUReport
      then get (get (doc s2 iouActionsKey) (idOf iouCreatedAction)) "pendingAction"
           = VUndefined
      else True).
Proof.
  cbv zeta. rewrite buildOnyxDataForMoneyRequest_successData.
  repeat split.
  - apply success_iou_pendingFields.
  - apply success_chat_pendingFields.
  - apply success_transaction. by left.
  - apply success_transaction. by right.
  - apply success_preview.
  - apply success_iouAction.
  - pose proof (success_chatCreated (applyUpdates s (optimisticData D))) as H.
    destruct isNewChatReport; [by apply H|exact I].
  - pose proof (success_iouCreated (applyUpdates s (optimisticData D))) as H.
    destruct isNewIOUReport; [by apply H|exact I].
Qed.

Local Abbreviation fail :=
  (moneyRequestFailureData E chatReport iouReport transaction chatCreatedAction
     iouCreatedAction iouAction reportPreviewAction isNewChatReport isNewIOUReport).

Lemma failure_report_doc s1 b (id : jsval) :
  doc (applyUpdates s1
         (fail ++ spliceIf b
                    [ {| onyxMethod := SET;
                         key := keyOf TRANSACTION_VIOLATIONS (get transaction "transactionID");
                         value := VArr [] |} ]))
      (keyOf REPORT id) =
  doc (applyUpdates s1 (take 2 fail)) (keyOf REPORT id).
Proof.
  unfold moneyRequestFailureData. cbv zeta. cbn [take].
  destruct b; run_updates; skip_collections; reflexivity.
Qed.

Lemma failure_chat_restored s1 f :
  f = "iouReportID" \/ f = "lastReadTime" \/ f = "hasOutstandingChildRequest" ->
  isAtom (get chatReport f) = true ->
  get (doc (applyUpdates s1 (take 2 fail)) chatKey) f = get chatReport f.
Proof.
  intros Hf Hatom. unfold moneyRequestFailureData. cbv zeta. cbn [take]. run_updates.
  rewrite get_doc_applyUpdate_frame
    by (destruct Hf as [->|[->| ->]]; destruct isNewIOUReport; lookup_lit; reflexivity).
  apply get_doc_applyUpdate_atom_eq; [|exact Hatom].
  destruct Hf as [->|[->| ->]]; destruct isNewChatReport; lookup_lit; reflexivity.
Qed.

Lemma failure_pendingFields_cleared s1 (id : jsval) :
  id = get chatReport "reportID" \/ id = get iouReport "reportID" ->
  get (doc (applyUpdates s1 (take 2 fail)) (keyOf REPORT id)) "pendingFields" = VUndefined.
Proof.
  intros Hid. unfold moneyRequestFailureData. cbv zeta. cbn [take]. run_updates.
  destruct Hid as [->| ->].
  - apply get_doc_applyUpdate_null; [destruct isNewIOUReport; lookup_lit; reflexivity|].
    apply get_doc_applyUpdate_null_eq. destruct isNewChatReport; lookup_lit; reflexivity.
  - apply get_doc_applyUpdate_null_eq. destruct isNewIOUReport; lookup_lit; reflexivity.
Qed.

Lemma failure_other_properties_kept s1 (id : jsval) g :
  g ∉ failureWrites ->
  get (doc (applyUpdates s1 (take 2 fail)) (keyOf REPORT id)) g =
  get (doc s1 (keyOf REPORT id)) g.
Proof.
  intros Hg. unfold moneyRequestFailureData. cbv zeta. cbn [take]. run_updates.
  assert (Hne : forall k, k ∈ failureWrites -> k ≠ g) by (intros k Hk ->; exact (Hg Hk)).
  assert (H1 := Hne "iouReportID" ltac:(unfold failureWrites; set_solver)).
  assert (H2 := Hne "lastReadTime" ltac:(unfold failureWrites; set_solver)).
  assert (H3 := Hne "pendingFields" ltac:(unfold failureWrites; set_solver)).
  assert (H4 := Hne "hasOutstandingChildRequest" ltac:(unfold failureWrites; set_solver)).
  assert (H5 := Hne "errorFields" ltac:(unfold failureWrites; set_solver)).
  rewrite !get_doc_applyUpdate_frame; [reflexivity| |].
  - destruct isNewChatReport; unfold SpreadIf, objLit; cbn [fields foldl addPart];
      rewrite ?lookup_union, ?lookup_insert_ne, ?lookup_empty by assumption; reflexivity.
  - unfold SpreadIf, objLit; cbn [fields foldl addPart];
      rewrite ?lookup_insert_ne, ?lookup_empty by assumption; reflexivity.
Qed.

(** C1, as the code has it: for an existing chat report, the failure
    patches write back the chat report's [iouReportID], [lastReadTime] and
    [hasOutstandingChildRequest] where these had a value before, and clear
    [pendingFields] on the chat report and on the money report.  They
    write no other property of the two reports apart from [errorFields]:
    the money report's [total], [lastMessageText] and [lastMessageHtml]
    stay as the optimistic patch left them. *)
Theorem moneyRequest_failure_restores (s : store) (f g : string) :
  f = "iouReportID" \/ f = "lastReadTime" \/ f = "hasOutstandingChildRequest" ->
  isAtom (get chatReport f) = true ->
  doc s chatKey = chatReport ->
  g ∉ failureWrites ->
  let s1 := applyUpdates s (optimisticData D) in
  let s3 := applyUpdates s1 (failureData D) in
  get (doc s3 chatKey) f = get (doc s chatKey) f
  /\ get (doc s3 chatKey) "pendingFields" = VUndefined
  /\ get (doc s3 iouKey) "pendingFields" = VUndefined
  /\ get (doc s3 chatKey) g = get (doc s1 chatKey) g
  /\ get (doc s3 iouKey) g = get (doc s1 iouKey) g.
Proof.
  intros Hf Hatom Hdoc Hg. cbv zeta.
  destruct (buildOnyxDataForMoneyRequest_failureData E chatReport iouReport transaction
              chatCreatedAction iouCreatedAction iouAction optimisticPersonalDetailListAction
              reportPreviewAction optimisticPolicyRecentlyUsedCategories
              optimisticPolicyRecentlyUsedTags isNewChatReport isNewIOUReport policy policyTags
              policyCategories needsToBeManuallySubmitted) as [b ->].
  rewrite !failure_report_doc. repeat split.
  - rewrite Hdoc. by apply failure_chat_restored.
  - apply failure_pendingFields_cleared. by left.
  - apply failure_pendingFields_cleared. by right.
  - by apply failure_other_properties_kept.
  - by apply failure_other_properties_kept.
Qed.

End CreateRequest.

(** C1 as stated fails: after a request of 5.00 in a chat whose IOU report
    stands at 10.00, the failure patches leave the report's [total] at
    15.00 and its [lastMessageText] at the text of the new request. *)
Lemma moneyRequest_failure_keeps_total :
  let r := Sample.requestIn Sample.iouStore Sample.chatWithIOU in
  let D := MoneyRequestInformation.onyxData r in
  let s3 := applyUpdates (applyUpdates Sample.iouStore (optimisticData D)) (failureData D) in
  get (doc Sample.iouStore (keyOf REPORT (VStr "2"))) "total" = VNum 1000
  /\ get (doc s3 (keyOf REPORT (VStr "2"))) "total" = VNum 1500
  /\ get (doc Sample.iouStore (keyOf REPORT (VStr "2"))) "lastMessageText" = VStr "owes 10.00"
  /\ get (doc s3 (keyOf REPORT (VStr "2"))) "lastMessageText" = VStr "requested money".
Proof. vm_compute. repeat split; reflexivity. Qed.

(** The restoring part of C1 on a request added to a chat with an open
    IOU report. *)
Lemma moneyRequest_failure_restores_witness :
  let D := Sample.build Sample.chatWithIOU
             (setField Sample.openIOU "total" (VNum 1500)) false false in
  let s1 := applyUpdates Sample.iouStore (optimisticData D) in
  let s3 := applyUpdates s1 (failureData D) in
  (isAtom (get Sample.chatWithIOU "lastReadTime") = true
   /\ doc Sample.iouStore (keyOf REPORT (get Sample.chatWithIOU "reportID"))
      = Sample.chatWithIOU
   /\ "total" ∉ failureWrites)
  /\ get (doc s3 (keyOf REPORT (get Sample.chatWithIOU "reportID"))) "lastReadTime"
     = get (doc Sample.iouStore (keyOf REPORT (get Sample.chatWithIOU "reportID")))
         "lastReadTime"
  /\ get (doc s3 (keyOf REPORT (get (setField Sample.openIOU "total" (VNum 1500)) "reportID")))
         "total"
     = get (doc s1 (keyOf REPORT (get (setField Sample.openIOU "total" (VNum 1500)) "reportID")))
         "total".
Proof.
  cbv zeta.
  assert (H1 : isAtom (get Sample.chatWithIOU "lastReadTime") = true)
    by (vm_compute; reflexivity).
  assert (H2 : doc Sample.iouStore (keyOf REPORT (get Sample.chatWithIOU "reportID"))
               = Sample.chatWithIOU) by (vm_compute; reflexivity).
  assert (H3 : "total" ∉ failureWrites)
    by (apply (bool_decide_unpack _); vm_compute; exact I).
  split; [auto|].
  pose proof (moneyRequest_failure_restores Sample.env Sample.chatWithIOU
                (setField Sample.openIOU "total" (VNum 1500)) Sample.newTransaction
                Sample.createdAction Sample.createdAction Sample.newIOUAction VUndefined
                Sample.preview (VArr []) (objLit []) false false
                VUndefined VUndefined VUndefined true
                Sample.iouStore "lastReadTime" "total"
                (or_intror (or_introl eq_refl)) H1 H2 H3) as H.
  cbv zeta in H. destruct H as (Ha & _ & _ & _ & Hb). split; [exact Ha|exact Hb].
Defined.

(** C3 as stated fails: a request made in a chat that was created offline
    and is still pending ([isNewChatReport] is false, the chat carries
    [pendingFields.createChat]) leaves that marker on the chat report after
    the success patches. *)
Lemma moneyRequest_success_keeps_chat_pendingFields :
  let r := Sample.requestIn Sample.pendingChatStore Sample.pendingChat in
  let D := MoneyRequestInformation.onyxData r in
  let s2 := applyUpdates (applyUpdates Sample.pendingChatStore (optimisticData D))
              (successData D) in
  get (MoneyRequestInformation.chatReport r) "reportID" = VStr "1"
  /\ get (get (doc s2 (keyOf REPORT (VStr "1"))) "pendingFields") "createChat" = VStr "add".
Proof. vm_compute. split; reflexivity. Qed.

(* ===================================================================== *)
(** ** Adding a request to an existing expense report *)
(* ===================================================================== *)

Lemma lodashGet_undefined v k : lodashGet v k VUndefined = get v k.
Proof. unfold lodashGet. destruct (get v k); reflexivity. Qed.

Lemma fields_spread_copy v k : fields (objLit [Spread v]) !! k = fields v !! k.
Proof.
  unfold objLit. cbn [fields foldl addPart].
  rewrite lookup_union, lookup_empty, option_union_None_r. reflexivity.
Qed.

Lemma get_spread_copy v k : get (objLit [Spread v]) k = get v k.
Proof. unfold get. by rewrite fields_spread_copy. Qed.

Lemma get_setField_eq o k v : get (setField o k v) k = v.
Proof. unfold get, setField. cbn [fields]. by rewrite lookup_insert_eq. Qed.

Lemma get_setField_ne o k k' v : k ≠ k' -> get (setField o k v) k' = get o k'.
Proof. intros. unfold get, setField. cbn [fields]. by rewrite lookup_insert_ne. Qed.

Lemma resolveIOUReport_policyExpense_total E stored chat payee payer amount currency :
  truthy stored = true ->
  get (resolveIOUReport E stored chat true payee payer amount currency) "total" =
  if strictEq (get stored "currency") currency
  then jsSub (get stored "total") amount
  else get stored "total".
Proof.
  intros Hs. unfold resolveIOUReport. rewrite Hs. rewrite lodashGet_undefined.
  rewrite !get_spread_copy.
  destruct (strictEq (get stored "currency") currency).
  - apply get_setField_eq.
  - apply get_spread_copy.
Qed.

Lemma buildOnyxDataForMoneyRequest_optimisticData E
    chatReport iouReport transaction chatCreatedAction iouCreatedAction iouAction
    optimisticPersonalDetailListAction reportPreviewAction
    optimisticPolicyRecentlyUsedCategories optimisticPolicyRecentlyUsedTags
    isNewChatReport isNewIOUReport policy policyTags policyCategories
    needsToBeManuallySubmitted :
  exists violations,
    optimisticData
      (buildOnyxDataForMoneyRequest E chatReport iouReport transaction chatCreatedAction
         iouCreatedAction iouAction optimisticPersonalDetailListAction reportPreviewAction
         optimisticPolicyRecentlyUsedCategories optimisticPolicyRecentlyUsedTags
         isNewChatReport isNewIOUReport policy policyTags policyCategories
         needsToBeManuallySubmitted) =
    moneyRequestOptimisticData E chatReport iouReport transaction chatCreatedAction
      iouCreatedAction iouAction optimisticPersonalDetailListAction reportPreviewAction
      optimisticPolicyRecentlyUsedCategories optimisticPolicyRecentlyUsedTags
      isNewChatReport isNewIOUReport policy needsToBeManuallySubmitted
    ++ match violations with
       | Some v =>
           [ {| onyxMethod := SET;
                key := keyOf TRANSACTION_VIOLATIONS (get transaction "transactionID");
                value := v |} ]
       | None => []
       end.
Proof.
  unfold buildOnyxDataForMoneyRequest. cbv zeta.
  destruct (negb (truthy policy) || negb (truthy (get policy "id"))).
  - exists None. cbn [optimisticData]. by rewrite app_nil_r.
  - destruct (ViolationsUtils_getViolationsOnyxData E _) as [v|].
    + exists (Some v). reflexivity.
    + exists None. cbn [optimisticData]. by rewrite app_nil_r.
Qed.

Lemma moneyRequest_transaction_written E
    chatReport iouReport transaction chatCreatedAction iouCreatedAction iouAction
    optimisticPersonalDetailListAction reportPreviewAction
    optimisticPolicyRecentlyUsedCategories optimisticPolicyRecentlyUsedTags
    isNewChatReport isNewIOUReport policy policyTags policyCategories
    needsToBeManuallySubmitted :
  {| onyxMethod := SET;
     key := keyOf TRANSACTION (get transaction "transactionID");
     value := transaction |}
  ∈ optimisticData
      (buildOnyxDataForMoneyRequest E chatReport iouReport transaction chatCreatedAction
         iouCreatedAction iouAction optimisticPersonalDetailListAction reportPreviewAction
         optimisticPolicyRecentlyUsedCategories optimisticPolicyRecentlyUsedTags
         isNewChatReport isNewIOUReport policy policyTags policyCategories
         needsToBeManuallySubmitted).
Proof.
  destruct (buildOnyxDataForMoneyRequest_optimisticData E chatReport iouReport transaction
              chatCreatedAction iouCreatedAction iouAction optimisticPersonalDetailListAction
              reportPreviewAction optimisticPolicyRecentlyUsedCategories
              optimisticPolicyRecentlyUsedTags isNewChatReport isNewIOUReport policy policyTags
              policyCategories needsToBeManuallySubmitted) as [v ->].
  unfold moneyRequestOptimisticData.
  rewrite !elem_of_app. left. left.
  apply list_elem_of_lookup. exists 2. reflexivity.
Qed.

(* ===================================================================== *)
(** ** Properties a patch list leaves alone *)
(* ===================================================================== *)





Ltac keeps_all :=
  repeat first
    [ apply Forall_nil_2
    | apply Forall_cons_2
    | apply Forall_app_2
    | match goal with
      | |- Forall _ (spliceIf ?b _) => destruct b; cbn [spliceIf]
      end ].

Lemma deref_Some v w : deref v = Some w -> w = v.
Proof. destruct v; cbn; congruence. Qed.

(* ===================================================================== *)
(** ** Editing a request in another currency than the report's *)
(* ===================================================================== *)

Section EditOtherCurrency.
Context (E : Externals) (s : store).
Variables transactionID transactionThreadReportID transactionChanges : jsval.

Local Abbreviation transactionThread := (doc s (keyOf REPORT transactionThreadReportID)).
Local Abbreviation transaction := (doc s (keyOf TRANSACTION transactionID)).
Local Abbreviation iouReport :=
  (doc s (keyOf REPORT (get transactionThread "parentReportID"))).
Local Abbreviation updatedTransaction :=
  (TransactionUtils_getUpdatedTransaction E
     [transaction; transactionChanges; VBool (ReportUtils_isExpenseReport E iouReport)]).


End EditOtherCurrency.


(* ===================================================================== *)
(** ** Deleting the only request of a report *)
(* ===================================================================== *)

Lemma get_last_merge_null s us k ps f :
  fields (objLit ps) !! f = Some VNull ->
  get (doc (applyUpdates s (us ++ [ {| onyxMethod := MERGE; key := k; value := objLit ps |} ]))
           k) f
  = VUndefined.
Proof.
  intros H. rewrite applyUpdates_app, applyUpdates_cons, applyUpdates_nil.
  by apply get_doc_applyUpdate_null_eq.
Qed.

Section DeleteOnlyRequest.
Context (E : Externals) (s : store).
Variables transactionID reportAction : jsval.

Local Abbreviation iouReport :=
  (doc s (keyOf REPORT (get (get reportAction "originalMessage") "IOUReportID"))).
Local Abbreviation chatReport := (doc s (keyOf REPORT (get iouReport "chatReportID"))).

(** C7: when the whole money report is to be deleted, the optimistic
    patches clear the chat report's [iouReportID], and the success patches
    remove the money report document (the chat's [iouReportID] staying
    cleared). *)
Theorem delete_only_request_removes_report D :
  deleteMoneyRequest E s transactionID reportAction = Some D ->
  shouldDeleteIOUReport (deleteDecision E s iouReport reportAction) = true ->
  let s1 := applyUpdates s (optimisticData D) in
  let s2 := applyUpdates s1 (successData D) in
  get (doc s1 (keyOf REPORT (get chatReport "reportID"))) "iouReportID" = VUndefined
  /\ s2 !! keyOf REPORT (get iouReport "reportID") = None
  /\ get (doc s2 (keyOf REPORT (get chatReport "reportID"))) "iouReportID" = VUndefined.
Proof.
  intros HD Hdel. unfold deleteMoneyRequest in HD.
  destruct (deref iouReport) as [ir|] eqn:Hir; [|discriminate].
  apply deref_Some in Hir as ->. cbn [mbind option_bind] in HD.
  destruct (deref chatReport) as [cr|] eqn:Hcr; [|discriminate].
  apply deref_Some in Hcr as ->. cbn [mbind option_bind] in HD.
  destruct (deref (getReportPreviewAction s _ _)) as [rpa|] eqn:Hrpa; [|discriminate].
  apply deref_Some in Hrpa as ->. cbn [mbind option_bind] in HD.
  destruct (deref (getIndex _ 0)) as [pm|] eqn:Hpm; [|discriminate].
  apply deref_Some in Hpm as ->. cbn [mbind option_bind] in HD.
  injection HD as <-. unfold deleteMoneyRequestData. cbv zeta.
  rewrite Hdel. cbn [negb andb spliceIf optimisticData successData].
  match goal with
  | |- context [applyUpdates s ?opt] => set (s1 := applyUpdates s opt)
  end.
  assert (H1 : get (doc s1 (keyOf REPORT (get chatReport "reportID"))) "iouReportID"
               = VUndefined).
  { subst s1. rewrite !app_nil_l, !app_assoc. apply get_last_merge_null.
    lookup_lit. reflexivity. }
  clearbody s1. split; [exact H1|].
  rewrite applyUpdates_app, (applyUpdates_cons _ _ []), applyUpdates_nil.
  split; [apply lookup_applyUpdate_set_null|].
  destruct (decide (keyOf REPORT (get iouReport "reportID")
                    = keyOf REPORT (get chatReport "reportID"))) as [Heq|Hne].
  - rewrite <- Heq. by rewrite doc_applyUpdate_set_null.
  - rewrite doc_applyUpdate_ne by exact Hne. rewrite !applyUpdates_cons, applyUpdates_nil.
    skip_collections. exact H1.
Qed.

End DeleteOnlyRequest.

(** The only request of the IOU report is deleted: the chat loses its
    [iouReportID] at once and the report goes on success. *)
Lemma delete_only_request_removes_report_witness :
  let s := Sample.deleteStore (VNum 1) in
  exists D,
    deleteMoneyRequest Sample.env s (VStr "300") Sample.onlyRequestAction = Some D
    /\ shouldDeleteIOUReport
         (deleteDecision Sample.env s Sample.openIOU Sample.onlyRequestAction) = true
    /\ get (doc (applyUpdates s (optimisticData D)) (keyOf REPORT (VStr "1"))) "iouReportID"
       = VUndefined
    /\ applyUpdates (applyUpdates s (optimisticData D)) (successData D)
         !! keyOf REPORT (VStr "2") = None.
Proof.
  cbv zeta.
  pose (D := deleteMoneyRequestData Sample.env (Sample.deleteStore (VNum 1)) (VStr "300")
               Sample.onlyRequestAction Sample.openIOU Sample.chatWithIOU
               (Sample.previewOfIOU (VNum 1))
               (getIndex (Sample.message "owes 10.00") 0)).
  assert (HD : deleteMoneyRequest Sample.env (Sample.deleteStore (VNum 1)) (VStr "300")
                 Sample.onlyRequestAction = Some D) by (vm_compute; reflexivity).
  assert (Hdel : shouldDeleteIOUReport
                   (deleteDecision Sample.env (Sample.deleteStore (VNum 1))
                      (doc (Sample.deleteStore (VNum 1))
                         (keyOf REPORT
                            (get (get Sample.onlyRequestAction "originalMessage")
                               "IOUReportID")))
                      Sample.onlyRequestAction) = true) by (vm_compute; reflexivity).
  exists D. split; [exact HD|]. split; [vm_compute; reflexivity|].
  destruct (delete_only_request_removes_report Sample.env (Sample.deleteStore (VNum 1))
              (VStr "300") Sample.onlyRequestAction D HD Hdel) as (H1 & H2 & _).
  split; [exact H1|exact H2].
Defined.

(* ===================================================================== *)
(** ** Submitting and approving: what a failure resets *)
(* ===================================================================== *)

(** The failure patches of a submit put [statusNum] and [stateNum] back to
    open. *)
Lemma submit_failure_resets (E : Externals) (s : store) (expenseReport : jsval) (s1 : store)
    (f : string) (c : jsval) :
  (f = "statusNum" /\ c = CONST_REPORT_STATUS_NUM_OPEN E)
  \/ (f = "stateNum" /\ c = CONST_REPORT_STATE_NUM_OPEN E) ->
  isAtom c = true ->
  get (doc (applyUpdates s1 (failureData (submitReport E s expenseReport)))
           (keyOf REPORT (get expenseReport "reportID"))) f = c.
Proof.
  intros Hf Hc. unfold submitReport. cbv zeta. cbn [failureData].
  destruct (truthy (get (ReportUtils_getReport E s _) "reportID")),
    (negb (isNull _)); run_updates; skip_collections.
  all: destruct Hf as [[-> ->]|[-> ->]].
  all: rewrite ?get_doc_applyUpdate_frame by (lookup_lit; reflexivity).
  all: apply get_doc_applyUpdate_atom_eq; [lookup_lit; reflexivity|exact Hc].
Qed.

(** The failure patches of an approval write no report document. *)
Lemma approve_failure_writes_no_report (E : Externals) (s : store) (expenseReport : jsval)
    (s1 : store)
    (id : jsval) :
  doc (applyUpdates s1 (failureData (approveMoneyRequest E s expenseReport)))
      (keyOf REPORT id)
  = doc s1 (keyOf REPORT id).
Proof.
  unfold approveMoneyRequest. cbv zeta. cbn [failureData].
  destruct (negb (isNull _)); run_updates; skip_collections; reflexivity.
Qed.

Lemma reportActionsPatches_app us vs :
  reportActionsPatches (us ++ vs) = reportActionsPatches us ++ reportActionsPatches vs.
Proof. apply List.filter_app. Qed.

(** The optimistic patches of an approval and of a submit move the report
    on. *)
Lemma approve_optimistic_moves (E : Externals) (s : store) (expenseReport : jsval)
    (f : string) (c : jsval) :
  (f = "statusNum" /\ c = CONST_REPORT_STATUS_NUM_APPROVED E)
  \/ (f = "stateNum" /\ c = CONST_REPORT_STATE_NUM_APPROVED E) ->
  isAtom c = true ->
  get (doc (applyUpdates s (optimisticData (approveMoneyRequest E s expenseReport)))
           (keyOf REPORT (get expenseReport "reportID"))) f = c.
Proof.
  intros Hf Hc. unfold approveMoneyRequest. cbv zeta. cbn [optimisticData].
  destruct (negb (isNull _)); run_updates; skip_collections.
  all: destruct Hf as [[-> ->]|[-> ->]].
  all: apply get_doc_applyUpdate_atom_eq; [lookup_lit; reflexivity|exact Hc].
Qed.

Lemma submit_optimistic_moves (E : Externals) (s : store) (expenseReport : jsval)
    (f : string) (c : jsval) :
  (f = "statusNum" /\ c = CONST_REPORT_STATUS_NUM_SUBMITTED E)
  \/ (f = "stateNum" /\ c = CONST_REPORT_STATE_NUM_SUBMITTED E) ->
  isAtom c = true ->
  toString (get (ReportUtils_getReport E s (get expenseReport "parentReportID")) "reportID")
  ≠ toString (get expenseReport "reportID") ->
  get (doc (applyUpdates s (optimisticData (submitReport E s expenseReport)))
           (keyOf REPORT (get expenseReport "reportID"))) f = c.
Proof.
  intros Hf Hc Hparent. unfold submitReport. cbv zeta. cbn [optimisticData].
  destruct (truthy (get (ReportUtils_getReport E s _) "reportID")),
    (negb (isNull _)); run_updates; skip_collections.
  all: rewrite ?doc_applyUpdate_ne by (cbn [key]; by apply keyOf_ne).
  all: destruct Hf as [[-> ->]|[-> ->]].
  all: apply get_doc_applyUpdate_atom_eq; [lookup_lit; reflexivity|exact Hc].
Qed.

Section SubmitAndApprove.
Context (E : Externals) (s : store) (expenseReport : jsval).

Local Abbreviation reportKey := (keyOf REPORT (get expenseReport "reportID")).
Local Abbreviation approval := (approveMoneyRequest E s expenseReport).
Local Abbreviation submission := (submitReport E s expenseReport).

(** C8 on the code: a submit and an approval each write one new report
    action and move the report to submitted, respectively approved; the
    failure patches of a submit put the report back to open; those of an
    approval leave it approved. *)
Theorem approve_failure_keeps_approved_status :
  isAtom (CONST_REPORT_STATE_NUM_OPEN E) = true ->
  isAtom (CONST_REPORT_STATUS_NUM_OPEN E) = true ->
  isAtom (CONST_REPORT_STATE_NUM_SUBMITTED E) = true ->
  isAtom (CONST_REPORT_STATUS_NUM_SUBMITTED E) = true ->
  isAtom (CONST_REPORT_STATE_NUM_APPROVED E) = true ->
  isAtom (CONST_REPORT_STATUS_NUM_APPROVED E) = true ->
  toString (get (ReportUtils_getReport E s (get expenseReport "parentReportID")) "reportID")
  ≠ toString (get expenseReport "reportID") ->
  let afterApprove := applyUpdates s (optimisticData approval) in
  let afterSubmit := applyUpdates s (optimisticData submission) in
  (* one new report action each *)
  (exists id action,
     reportActionsPatches (optimisticData approval)
     = [ {| onyxMethod := MERGE;
            key := keyOf REPORT_ACTIONS (get expenseReport "reportID");
            value := objLit [Field id action] |} ])
  /\ (exists id action,
        reportActionsPatches (optimisticData submission)
        = [ {| onyxMethod := MERGE;
               key := keyOf REPORT_ACTIONS (get expenseReport "reportID");
               value := objLit [Field id action] |} ])
  (* the transitions *)
  /\ get (doc afterSubmit reportKey) "statusNum" = CONST_REPORT_STATUS_NUM_SUBMITTED E
  /\ get (doc afterSubmit reportKey) "stateNum" = CONST_REPORT_STATE_NUM_SUBMITTED E
  /\ get (doc afterApprove reportKey) "statusNum" = CONST_REPORT_STATUS_NUM_APPROVED E
  /\ get (doc afterApprove reportKey) "stateNum" = CONST_REPORT_STATE_NUM_APPROVED E
  (* a failed submit is back at open *)
  /\ get (doc (applyUpdates afterSubmit (failureData submission)) reportKey) "statusNum"
     = CONST_REPORT_STATUS_NUM_OPEN E
  /\ get (doc (applyUpdates afterSubmit (failureData submission)) reportKey) "stateNum"
     = CONST_REPORT_STATE_NUM_OPEN E
  (* a failed approval stays approved *)
  /\ get (doc (applyUpdates afterApprove (failureData approval)) reportKey) "statusNum"
     = CONST_REPORT_STATUS_NUM_APPROVED E
  /\ get (doc (applyUpdates afterApprove (failureData approval)) reportKey) "stateNum"
     = CONST_REPORT_STATE_NUM_APPROVED E.
Proof.
  intros HO1 HO2 HS1 HS2 HA1 HA2 Hparent. cbv zeta.
  split; [|split].
  - unfold approveMoneyRequest. cbv zeta. cbn [optimisticData].
    do 2 eexists. rewrite reportActionsPatches_app.
    destruct (negb (isNull _)); reflexivity.
  - unfold submitReport. cbv zeta. cbn [optimisticData].
    do 2 eexists. rewrite !reportActionsPatches_app.
    destruct (truthy _), (negb (isNull _)); reflexivity.
  - rewrite !approve_failure_writes_no_report.
    rewrite !(submit_failure_resets E s expenseReport _ _ _ (or_introl (conj eq_refl eq_refl)))
      by assumption.
    rewrite !(submit_failure_resets E s expenseReport _ _ _ (or_intror (conj eq_refl eq_refl)))
      by assumption.
    rewrite !(submit_optimistic_moves E s expenseReport _ _
                (or_introl (conj eq_refl eq_refl))) by assumption.
    rewrite !(submit_optimistic_moves E s expenseReport _ _
                (or_intror (conj eq_refl eq_refl))) by assumption.
    rewrite !(approve_optimistic_moves E s expenseReport _ _
                (or_introl (conj eq_refl eq_refl))) by assumption.
    rewrite !(approve_optimistic_moves E s expenseReport _ _
                (or_intror (conj eq_refl eq_refl))) by assumption.
    repeat split.
Qed.

End SubmitAndApprove.

(** A submitted report (status 1, state 1) whose approval fails is left
    approved (status 3, state 2). *)
Lemma approve_failure_keeps_approved_status_witness :
  let s := Sample.reportStore 1 1 in
  let submitted := Sample.expenseReportIn 1 1 in
  let approval := approveMoneyRequest Sample.env s submitted in
  let failed := applyUpdates (applyUpdates s (optimisticData approval)) (failureData approval) in
  let reportKey := keyOf REPORT (VStr "2") in
  (isAtom (CONST_REPORT_STATE_NUM_APPROVED Sample.env) = true
   /\ isAtom (CONST_REPORT_STATUS_NUM_APPROVED Sample.env) = true
   /\ toString (get (ReportUtils_getReport Sample.env s (get submitted "parentReportID"))
                   "reportID")
      ≠ toString (get submitted "reportID"))
  /\ get (doc s reportKey) "statusNum" = VNum 1
  /\ get (doc s reportKey) "stateNum" = VNum 1
  /\ get (doc failed reportKey) "statusNum" = VNum 3
  /\ get (doc failed reportKey) "stateNum" = VNum 2.
Proof.
  cbv zeta.
  assert (Hparent :
    toString (get (ReportUtils_getReport Sample.env (Sample.reportStore 1 1)
                     (get (Sample.expenseReportIn 1 1) "parentReportID")) "reportID")
    ≠ toString (get (Sample.expenseReportIn 1 1) "reportID"))
    by (apply String.eqb_neq; vm_compute; reflexivity).
  split; [split; [reflexivity|split; [reflexivity|exact Hparent]]|].
  split; [vm_compute; reflexivity|]. split; [vm_compute; reflexivity|].
  destruct (approve_failure_keeps_approved_status Sample.env (Sample.reportStore 1 1)
              (Sample.expenseReportIn 1 1) eq_refl eq_refl eq_refl eq_refl eq_refl eq_refl
              Hparent)
    as (_ & _ & _ & _ & _ & _ & _ & _ & Hstatus & Hstate).
  split; [exact Hstatus|exact Hstate].
Defined.

(* ===================================================================== *)
(** ** Splitting a bill: the shares *)
(* ===================================================================== *)






(* ===================================================================== *)
(** ** One report preview per chat and money report *)
(* ===================================================================== *)












(** Patches on other collections, or on other keys, leave a document
    alone. *)
Lemma doc_applyUpdates_other_collections s us c a :
  Forall (fun u => (key u).1 ≠ c) us ->
  doc (applyUpdates s us) (keyOf c a) = doc s (keyOf c a).
Proof.
  intros H. revert s. induction H as [|u us Hu _ IH]; intros s; [reflexivity|].
  rewrite applyUpdates_cons, IH. by apply doc_applyUpdate_collection_ne.
Qed.

Lemma doc_applyUpdates_other_keys s us k :
  Forall (fun u => key u ≠ k) us -> doc (applyUpdates s us) k = doc s k.
Proof.
  intros H. revert s. induction H as [|u us Hu _ IH]; intros s; [reflexivity|].
  rewrite applyUpdates_cons, IH. by apply doc_applyUpdate_ne.
Qed.












Section RequestAdded.
Context (E : Externals) (s : store).
Variables report participant comment amount currency created merchant
  payeeAccountID payeeEmail receipt existingTransactionID category tag billable
  policy policyTags policyCategories : jsval.

Local Abbreviation r :=
  (getMoneyRequestInformation E s report participant comment amount currency created
     merchant payeeAccountID payeeEmail receipt existingTransactionID category tag
     billable policy policyTags policyCategories).
Local Abbreviation chat := (MoneyRequestInformation.chatReport r).
Local Abbreviation iou := (MoneyRequestInformation.iouReport r).
Local Abbreviation isNewIOUReport :=
  (negb (truthy (get chat "iouReportID"))
   || ReportUtils_hasIOUWaitingOnCurrentUserBankAccount E chat).



End RequestAdded.


(** A delete that goes through found the documents it updates. *)
Lemma deleteMoneyRequest_inv E s transactionID reportAction D :
  deleteMoneyRequest E s transactionID reportAction = Some D ->
  let iouReport :=
    doc s (keyOf REPORT (get (get reportAction "originalMessage") "IOUReportID")) in
  let chatReport := doc s (keyOf REPORT (get iouReport "chatReportID")) in
  exists rpa pm,
    deref (getReportPreviewAction s (get iouReport "chatReportID") (get iouReport "reportID"))
    = Some rpa
    /\ D = deleteMoneyRequestData E s transactionID reportAction iouReport chatReport rpa pm.
Proof.
  intros HD. cbv zeta. unfold deleteMoneyRequest in HD.
  destruct (deref (doc s _)) as [ir|] eqn:Hir; [|discriminate].
  apply deref_Some in Hir as ->. cbn [mbind option_bind] in HD.
  destruct (deref (doc s _)) as [cr|] eqn:Hcr; [|discriminate].
  apply deref_Some in Hcr as ->. cbn [mbind option_bind] in HD.
  destruct (deref (getReportPreviewAction s _ _)) as [rpa|] eqn:Hrpa; [|discriminate].
  cbn [mbind option_bind] in HD.
  destruct (deref (getIndex _ 0)) as [pm|] eqn:Hpm; [|discriminate].
  cbn [mbind option_bind] in HD. injection HD as <-.
  exists rpa, pm. split; reflexivity.
Qed.

Lemma get_spread_field v k x f :
  k ≠ f -> get (objLit [Spread v; Field k x]) f = get v f.
Proof.
  intros H. unfold get, objLit. cbn [fields foldl addPart].
  rewrite lookup_insert_ne by exact H.
  by rewrite lookup_union, lookup_empty, option_union_None_r.
Qed.














Section PreviewInvariant.
Context (E : Externals) (c : jsval).





End PreviewInvariant.


Section PreviewReuse.
Context (c : jsval).


End PreviewReuse.



(* ===================================================================== *)
(** * Further lemmas on the store and on merging *)

Lemma doc_applyUpdate_set s k v :
  doc (applyUpdate s {| onyxMethod := SET; key := k; value := v |}) k =
  match v with VNull | VUndefined => VUndefined | _ => v end.
Proof.
  unfold applyUpdate, doc. cbn.
  destruct v; rewrite ?lookup_delete_eq, ?lookup_insert_eq; reflexivity.
Qed.

Lemma doc_applyUpdate_merge s k v :
  doc (applyUpdate s {| onyxMethod := MERGE; key := k; value := v |}) k =
  match v with
  | VNull => VUndefined
  | VUndefined => doc s k
  | _ => fastMerge v (doc s k)
  end.
Proof.
  unfold applyUpdate, doc at 1. cbn.
  destruct v; rewrite ?lookup_delete_eq, ?lookup_insert_eq; reflexivity.
Qed.

Lemma get_fastMerge_copy v t f :
  isAtom (get v f) = true -> get (fastMerge v t) f = get v f.
Proof.
  destruct v as [| | | | | | |o]; try discriminate.
  unfold get. rewrite fields_fastMerge_obj. cbn [fields].
  destruct (o !! f) as [[]|]; cbn; intros H; try discriminate H; reflexivity.
Qed.

Lemma has_false v f : has v f = false <-> fields v !! f = None.
Proof. unfold has. destruct (fields v !! f); split; congruence. Qed.

Lemma fastMerge_obj_comm p q t :
  (forall k, p !! k = None \/ q !! k = None) ->
  fastMerge (VObj p) (fastMerge (VObj q) t) = fastMerge (VObj q) (fastMerge (VObj p) t).
Proof.
  intros Hdisj.
  assert (Hobj : forall a b, exists m, fastMerge (VObj a) b = VObj m).
  { intros a b. unfold fastMerge; fold fastMerge. eauto. }
  destruct (Hobj p (fastMerge (VObj q) t)) as [m1 H1].
  destruct (Hobj q (fastMerge (VObj p) t)) as [m2 H2].
  rewrite H1, H2. f_equal. apply map_eq. intros k.
  change (fields (VObj m1) !! k = fields (VObj m2) !! k).
  rewrite <- H1, <- H2.
  rewrite (fields_fastMerge_obj p (fastMerge (VObj q) t) k).
  rewrite (fields_fastMerge_obj q (fastMerge (VObj p) t) k).
  rewrite (fields_fastMerge_obj p t k), (fields_fastMerge_obj q t k).
  destruct (Hdisj k) as [Hp|Hq].
  - rewrite Hp. reflexivity.
  - rewrite Hq. reflexivity.
Qed.

Lemma Onyx_merge_obj s k o :
  Onyx_merge s k (VObj o) = <[k := fastMerge (VObj o) (doc s k)]> s.
Proof. reflexivity. Qed.

Lemma doc_insert_eq (s : store) k v : doc (<[k := v]> s) k = v.
Proof. unfold doc. by rewrite lookup_insert_eq. Qed.

Lemma doc_insert_ne (s : store) k k' v : k ≠ k' -> doc (<[k := v]> s) k' = doc s k'.
Proof. intros. unfold doc. by rewrite lookup_insert_ne. Qed.

Lemma Onyx_merge_comm s k k' p q :
  (k = k' -> forall f, p !! f = None \/ q !! f = None) ->
  Onyx_merge (Onyx_merge s k (VObj p)) k' (VObj q)
  = Onyx_merge (Onyx_merge s k' (VObj q)) k (VObj p).
Proof.
  intros H. rewrite !Onyx_merge_obj.
  destruct (decide (k = k')) as [<-|Hne].
  - rewrite !doc_insert_eq, !insert_insert_eq. f_equal. symmetry.
    apply fastMerge_obj_comm. by apply H.
  - rewrite !doc_insert_ne by congruence. by apply insert_insert_ne.
Qed.


Lemma fastMerge_is_obj a b : exists m, fastMerge (VObj a) b = VObj m.
Proof. unfold fastMerge; fold fastMerge. eauto. Qed.

(** Merging an empty patch into an object changes nothing. *)
Lemma fastMerge_empty (o : gmap string jsval) : fastMerge (VObj ∅) (VObj o) = VObj o.
Proof.
  destruct (fastMerge_is_obj ∅ (VObj o)) as [m Hm]. rewrite Hm. f_equal.
  apply map_eq. intros f. change (fields (VObj m) !! f = o !! f). rewrite <- Hm.
  by rewrite (fields_fastMerge_obj ∅), lookup_empty.
Qed.

Lemma fastMerge_obj_ext a b a' b' :
  (forall f, fields (fastMerge (VObj a) b) !! f = fields (fastMerge (VObj a') b') !! f) ->
  fastMerge (VObj a) b = fastMerge (VObj a') b'.
Proof.
  destruct (fastMerge_is_obj a b) as [m ->], (fastMerge_is_obj a' b') as [m' ->].
  intros H. f_equal. apply map_eq. exact H.
Qed.

Lemma get_fastMerge_VObj m t f :
  get (fastMerge (VObj m) t) f =
  match m !! f with
  | None | Some VUndefined => get t f
  | Some VNull => VUndefined
  | Some (VObj o) => fastMerge (VObj o) (get t f)
  | Some v => v
  end.
Proof.
  unfold get. rewrite fields_fastMerge_obj.
  destruct (m !! f) as [[]|]; reflexivity.
Qed.

(** Reads a property through a chain of merged object literals. *)
Ltac merge_lit :=
  unfold objLit; cbn [foldl addPart];
  repeat (rewrite get_fastMerge_VObj; lookup_lit).

Lemma objLit_singleton k v : objLit [Field k v] = VObj {[ k := v ]}.
Proof. unfold objLit. cbn [foldl addPart]. by rewrite insert_empty. Qed.

(* ===================================================================== *)
(** * An expense added to an open expense report *)

Section OptimisticReportAndTransaction.
Context (E : Externals) (s : store).
Variables chatReport iouReport transaction chatCreatedAction iouCreatedAction iouAction
  details preview categories tags : jsval.
Variables isNewChatReport isNewIOUReport : bool.
Variables policy policyTags policyCategories : jsval.
Variable needs : bool.

Local Abbreviation s1 :=
  (applyUpdates s
     (optimisticData
        (buildOnyxDataForMoneyRequest E chatReport iouReport transaction chatCreatedAction
           iouCreatedAction iouAction details preview categories tags isNewChatReport
           isNewIOUReport policy policyTags policyCategories needs))).

(** After the optimistic patches of a request the money report holds,
    under its [reportID], the properties of the report handed to
    [buildOnyxDataForMoneyRequest], but for the last message and the
    pending fields. *)
Lemma moneyRequest_optimistic_report (f : string) :
  isAtom (get iouReport f) = true ->
  f ≠ "lastMessageText" -> f ≠ "lastMessageHtml" -> f ≠ "pendingFields" ->
  get (doc s1 (keyOf REPORT (get iouReport "reportID"))) f = get iouReport f.
Proof.
  intros Hatom H1 H2 H3.
  destruct (buildOnyxDataForMoneyRequest_optimisticData E chatReport iouReport transaction
              chatCreatedAction iouCreatedAction iouAction details preview categories tags
              isNewChatReport isNewIOUReport policy policyTags policyCategories needs)
    as [v ->].
  unfold moneyRequestOptimisticData.
  rewrite applyUpdates_app.
  rewrite doc_applyUpdates_other_collections
    by (destruct v; repeat constructor; cbn; discriminate).
  rewrite applyUpdates_app.
  rewrite doc_applyUpdates_other_collections by (keeps_all; cbn; discriminate).
  rewrite !applyUpdates_cons, applyUpdates_nil.
  skip_collections.
  assert (Hval : get (objLit [Spread iouReport;
                   Field "lastMessageText" (get (getIndex (get iouAction "message") 0) "text");
                   Field "lastMessageHtml" (get (getIndex (get iouAction "message") 0) "html");
                   Field "pendingFields"
                     (objLit [if isNewIOUReport
                              then Field "createChat" (CONST_PENDING_ACTION_ADD E)
                              else Field "preview" (CONST_PENDING_ACTION_UPDATE E)])]) f
                 = get iouReport f).
  { unfold get, objLit. cbn [fields foldl addPart].
    rewrite !lookup_insert_ne by congruence.
    by rewrite lookup_union, lookup_empty, option_union_None_r. }
  destruct isNewIOUReport.
  - rewrite doc_applyUpdate_set_obj. exact Hval.
  - rewrite doc_applyUpdate_merge_obj. rewrite get_fastMerge_copy; rewrite Hval; done.
Qed.

(** After the optimistic patches of a request the transaction is stored
    under its [transactionID]. *)
Lemma moneyRequest_optimistic_transaction :
  truthy transaction = true ->
  doc s1 (keyOf TRANSACTION (get transaction "transactionID")) = transaction.
Proof.
  intros Htx.
  destruct (buildOnyxDataForMoneyRequest_optimisticData E chatReport iouReport transaction
              chatCreatedAction iouCreatedAction iouAction details preview categories tags
              isNewChatReport isNewIOUReport policy policyTags policyCategories needs)
    as [v ->].
  unfold moneyRequestOptimisticData.
  rewrite applyUpdates_app.
  rewrite doc_applyUpdates_other_collections
    by (destruct v; repeat constructor; cbn; discriminate).
  rewrite applyUpdates_app.
  rewrite doc_applyUpdates_other_collections by (keeps_all; cbn; discriminate).
  rewrite !applyUpdates_cons, applyUpdates_nil.
  skip_collections.
  rewrite doc_applyUpdate_set. destruct transaction; try reflexivity; discriminate.
Qed.

End OptimisticReportAndTransaction.

Section RequestData.
Context (E : Externals) (s : store).
Variables report participant comment amount currency created merchant
  payeeAccountID payeeEmail receipt existingTransactionID category tag billable
  policy policyTags policyCategories : jsval.

Local Abbreviation r :=
  (getMoneyRequestInformation E s report participant comment amount currency created
     merchant payeeAccountID payeeEmail receipt existingTransactionID category tag billable
     policy policyTags policyCategories).

(** The patches of a request are built from the entities it returns. *)
Lemma getMoneyRequestInformation_built :
  exists createdChat createdIOU details cats tags isNewChat isNewIOU needs,
    MoneyRequestInformation.onyxData r
    = buildOnyxDataForMoneyRequest E (MoneyRequestInformation.chatReport r)
        (MoneyRequestInformation.iouReport r) (MoneyRequestInformation.transaction r)
        createdChat createdIOU (MoneyRequestInformation.iouAction r) details
        (MoneyRequestInformation.reportPreviewAction r) cats tags isNewChat isNewIOU
        policy policyTags policyCategories needs
    /\ MoneyRequestInformation.createdChatReportActionID r
       = (if isNewChat then get createdChat "reportActionID" else VNum 0)
    /\ MoneyRequestInformation.createdIOUReportActionID r
       = (if isNewIOU then get createdIOU "reportActionID" else VNum 0).
Proof.
  unfold getMoneyRequestInformation. cbv zeta.
  cbn [MoneyRequestInformation.iouReport MoneyRequestInformation.chatReport
       MoneyRequestInformation.reportPreviewAction MoneyRequestInformation.onyxData
       MoneyRequestInformation.transaction MoneyRequestInformation.iouAction
       MoneyRequestInformation.createdChatReportActionID
       MoneyRequestInformation.createdIOUReportActionID].
  do 8 eexists. split; [reflexivity|]. split; reflexivity.
Qed.

End RequestData.

Section ExistingExpenseReport.
Context (E : Externals) (s : store).
Variables report participant comment currency created merchant
  payeeAccountID payeeEmail receipt existingTransactionID category tag billable
  policy policyTags policyCategories : jsval.
Variables amount total : Z.
Variables chat stored : jsval.

(** C10: when a request is added to the open expense report of a policy
    expense chat, stored under its [reportID], the optimistic patches
    leave the report with a total that is the amount less if the report
    and the request have the same currency, and with the total it had if
    they do not; either way they store the new transaction. *)
Theorem expenseReport_total_follows_currency :
  truthy (get participant "isPolicyExpenseChat") = true ->
  existingChatReport E s report participant = chat ->
  truthy chat = true ->
  truthy (get chat "iouReportID") = true ->
  ReportUtils_hasIOUWaitingOnCurrentUserBankAccount E chat = false ->
  doc s (keyOf REPORT (get chat "iouReportID")) = stored ->
  truthy stored = true ->
  PolicyUtils_isPaidGroupPolicy E policy && negb (ReportUtils_isDraftExpenseReport E stored)
  = false ->
  get stored "reportID" = get chat "iouReportID" ->
  get stored "total" = VNum total ->
  let r := getMoneyRequestInformation E s report participant comment (VNum amount) currency
             created merchant payeeAccountID payeeEmail receipt existingTransactionID category
             tag billable policy policyTags policyCategories in
  let s1 := applyUpdates s (optimisticData (MoneyRequestInformation.onyxData r)) in
  let newTotal :=
    VNum (if strictEq (get stored "currency") currency then total - amount else total) in
  get (MoneyRequestInformation.iouReport r) "total" = newTotal
  /\ get (doc s1 (keyOf REPORT (get chat "iouReportID"))) "total" = newTotal
  /\ {| onyxMethod := SET;
        key := keyOf TRANSACTION (get (MoneyRequestInformation.transaction r) "transactionID");
        value := MoneyRequestInformation.transaction r |}
     ∈ optimisticData (MoneyRequestInformation.onyxData r)
  /\ (truthy (MoneyRequestInformation.transaction r) = true ->
      doc s1 (keyOf TRANSACTION (get (MoneyRequestInformation.transaction r) "transactionID"))
      = MoneyRequestInformation.transaction r).
Proof.
  intros Hpec Hchat Htchat Hiou Hwait Hstored Htstored Hpaid Hid Htotal.
  cbv zeta.
  destruct (getMoneyRequestInformation_built E s report participant comment (VNum amount)
              currency created merchant payeeAccountID payeeEmail receipt
              existingTransactionID category tag billable policy policyTags policyCategories)
    as (createdChat & createdIOU & details & cats & tags & isNewChat & isNewIOU & needs
        & HD & _ & _).
  rewrite HD. clear HD.
  assert (Hrep : get (MoneyRequestInformation.iouReport
                        (getMoneyRequestInformation E s report participant comment
                           (VNum amount) currency created merchant payeeAccountID payeeEmail
                           receipt existingTransactionID category tag billable policy
                           policyTags policyCategories)) "total"
                 = VNum (if strictEq (get stored "currency") currency
                         then total - amount else total)
                 /\ get (MoneyRequestInformation.iouReport
                           (getMoneyRequestInformation E s report participant comment
                              (VNum amount) currency created merchant payeeAccountID
                              payeeEmail receipt existingTransactionID category tag billable
                              policy policyTags policyCategories)) "reportID"
                    = get chat "iouReportID"
                 /\ MoneyRequestInformation.chatReport
                      (getMoneyRequestInformation E s report participant comment
                         (VNum amount) currency created merchant payeeAccountID payeeEmail
                         receipt existingTransactionID category tag billable policy
                         policyTags policyCategories) = chat).
  { unfold getMoneyRequestInformation. cbv zeta.
    cbn [MoneyRequestInformation.iouReport MoneyRequestInformation.chatReport].
    rewrite Hpec, Hchat, Htchat. cbn [negb]. rewrite Hiou, Hwait. cbn [negb orb].
    rewrite Hstored, Htstored. cbn [andb]. rewrite Hpaid.
    assert (Hbase : get (resolveIOUReport E stored chat true payeeAccountID
                           (Number E (get participant "accountID")) (VNum amount) currency)
                        "total"
                    = VNum (if strictEq (get stored "currency") currency
                            then total - amount else total)).
    { rewrite resolveIOUReport_policyExpense_total by exact Htstored. rewrite Htotal.
      destruct (strictEq (get stored "currency") currency); reflexivity. }
    assert (Hbid : get (resolveIOUReport E stored chat true payeeAccountID
                          (Number E (get participant "accountID")) (VNum amount) currency)
                       "reportID"
                   = get chat "iouReportID").
    { unfold resolveIOUReport. rewrite Htstored, lodashGet_undefined. cbv beta iota.
      rewrite !get_spread_copy. destruct (strictEq (get stored "currency") currency).
      - rewrite get_setField_ne by str_neq. by rewrite get_spread_copy.
      - by rewrite get_spread_copy. }
    split; [|split; [|reflexivity]].
    - destruct (truthy (getReportPreviewAction s _ _)); [exact Hbase|].
      rewrite get_setField_ne by str_neq. exact Hbase.
    - destruct (truthy (getReportPreviewAction s _ _)); [exact Hbid|].
      rewrite get_setField_ne by str_neq. exact Hbid. }
  destruct Hrep as (Htot & Hrid & Hc).
  split; [exact Htot|]. split; [|split].
  - rewrite <- Hrid at 1. rewrite <- Htot.
    apply moneyRequest_optimistic_report; [by rewrite Htot| | |]; discriminate.
  - apply moneyRequest_transaction_written.
  - apply moneyRequest_optimistic_transaction.
Qed.

End ExistingExpenseReport.

(** An expense of 5.00 USD: an open report of -10.00 USD goes to -15.00
    USD in the store, an open report of -10.00 EUR stays at -10.00, and
    the transaction is stored either way. *)
Lemma expenseReport_total_follows_currency_witness :
  let after c :=
    applyUpdates (Sample.expenseStore c)
      (optimisticData (MoneyRequestInformation.onyxData
                         (Sample.expenseIn (Sample.expenseStore c)))) in
  (truthy (get Sample.workspace "isPolicyExpenseChat") = true
   /\ get (doc (Sample.expenseStore "USD") (keyOf REPORT (VStr "2"))) "total" = VNum (-1000)
   /\ get (doc (Sample.expenseStore "EUR") (keyOf REPORT (VStr "2"))) "total" = VNum (-1000))
  /\ get (doc (after "USD") (keyOf REPORT (VStr "2"))) "total" = VNum (-1500)
  /\ get (doc (after "EUR") (keyOf REPORT (VStr "2"))) "total" = VNum (-1000)
  /\ get (doc (after "USD") (keyOf TRANSACTION (VStr "300"))) "amount" = VNum (-500)
  /\ get (doc (after "EUR") (keyOf TRANSACTION (VStr "300"))) "amount" = VNum (-500).
Proof.
  cbv zeta.
  assert (Hrun : forall c,
    (c = "USD" \/ c = "EUR") ->
    let r := Sample.expenseIn (Sample.expenseStore c) in
    let s1 := applyUpdates (Sample.expenseStore c)
                (optimisticData (MoneyRequestInformation.onyxData r)) in
    get (doc s1 (keyOf REPORT (VStr "2"))) "total"
    = VNum (if strictEq (get (Sample.openExpenseReport c) "currency") (VStr "USD")
            then -1000 - 500 else -1000)
    /\ doc s1 (keyOf TRANSACTION (get (MoneyRequestInformation.transaction r) "transactionID"))
       = MoneyRequestInformation.transaction r).
  { intros c Hc.
    destruct (expenseReport_total_follows_currency Sample.env (Sample.expenseStore c)
              Sample.expenseChat Sample.workspace (VStr "lunch") (VStr "USD")
              (VStr "2023-12-01") (VStr "Cafe") (VNum 1) (VStr "me@example.com")
              VUndefined VUndefined VUndefined VUndefined VUndefined Sample.teamPolicy
              VUndefined VUndefined 500 (-1000) Sample.expenseChat
              (Sample.openExpenseReport c)) as (_ & Htot & _ & Htx);
      try (destruct Hc as [->| ->]; vm_compute; reflexivity).
    split; [exact Htot|]. apply Htx. destruct Hc as [->| ->]; vm_compute; reflexivity. }
  split; [repeat split; vm_compute; reflexivity|].
  destruct (Hrun "USD" (or_introl eq_refl)) as [Hu Htu].
  destruct (Hrun "EUR" (or_intror eq_refl)) as [He Hte].
  split; [exact Hu|]. split; [exact He|].
  split.
  - refine (eq_trans (f_equal (fun d => get d "amount") Htu) _). vm_compute. reflexivity.
  - refine (eq_trans (f_equal (fun d => get d "amount") Hte) _). vm_compute. reflexivity.
Defined.

(* ===================================================================== *)
(** * What a failed edit, approval, submission or deletion leaves *)

Section EditFailure.
Context (E : Externals) (s : store).
Variables transactionID transactionThreadReportID transactionChanges : jsval.

Local Abbreviation transaction := (doc s (keyOf TRANSACTION transactionID)).
Local Abbreviation transactionThread := (doc s (keyOf REPORT transactionThreadReportID)).
Local Abbreviation iouReport :=
  (doc s (keyOf REPORT (get transactionThread "parentReportID"))).

Lemma editRegularMoneyRequest_inv D :
  editRegularMoneyRequest E s transactionID transactionThreadReportID transactionChanges
  = Some D ->
  D = editRegularMoneyRequestData E s transactionID transactionThreadReportID
        transactionChanges transactionThread transaction iouReport.
Proof.
  intros HD. unfold editRegularMoneyRequest in HD.
  destruct (deref transactionThread) as [tt|] eqn:Htt; [|discriminate].
  apply deref_Some in Htt as ->. cbn [mbind option_bind] in HD.
  destruct (deref transaction) as [tx|] eqn:Htx; [|discriminate].
  apply deref_Some in Htx as ->. cbn [mbind option_bind] in HD.
  destruct (deref iouReport) as [ir|] eqn:Hir; [|discriminate].
  apply deref_Some in Hir as ->. cbn [mbind option_bind] in HD.
  by injection HD as <-.
Qed.

(** X1: after the optimistic and then the failure patches of an edit, the
    transaction has no [pendingFields]; each of [modifiedCreated],
    [modifiedAmount], [modifiedCurrency], [modifiedMerchant] and
    [modifiedWaypoints] that was unset (or falsy) before the edit is absent
    again; and every property but [pendingFields] that held a boolean,
    number, string or array before the edit (a truthy one, for those
    five) holds it again. *)
Theorem edit_failure_restores_transaction D (f : string) :
  editRegularMoneyRequest E s transactionID transactionThreadReportID transactionChanges
  = Some D ->
  let s3 := applyUpdates (applyUpdates s (optimisticData D)) (failureData D) in
  let restored := doc s3 (keyOf TRANSACTION transactionID) in
  has restored "pendingFields" = false
  /\ (f ∈ modifiedFields -> truthy (get transaction f) = false -> has restored f = false)
  /\ (f ≠ "pendingFields" -> isAtom (get transaction f) = true ->
      (f ∈ modifiedFields -> truthy (get transaction f) = true) ->
      get restored f = get transaction f).
Proof.
  intros HD. apply editRegularMoneyRequest_inv in HD as ->. cbv zeta.
  set (s1 := applyUpdates s _).
  unfold editRegularMoneyRequestData. cbv zeta. cbn [failureData].
  rewrite !applyUpdates_cons, applyUpdates_nil. skip_collections.
  rewrite doc_applyUpdate_merge_obj. skip_collections.
  set (old := doc s1 _). clearbody old s1.
  split; [|split].
  - apply has_false. unfold objLit at 1. rewrite fields_fastMerge_obj.
    fold (objLit). lookup_lit. reflexivity.
  - intros Hf Hfalse. apply has_false. unfold objLit at 1. rewrite fields_fastMerge_obj.
    unfold modifiedFields in Hf. rewrite !elem_of_cons, elem_of_nil in Hf.
    destruct Hf as [->|[->|[->|[->|[->|[]]]]]]; lookup_lit; rewrite Hfalse; reflexivity.
  - intros Hpf Hatom Hmod. unfold get at 1, objLit at 1. rewrite fields_fastMerge_obj.
    destruct (decide (f ∈ modifiedFields)) as [Hin|Hout].
    + specialize (Hmod Hin).
      unfold modifiedFields in Hin. rewrite !elem_of_cons, elem_of_nil in Hin.
      destruct Hin as [->|[->|[->|[->|[->|[]]]]]]; lookup_lit; rewrite Hmod;
        destruct (get transaction _); try discriminate; reflexivity.
    + unfold modifiedFields in Hout. rewrite !not_elem_of_cons in Hout.
      destruct Hout as (H1 & H2 & H3 & H4 & H5 & _).
      unfold objLit. cbn [foldl addPart].
      rewrite !lookup_insert_ne by congruence.
      rewrite lookup_union, lookup_empty, option_union_None_r.
      unfold get in Hatom |- *.
      destruct (fields transaction !! f) as [[]|]; try discriminate; reflexivity.
Qed.

End EditFailure.

Lemma get_setField_spread v k x : get (objLit [Spread v; Field k x]) k = x.
Proof. unfold get. lookup_lit. reflexivity. Qed.

Section EditFailureReport.
Context (E : Externals) (s : store).
Variables transactionID transactionThreadReportID transactionChanges : jsval.

Local Abbreviation transactionThread := (doc s (keyOf REPORT transactionThreadReportID)).
Local Abbreviation iouReport :=
  (doc s (keyOf REPORT (get transactionThread "parentReportID"))).

(** X2: after the optimistic and then the failure patches of an edit, every
    property of the money report that held a boolean, number, string or
    array holds it again (the total in particular), and a [cachedTotal]
    written by the edit is removed when the report had none.  (The chat
    and the transaction thread are other documents than the report.) *)
Theorem edit_failure_restores_report D (f : string) :
  editRegularMoneyRequest E s transactionID transactionThreadReportID transactionChanges
  = Some D ->
  toString (get iouReport "chatReportID") ≠ toString (get iouReport "reportID") ->
  toString transactionThreadReportID ≠ toString (get iouReport "reportID") ->
  let s3 := applyUpdates (applyUpdates s (optimisticData D)) (failureData D) in
  let restored := doc s3 (keyOf REPORT (get iouReport "reportID")) in
  (truthy (get iouReport "cachedTotal") = false -> has restored "cachedTotal" = false)
  /\ (isAtom (get iouReport f) = true ->
      (f = "cachedTotal" -> truthy (get iouReport f) = true) ->
      get restored f = get iouReport f).
Proof.
  intros HD Hchat Hthread. apply editRegularMoneyRequest_inv in HD as ->. cbv zeta.
  set (s1 := applyUpdates s _).
  unfold editRegularMoneyRequestData. cbv zeta. cbn [failureData].
  rewrite !applyUpdates_cons, applyUpdates_nil.
  rewrite !(doc_applyUpdate_ne _ _ (keyOf REPORT (get iouReport "reportID")))
    by (cbn [key]; apply keyOf_ne; assumption).
  rewrite doc_applyUpdate_merge_obj. skip_collections.
  set (old := doc s1 _). clearbody old s1.
  split.
  - intros Hfalse. apply has_false. unfold objLit at 1. rewrite fields_fastMerge_obj.
    lookup_lit. rewrite Hfalse. reflexivity.
  - intros Hatom Hcached.
    destruct (decide (f = "cachedTotal")) as [->|Hne].
    + rewrite (Hcached eq_refl). rewrite get_fastMerge_copy; rewrite get_setField_spread; done.
    + rewrite get_fastMerge_copy; rewrite get_spread_field by congruence; done.
Qed.

End EditFailureReport.

Section SubmitAndApproveNextStep.
Context (E : Externals) (s : store) (expenseReport : jsval).

Local Abbreviation nextStepKey := (keyOf NEXT_STEP (get expenseReport "reportID")).
Local Abbreviation approval := (approveMoneyRequest E s expenseReport).
Local Abbreviation submission := (submitReport E s expenseReport).

Lemma docOrNull_of_field k f :
  isAtom (get (doc s k) f) = true -> isNull (docOrNull s k) = false /\ docOrNull s k = doc s k.
Proof.
  unfold doc, docOrNull. destruct (s !! k) as [[]|]; cbn; try discriminate; auto.
Qed.

(** X3: approving or submitting an expense report that has a next step
    removes the next step at once; it stays removed when the request
    succeeds, and a failure puts its properties (booleans, numbers,
    strings, arrays) back. *)
Theorem nextStep_removed_then_restored (f : string) :
  isAtom (get (doc s nextStepKey) f) = true ->
  let approved := applyUpdates s (optimisticData approval) in
  let submitted := applyUpdates s (optimisticData submission) in
  (doc approved nextStepKey = VUndefined
   /\ doc (applyUpdates approved (successData approval)) nextStepKey = VUndefined
   /\ get (doc (applyUpdates approved (failureData approval)) nextStepKey) f
      = get (doc s nextStepKey) f)
  /\ (doc submitted nextStepKey = VUndefined
      /\ doc (applyUpdates submitted (successData submission)) nextStepKey = VUndefined
      /\ get (doc (applyUpdates submitted (failureData submission)) nextStepKey) f
         = get (doc s nextStepKey) f).
Proof.
  intros Hf. destruct (docOrNull_of_field _ _ Hf) as [Hnn Hdoc]. cbv zeta.
  assert (Hopt1 : doc (applyUpdates s (optimisticData approval)) nextStepKey = VUndefined).
  { unfold approveMoneyRequest. cbv zeta. cbn [optimisticData]. rewrite Hnn.
    cbn [negb spliceIf]. rewrite applyUpdates_app, applyUpdates_cons, applyUpdates_nil.
    apply doc_applyUpdate_set_null. }
  assert (Hopt2 : doc (applyUpdates s (optimisticData submission)) nextStepKey = VUndefined).
  { unfold submitReport. cbv zeta. cbn [optimisticData]. rewrite Hnn.
    cbn [negb spliceIf]. rewrite !applyUpdates_app, applyUpdates_cons, applyUpdates_nil.
    apply doc_applyUpdate_set_null. }
  split; (split; [assumption|split]).
  - rewrite doc_applyUpdates_other_collections; [exact Hopt1|].
    unfold approveMoneyRequest. cbv zeta. cbn [successData]. keeps_all; cbn; discriminate.
  - set (s1 := applyUpdates s (optimisticData approval)) in *. clearbody s1.
    unfold approveMoneyRequest. cbv zeta. cbn [failureData]. rewrite Hnn, Hdoc.
    cbn [negb spliceIf]. rewrite applyUpdates_app, applyUpdates_cons, applyUpdates_nil.
    rewrite doc_applyUpdate_merge.
    destruct (doc s nextStepKey) eqn:Hd; try discriminate.
    rewrite <- Hd in *. by apply get_fastMerge_copy.
  - rewrite doc_applyUpdates_other_collections; [exact Hopt2|].
    unfold submitReport. cbv zeta. cbn [successData]. keeps_all; cbn; discriminate.
  - set (s1 := applyUpdates s (optimisticData submission)) in *. clearbody s1.
    unfold submitReport. cbv zeta. cbn [failureData]. rewrite Hnn, Hdoc.
    cbn [negb spliceIf]. rewrite !applyUpdates_app.
    rewrite (applyUpdates_cons _ _ []), applyUpdates_nil.
    rewrite doc_applyUpdate_merge.
    destruct (doc s nextStepKey) eqn:Hd; try discriminate.
    rewrite <- Hd in *. by apply get_fastMerge_copy.
Qed.

End SubmitAndApproveNextStep.

Section DeleteFailure.
Context (E : Externals) (s : store).
Variables transactionID reportAction : jsval.

Local Abbreviation iouReport :=
  (doc s (keyOf REPORT (get (get reportAction "originalMessage") "IOUReportID"))).
Local Abbreviation chatReport := (doc s (keyOf REPORT (get iouReport "chatReportID"))).
Local Abbreviation transactionThreadID := (get reportAction "childReportID").

(** X4: deleting a money request removes the transaction at once, and the
    failure patches put the very document back; they also give the money
    report back every property that held a boolean, number, string or
    array, whether the report itself was to be deleted or not.  (The chat
    is stored under another [reportID] than the money report.) *)
Theorem delete_failure_restores D (transaction : jsval) (f : string) :
  deleteMoneyRequest E s transactionID reportAction = Some D ->
  deref (doc s (keyOf TRANSACTION transactionID)) = Some transaction ->
  toString (get chatReport "reportID") ≠ toString (get iouReport "reportID") ->
  isAtom (get iouReport f) = true ->
  let s1 := applyUpdates s (optimisticData D) in
  let s3 := applyUpdates s1 (failureData D) in
  doc s1 (keyOf TRANSACTION transactionID) = VUndefined
  /\ doc s3 (keyOf TRANSACTION transactionID) = transaction
  /\ get (doc s3 (keyOf REPORT (get iouReport "reportID"))) f = get iouReport f.
Proof.
  intros HD Ht Hne Hf.
  destruct (deleteMoneyRequest_inv E s transactionID reportAction D HD)
    as (rpa & pm & _ & ->).
  cbv zeta.
  unfold deleteMoneyRequestData. cbv zeta. cbn [optimisticData failureData].
  match goal with
  | |- context [applyUpdates s ?opt] => set (s1 := applyUpdates s opt)
  end.
  split; [|split].
  - subst s1. rewrite !applyUpdates_app.
    rewrite !doc_applyUpdates_other_collections by (keeps_all; cbn; discriminate).
    rewrite applyUpdates_cons, applyUpdates_nil. apply doc_applyUpdate_set.
  - clearbody s1. rewrite !applyUpdates_app.
    rewrite !doc_applyUpdates_other_collections by (keeps_all; cbn; discriminate).
    rewrite applyUpdates_cons, applyUpdates_nil, doc_applyUpdate_set.
    destruct (doc s (keyOf TRANSACTION transactionID)); cbn in Ht; congruence.
  - clearbody s1. rewrite !applyUpdates_app.
    rewrite !(doc_applyUpdates_other_keys _ (spliceIf _ _))
      by (keeps_all; cbn [key]; apply keyOf_ne; exact Hne).
    rewrite !applyUpdates_cons, applyUpdates_nil. skip_collections.
    destruct (shouldDeleteIOUReport _).
    + rewrite doc_applyUpdate_set. destruct iouReport; try discriminate; reflexivity.
    + rewrite doc_applyUpdate_merge.
      destruct iouReport eqn:Hi; try discriminate.
      by apply get_fastMerge_copy.
Qed.

Lemma shouldDeleteTransactionThread_truthy iou :
  shouldDeleteTransactionThread (deleteDecision E s iou reportAction) = true ->
  truthy transactionThreadID = true.
Proof.
  unfold deleteDecision. cbv zeta. cbn [shouldDeleteTransactionThread].
  destruct (truthy transactionThreadID); [reflexivity|discriminate].
Qed.

(** X5: when a delete removes the transaction thread with the request,
    the optimistic patches remove the thread report and the thread's
    report actions; the failure patches put the thread report back but
    never its report actions, which stay removed.  (The thread is another
    report than the chat and the money report.) *)
Theorem delete_failure_keeps_thread_actions_removed D (f : string) :
  deleteMoneyRequest E s transactionID reportAction = Some D ->
  shouldDeleteTransactionThread (deleteDecision E s iouReport reportAction) = true ->
  toString transactionThreadID ≠ toString (get iouReport "reportID") ->
  toString transactionThreadID ≠ toString (get chatReport "reportID") ->
  let s1 := applyUpdates s (optimisticData D) in
  let s3 := applyUpdates s1 (failureData D) in
  doc s1 (keyOf REPORT transactionThreadID) = VUndefined
  /\ doc s1 (keyOf REPORT_ACTIONS transactionThreadID) = VUndefined
  /\ get (doc s3 (keyOf REPORT transactionThreadID)) f
     = get (doc s (keyOf REPORT transactionThreadID)) f
  /\ doc s3 (keyOf REPORT_ACTIONS transactionThreadID) = VUndefined.
Proof.
  intros HD Hdel Hiou Hchat.
  pose proof (shouldDeleteTransactionThread_truthy _ Hdel) as Htid.
  destruct (deleteMoneyRequest_inv E s transactionID reportAction D HD)
    as (rpa & pm & _ & ->).
  cbv zeta.
  unfold deleteMoneyRequestData. cbv zeta. cbn [optimisticData failureData].
  rewrite Hdel, Htid. cbn [spliceIf].
  match goal with
  | |- context [applyUpdates s ?opt] => set (s1 := applyUpdates s opt)
  end.
  assert (Hne : forall c a b, toString a ≠ toString b -> keyOf c b ≠ keyOf c a).
  { intros c a b H. apply keyOf_ne. congruence. }
  assert (H1 : doc s1 (keyOf REPORT transactionThreadID) = VUndefined).
  { subst s1. rewrite !applyUpdates_app.
    rewrite !(doc_applyUpdates_other_keys _ (spliceIf _ _))
      by (keeps_all; cbn [key]; apply Hne; exact Hchat).
    rewrite !applyUpdates_cons, !applyUpdates_nil.
    rewrite (doc_applyUpdate_collection_ne _ _ REPORT) by (cbn; discriminate).
    rewrite (doc_applyUpdate_ne _ _ (keyOf REPORT _)) by (cbn [key]; apply Hne; exact Hiou).
    rewrite !(doc_applyUpdate_collection_ne _ _ REPORT) by (cbn; discriminate).
    apply doc_applyUpdate_set_null. }
  assert (H2 : doc s1 (keyOf REPORT_ACTIONS transactionThreadID) = VUndefined).
  { subst s1. rewrite !applyUpdates_app.
    rewrite !(doc_applyUpdates_other_collections _ (spliceIf _ _))
      by (keeps_all; cbn; discriminate).
    rewrite !applyUpdates_cons, !applyUpdates_nil.
    rewrite (doc_applyUpdate_ne _ _ (keyOf REPORT_ACTIONS _))
      by (cbn [key]; apply Hne; exact Hchat).
    rewrite (doc_applyUpdate_collection_ne _ _ REPORT_ACTIONS) by (cbn; discriminate).
    rewrite (doc_applyUpdate_ne _ _ (keyOf REPORT_ACTIONS _))
      by (cbn [key]; apply Hne; exact Hiou).
    apply doc_applyUpdate_set_null. }
  split; [exact H1|]. split; [exact H2|].
  clearbody s1. split.
  - rewrite !applyUpdates_app.
    rewrite !(doc_applyUpdates_other_keys _ (spliceIf _ _))
      by (keeps_all; cbn [key]; apply Hne; exact Hchat).
    rewrite !applyUpdates_cons, !applyUpdates_nil.
    rewrite (doc_applyUpdate_collection_ne _ _ REPORT) by (cbn; discriminate).
    rewrite (doc_applyUpdate_ne _ _ (keyOf REPORT _)) by (cbn [key]; apply Hne; exact Hiou).
    rewrite (doc_applyUpdate_collection_ne _ _ REPORT) by (cbn; discriminate).
    rewrite doc_applyUpdate_set.
    destruct (doc s (keyOf REPORT transactionThreadID)); reflexivity.
  - rewrite !applyUpdates_app.
    rewrite !(doc_applyUpdates_other_collections _ (spliceIf _ _))
      by (keeps_all; cbn; discriminate).
    rewrite !applyUpdates_cons, !applyUpdates_nil.
    rewrite (doc_applyUpdate_ne _ _ (keyOf REPORT_ACTIONS _))
      by (cbn [key]; apply Hne; exact Hchat).
    rewrite (doc_applyUpdate_collection_ne _ _ REPORT_ACTIONS) by (cbn; discriminate).
    rewrite (doc_applyUpdate_ne _ _ (keyOf REPORT_ACTIONS _))
      by (cbn [key]; apply Hne; exact Hiou).
    rewrite !(doc_applyUpdate_collection_ne _ _ REPORT_ACTIONS) by (cbn; discriminate).
    rewrite doc_applyUpdates_other_collections by (keeps_all; cbn; discriminate).
    rewrite (doc_applyUpdate_collection_ne _ _ REPORT_ACTIONS) by (cbn; discriminate).
    exact H2.
Qed.

End DeleteFailure.

Lemma edit_failure_restores_transaction_witness :
  exists D,
    editRegularMoneyRequest Sample.env Sample.editStore (VStr "300") (VStr "3")
      Sample.amountChange = Some D
    /\ get (doc (applyUpdates Sample.editStore (optimisticData D))
              (keyOf TRANSACTION (VStr "300"))) "modifiedAmount" = VNum 700
    /\ let s3 := applyUpdates (applyUpdates Sample.editStore (optimisticData D))
                   (failureData D) in
       has (doc s3 (keyOf TRANSACTION (VStr "300"))) "pendingFields" = false
       /\ has (doc s3 (keyOf TRANSACTION (VStr "300"))) "modifiedAmount" = false.
Proof.
  exists (editRegularMoneyRequestData Sample.env Sample.editStore (VStr "300") (VStr "3")
            Sample.amountChange Sample.transactionThread Sample.euroTransaction
            Sample.openIOU).
  assert (HD : editRegularMoneyRequest Sample.env Sample.editStore (VStr "300") (VStr "3")
                 Sample.amountChange
               = Some (editRegularMoneyRequestData Sample.env Sample.editStore (VStr "300")
                         (VStr "3") Sample.amountChange Sample.transactionThread
                         Sample.euroTransaction Sample.openIOU))
    by (vm_compute; reflexivity).
  split; [exact HD|]. split; [vm_compute; reflexivity|].
  destruct (edit_failure_restores_transaction Sample.env Sample.editStore (VStr "300")
              (VStr "3") Sample.amountChange _ "modifiedAmount" HD) as (H1 & H2 & _).
  split; [exact H1|]. apply H2; [|vm_compute; reflexivity].
  unfold modifiedFields. apply list_elem_of_lookup. exists 1. reflexivity.
Defined.

(** An edit of the amount, 5.00 USD to 7.00 USD, of a request filed on
    the expense report in USD: the optimistic patches move the total from
    -10.00 to -12.00 and write a [cachedTotal]; the failure patches give
    the total back and remove the [cachedTotal]. *)
Lemma edit_failure_restores_report_witness :
  let s := Scenario.expenseEditStore in
  exists D,
    editRegularMoneyRequest Sample.env s (VStr "300") (VStr "3") Sample.amountChange = Some D
    /\ (get (doc s (keyOf REPORT (VStr "2"))) "total" = VNum (-1000)
        /\ has (doc s (keyOf REPORT (VStr "2"))) "cachedTotal" = false)
    /\ (let s1 := applyUpdates s (optimisticData D) in
        get (doc s1 (keyOf REPORT (VStr "2"))) "total" = VNum (-1200)
        /\ get (doc s1 (keyOf REPORT (VStr "2"))) "cachedTotal" = VStr "USD -1200")
    /\ let s3 := applyUpdates (applyUpdates s (optimisticData D)) (failureData D) in
       has (doc s3 (keyOf REPORT (VStr "2"))) "cachedTotal" = false
       /\ get (doc s3 (keyOf REPORT (VStr "2"))) "total" = VNum (-1000).
Proof.
  cbv zeta.
  exists (editRegularMoneyRequestData Sample.env Scenario.expenseEditStore (VStr "300")
            (VStr "3") Sample.amountChange Sample.transactionThread
            Scenario.dollarTransaction (Sample.openExpenseReport "USD")).
  assert (HD : editRegularMoneyRequest Sample.env Scenario.expenseEditStore (VStr "300")
                 (VStr "3") Sample.amountChange
               = Some (editRegularMoneyRequestData Sample.env Scenario.expenseEditStore
                         (VStr "300") (VStr "3") Sample.amountChange
                         Sample.transactionThread Scenario.dollarTransaction
                         (Sample.openExpenseReport "USD")))
    by (vm_compute; reflexivity).
  split; [exact HD|].
  split; [split; vm_compute; reflexivity|].
  split; [split; vm_compute; reflexivity|].
  assert (H1 : toString (VStr "1") ≠ toString (VStr "2")) by (cbn; str_neq).
  assert (H2 : toString (VStr "3") ≠ toString (VStr "2")) by (cbn; str_neq).
  destruct (edit_failure_restores_report Sample.env Scenario.expenseEditStore (VStr "300")
              (VStr "3") Sample.amountChange _ "total" HD H1 H2) as (Hc & Ht).
  split; [apply Hc; vm_compute; reflexivity|].
  apply Ht; [vm_compute; reflexivity|]. intros H. exfalso. revert H. str_neq.
Defined.

Lemma nextStep_removed_then_restored_witness :
  let s := Scenario.nextStepStore in
  let report := Sample.expenseReportIn 0 0 in
  let submission := submitReport Sample.env s report in
  get (doc s (keyOf NEXT_STEP (VStr "2"))) "title" = VStr "Submit this report"
  /\ doc (applyUpdates s (optimisticData submission)) (keyOf NEXT_STEP (VStr "2")) = VUndefined
  /\ get (doc (applyUpdates (applyUpdates s (optimisticData submission))
                 (failureData submission)) (keyOf NEXT_STEP (VStr "2"))) "title"
     = VStr "Submit this report".
Proof.
  cbv zeta. split; [vm_compute; reflexivity|].
  assert (Hf : isAtom (get (doc Scenario.nextStepStore
                              (keyOf NEXT_STEP (get (Sample.expenseReportIn 0 0) "reportID")))
                         "title") = true) by (vm_compute; reflexivity).
  destruct (nextStep_removed_then_restored Sample.env Scenario.nextStepStore
              (Sample.expenseReportIn 0 0) "title" Hf) as (_ & H1 & _ & H3).
  split; [exact H1|exact H3].
Defined.

Lemma delete_failure_restores_witness :
  let s := Sample.deleteStore (VNum 1) in
  exists D,
    deleteMoneyRequest Sample.env s (VStr "300") Sample.onlyRequestAction = Some D
    /\ is_Some (s !! keyOf TRANSACTION (VStr "300"))
    /\ doc (applyUpdates s (optimisticData D)) (keyOf TRANSACTION (VStr "300")) = VUndefined
    /\ doc (applyUpdates (applyUpdates s (optimisticData D)) (failureData D))
         (keyOf TRANSACTION (VStr "300"))
       = doc s (keyOf TRANSACTION (VStr "300"))
    /\ get (doc (applyUpdates (applyUpdates s (optimisticData D)) (failureData D))
              (keyOf REPORT (VStr "2"))) "total" = VNum 1000.
Proof.
  cbv zeta.
  pose (D := deleteMoneyRequestData Sample.env (Sample.deleteStore (VNum 1)) (VStr "300")
               Sample.onlyRequestAction Sample.openIOU Sample.chatWithIOU
               (Sample.previewOfIOU (VNum 1))
               (getIndex (Sample.message "owes 10.00") 0)).
  assert (HD : deleteMoneyRequest Sample.env (Sample.deleteStore (VNum 1)) (VStr "300")
                 Sample.onlyRequestAction = Some D) by (vm_compute; reflexivity).
  exists D. split; [exact HD|]. split; [vm_compute; eauto|].
  assert (Ht : deref (doc (Sample.deleteStore (VNum 1)) (keyOf TRANSACTION (VStr "300")))
               = Some (doc (Sample.deleteStore (VNum 1)) (keyOf TRANSACTION (VStr "300"))))
    by (vm_compute; reflexivity).
  refine (delete_failure_restores Sample.env (Sample.deleteStore (VNum 1)) (VStr "300")
            Sample.onlyRequestAction D _ "total" HD Ht _ _).
  - vm_compute. str_neq.
  - vm_compute; reflexivity.
Defined.

Lemma delete_failure_keeps_thread_actions_removed_witness :
  let s := Scenario.threadStore in
  exists D,
    deleteMoneyRequest Sample.env s (VStr "300") Scenario.quietRequestAction = Some D
    /\ is_Some (s !! keyOf REPORT_ACTIONS (VStr "3"))
    /\ get (doc (applyUpdates (applyUpdates s (optimisticData D)) (failureData D))
              (keyOf REPORT (VStr "3"))) "parentReportID" = VStr "2"
    /\ doc (applyUpdates (applyUpdates s (optimisticData D)) (failureData D))
         (keyOf REPORT_ACTIONS (VStr "3")) = VUndefined.
Proof.
  cbv zeta.
  pose (D := deleteMoneyRequestData Sample.env Scenario.threadStore (VStr "300")
               Scenario.quietRequestAction Sample.openIOU Sample.chatWithIOU
               (Sample.previewOfIOU (VNum 1))
               (getIndex (Sample.message "owes 10.00") 0)).
  assert (HD : deleteMoneyRequest Sample.env Scenario.threadStore (VStr "300")
                 Scenario.quietRequestAction = Some D) by (vm_compute; reflexivity).
  exists D. split; [exact HD|]. split; [vm_compute; eauto|].
  assert (Hdel : shouldDeleteTransactionThread
                   (deleteDecision Sample.env Scenario.threadStore
                      (doc Scenario.threadStore
                         (keyOf REPORT
                            (get (get Scenario.quietRequestAction "originalMessage")
                               "IOUReportID")))
                      Scenario.quietRequestAction) = true) by (vm_compute; reflexivity).
  destruct (delete_failure_keeps_thread_actions_removed Sample.env Scenario.threadStore
              (VStr "300") Scenario.quietRequestAction D "parentReportID" HD Hdel)
    as (_ & _ & H3 & H4).
  - vm_compute. str_neq.
  - vm_compute. str_neq.
  - split; [|exact H4]. refine (eq_trans H3 _). vm_compute; reflexivity.
Defined.

(* ===================================================================== *)
(** * The draft of a money request *)

Lemma runDraftSetter_patch M c s t :
  runDraftSetter M c s t = Onyx_merge s (keyOf TRANSACTION_DRAFT t) (VObj (patchOf M c)).
Proof. destruct c; reflexivity. Qed.

Lemma patchOf_writtenBy M c f : f ∉ writtenBy c -> patchOf M c !! f = None.
Proof.
  destruct c; cbn [writtenBy patchOf]; rewrite ?not_elem_of_cons; intros H;
    unfold objLit; cbn [fields foldl addPart];
    rewrite ?lookup_insert_ne by (intros <-; intuition congruence); apply lookup_empty.
Qed.

(** X6: two setters of the draft that write different properties, or write
    the drafts of different transactions, can be called in either order:
    the store ends up the same. *)
Theorem draft_setters_commute M (c1 c2 : draftSetter) s (t1 t2 : jsval) :
  (toString t1 = toString t2 -> forall f, f ∈ writtenBy c1 -> f ∉ writtenBy c2) ->
  runDraftSetter M c2 (runDraftSetter M c1 s t1) t2
  = runDraftSetter M c1 (runDraftSetter M c2 s t2) t1.
Proof.
  intros H. rewrite !runDraftSetter_patch. apply Onyx_merge_comm.
  intros Hk f. unfold keyOf in Hk. injection Hk as Hk.
  destruct (decide (f ∈ writtenBy c1)) as [Hin|Hout].
  - right. apply patchOf_writtenBy. by apply H.
  - left. by apply patchOf_writtenBy.
Qed.

Lemma draft_setters_commute_witness :
  let s := Scenario.draftStore in
  let M := Scenario.more in
  runDraftSetter M (SetTag (VStr "lunch"))
    (runDraftSetter M (SetCategory (VStr "Meals")) s (VStr "1")) (VStr "1")
  = runDraftSetter M (SetCategory (VStr "Meals"))
      (runDraftSetter M (SetTag (VStr "lunch")) s (VStr "1")) (VStr "1").
Proof.
  cbv zeta. apply draft_setters_commute.
  intros _ f Hf. cbn [writtenBy] in *. apply list_elem_of_singleton in Hf. subst f.
  rewrite not_elem_of_cons. split; [str_neq|apply not_elem_of_nil].
Defined.

(* ---------------------------------------------------------------- *)

Lemma fastMerge_null_after t k v :
  fastMerge (VObj {[ k := VNull ]}) (fastMerge (VObj {[ k := v ]}) t)
  = fastMerge (VObj {[ k := VNull ]}) t.
Proof.
  assert (Hobj : forall a b, exists m, fastMerge (VObj a) b = VObj m).
  { intros a b. unfold fastMerge; fold fastMerge. eauto. }
  destruct (Hobj {[ k := VNull ]} (fastMerge (VObj {[ k := v ]}) t)) as [m1 H1].
  destruct (Hobj {[ k := VNull ]} t) as [m2 H2].
  rewrite H1, H2. f_equal. apply map_eq. intros f.
  change (fields (VObj m1) !! f = fields (VObj m2) !! f).
  rewrite <- H1, <- H2.
  rewrite (fields_fastMerge_obj {[ k := VNull ]} (fastMerge (VObj {[ k := v ]}) t) f).
  rewrite (fields_fastMerge_obj {[ k := VNull ]} t f).
  destruct (decide (k = f)) as [->|Hne].
  - rewrite lookup_singleton_eq. reflexivity.
  - rewrite lookup_singleton_ne by exact Hne.
    rewrite (fields_fastMerge_obj {[ k := v ]} t f), lookup_singleton_ne by exact Hne.
    reflexivity.
Qed.

Lemma fastMerge_null_absent (o : gmap string jsval) k :
  o !! k = None -> fastMerge (VObj {[ k := VNull ]}) (VObj o) = VObj o.
Proof.
  intros Hk.
  assert (Hobj : exists m, fastMerge (VObj {[ k := VNull ]}) (VObj o) = VObj m).
  { unfold fastMerge; fold fastMerge. eauto. }
  destruct Hobj as [m Hm]. rewrite Hm. f_equal. apply map_eq. intros f.
  change (fields (VObj m) !! f = o !! f). rewrite <- Hm.
  rewrite (fields_fastMerge_obj {[ k := VNull ]} (VObj o) f).
  destruct (decide (k = f)) as [->|Hne].
  - rewrite lookup_singleton_eq. by rewrite Hk.
  - rewrite lookup_singleton_ne by exact Hne. reflexivity.
Qed.


Lemma Onyx_merge_null_after s key k v :
  Onyx_merge (Onyx_merge s key (objLit [Field k v])) key (objLit [Field k VNull])
  = Onyx_merge s key (objLit [Field k VNull]).
Proof.
  rewrite !objLit_singleton, !Onyx_merge_obj, doc_insert_eq, insert_insert_eq.
  f_equal. apply fastMerge_null_after.
Qed.

Lemma Onyx_merge_null_absent (s : store) key k (o : gmap string jsval) :
  s !! key = Some (VObj o) -> o !! k = None ->
  Onyx_merge s key (objLit [Field k VNull]) = s.
Proof.
  intros Hs Hk. rewrite objLit_singleton, Onyx_merge_obj. unfold doc. rewrite Hs. cbn.
  rewrite fastMerge_null_absent by exact Hk. by apply insert_id.
Qed.

(** X7: on a draft that has no category, setting a category and then
    resetting it gives the store back as it was, and likewise for the tag;
    after a reset the draft has no [category] (resp. [tag]) property at
    all. *)
Theorem draft_reset_undoes_set s (transactionID v : jsval) (draft : gmap string jsval) :
  s !! keyOf TRANSACTION_DRAFT transactionID = Some (VObj draft) ->
  (draft !! "category" = None ->
   resetMoneyRequestCategory_temporaryForRefactor
     (setMoneyRequestCategory_temporaryForRefactor s transactionID v) transactionID = s)
  /\ (draft !! "tag" = None ->
      resetMoneyRequestTag_temporaryForRefactor
        (setMoneyRequestTag_temporaryForRefactor s transactionID v) transactionID = s)
  /\ has (doc (resetMoneyRequestCategory_temporaryForRefactor s transactionID)
            (keyOf TRANSACTION_DRAFT transactionID)) "category" = false
  /\ has (doc (resetMoneyRequestTag_temporaryForRefactor s transactionID)
            (keyOf TRANSACTION_DRAFT transactionID)) "tag" = false.
Proof.
  intros Hs.
  unfold resetMoneyRequestCategory_temporaryForRefactor,
    setMoneyRequestCategory_temporaryForRefactor,
    resetMoneyRequestTag_temporaryForRefactor, setMoneyRequestTag_temporaryForRefactor.
  rewrite !Onyx_merge_null_after.
  split; [|split; [|split]].
  - intros Hk. by eapply Onyx_merge_null_absent.
  - intros Hk. by eapply Onyx_merge_null_absent.
  - apply has_false. rewrite objLit_singleton, Onyx_merge_obj, doc_insert_eq.
    rewrite (fields_fastMerge_obj {[ "category" := VNull ]}), lookup_singleton_eq.
    reflexivity.
  - apply has_false. rewrite objLit_singleton, Onyx_merge_obj, doc_insert_eq.
    rewrite (fields_fastMerge_obj {[ "tag" := VNull ]}), lookup_singleton_eq.
    reflexivity.
Qed.

Lemma draft_reset_undoes_set_witness :
  let s := Scenario.draftStore in
  resetMoneyRequestCategory_temporaryForRefactor
    (setMoneyRequestCategory_temporaryForRefactor s (VStr "1") (VStr "Meals")) (VStr "1") = s
  /\ get (doc (setMoneyRequestCategory_temporaryForRefactor s (VStr "1") (VStr "Meals"))
            (keyOf TRANSACTION_DRAFT (VStr "1"))) "category" = VStr "Meals".
Proof.
  cbv zeta. split; [|vm_compute; reflexivity].
  refine (proj1 (draft_reset_undoes_set Scenario.draftStore (VStr "1") (VStr "Meals")
                   {[ "amount" := VNum 500 ]} _) _).
  - unfold Scenario.draftStore. rewrite lookup_singleton_eq, objLit_singleton. reflexivity.
  - apply lookup_singleton_ne. str_neq.
Defined.

(* ---------------------------------------------------------------- *)

Section Description.
Context (M : MoreExternals).

(** X8: setting the description of a draft changes [comment.comment] only:
    every other property of the draft and every other property of its
    [comment] (the waypoints of a distance request among them) stays as it
    was, and [comment.comment] is the trimmed text. *)
Theorem description_keeps_the_rest s (transactionID comment : jsval) (f : string) :
  let key := keyOf TRANSACTION_DRAFT transactionID in
  let s' := setMoneyRequestDescription_temporaryForRefactor M s transactionID comment in
  (f ≠ "comment" -> fields (doc s' key) !! f = fields (doc s key) !! f)
  /\ (f ≠ "comment" ->
      fields (get (doc s' key) "comment") !! f = fields (get (doc s key) "comment") !! f)
  /\ (isAtom (String_trim M comment) = true ->
      get (get (doc s' key) "comment") "comment" = String_trim M comment).
Proof.
  cbv zeta. unfold setMoneyRequestDescription_temporaryForRefactor.
  rewrite objLit_singleton, Onyx_merge_obj, doc_insert_eq.
  split; [|split].
  - intros Hf. rewrite (fields_fastMerge_obj {[ "comment" := _ ]}).
    by rewrite lookup_singleton_ne.
  - intros Hf. unfold get at 1.
    rewrite (fields_fastMerge_obj {[ "comment" := _ ]}), lookup_singleton_eq.
    rewrite objLit_singleton. cbn [default from_option id].
    rewrite (fields_fastMerge_obj {[ "comment" := _ ]}).
    by rewrite lookup_singleton_ne.
  - intros Hatom. unfold get at 2.
    rewrite (fields_fastMerge_obj {[ "comment" := _ ]}), lookup_singleton_eq.
    rewrite objLit_singleton. cbn [default from_option id]. unfold get.
    rewrite (fields_fastMerge_obj {[ "comment" := _ ]}), lookup_singleton_eq.
    destruct (String_trim M comment); try discriminate; reflexivity.
Qed.

End Description.

Lemma description_keeps_the_rest_witness :
  let E := Sample.env in
  let M := Scenario.more in
  let started :=
    startMoneyRequest_temporaryForRefactor E M ∅ (VStr "7") (VBool false) (VStr "distance") in
  let described :=
    setMoneyRequestDescription_temporaryForRefactor M started (VStr "1") (VStr "to the airport") in
  has (get (doc described (keyOf TRANSACTION_DRAFT (VStr "1"))) "comment") "waypoints" = true
  /\ fields (get (doc described (keyOf TRANSACTION_DRAFT (VStr "1"))) "comment") !! "waypoints"
     = fields (get (doc started (keyOf TRANSACTION_DRAFT (VStr "1"))) "comment") !! "waypoints"
  /\ get (get (doc described (keyOf TRANSACTION_DRAFT (VStr "1"))) "comment") "comment"
     = VStr "to the airport".
Proof.
  cbv zeta. split; [vm_compute; reflexivity|].
  destruct (description_keeps_the_rest Scenario.more
              (startMoneyRequest_temporaryForRefactor Sample.env Scenario.more ∅ (VStr "7")
                 (VBool false) (VStr "distance"))
              (VStr "1") (VStr "to the airport") "waypoints") as (_ & H2 & H3).
  split; [apply H2; str_neq|apply H3; reflexivity].
Defined.

(* ---------------------------------------------------------------- *)

(** X9: [setMoneyRequestReceipt] writes the draft when [isDraft] is truthy
    and the transaction otherwise, and leaves the other of the two
    documents alone; it sets [receipt.source] and [filename] and keeps
    every other property of the receipt (its state, for one) and of the
    document. *)
Theorem setMoneyRequestReceipt_writes_one_document s
    (transactionID source filename isDraft : jsval) (f : string) :
  let written := if truthy isDraft then TRANSACTION_DRAFT else TRANSACTION in
  let other := if truthy isDraft then TRANSACTION else TRANSACTION_DRAFT in
  let s' := setMoneyRequestReceipt s transactionID source filename isDraft in
  doc s' (keyOf other transactionID) = doc s (keyOf other transactionID)
  /\ (isAtom source = true ->
      get (get (doc s' (keyOf written transactionID)) "receipt") "source" = source)
  /\ (isAtom filename = true -> get (doc s' (keyOf written transactionID)) "filename" = filename)
  /\ (f ≠ "source" ->
      fields (get (doc s' (keyOf written transactionID)) "receipt") !! f
      = fields (get (doc s (keyOf written transactionID)) "receipt") !! f)
  /\ (f ≠ "receipt" -> f ≠ "filename" ->
      fields (doc s' (keyOf written transactionID)) !! f
      = fields (doc s (keyOf written transactionID)) !! f).
Proof.
  cbv zeta. unfold setMoneyRequestReceipt.
  set (written := if truthy isDraft then TRANSACTION_DRAFT else TRANSACTION).
  set (other := if truthy isDraft then TRANSACTION else TRANSACTION_DRAFT).
  assert (Hne : keyOf written transactionID ≠ keyOf other transactionID).
  { apply keyOf_collection_ne. subst written other. destruct (truthy isDraft); discriminate. }
  unfold Onyx_merge. split.
  { apply doc_applyUpdate_ne. exact Hne. }
  rewrite doc_applyUpdate_merge_obj.
  set (old := doc s (keyOf written transactionID)). clearbody old.
  split; [|split; [|split]].
  - intros Hs. rewrite get_fastMerge. lookup_lit. unfold get.
    rewrite (fields_fastMerge_obj (<["source":=source]> ∅)), lookup_insert_eq.
    destruct source; try discriminate; reflexivity.
  - intros Hf. rewrite get_fastMerge. lookup_lit. destruct filename; try discriminate; reflexivity.
  - intros Hf. rewrite get_fastMerge. lookup_lit.
    rewrite (fields_fastMerge_obj (<["source":=source]> ∅)), lookup_insert_ne by congruence.
    by rewrite lookup_empty.
  - intros H1 H2. unfold objLit. rewrite fields_fastMerge_obj. cbn [foldl addPart].
    rewrite !lookup_insert_ne by congruence. by rewrite lookup_empty.
Qed.

Lemma setMoneyRequestReceipt_writes_one_document_witness :
  let s := <[ keyOf TRANSACTION_DRAFT (VStr "1") :=
                objLit [Field "amount" (VNum 500);
                        Field "receipt" (objLit [Field "source" (VStr "old.png");
                                                 Field "state" (VStr "SCANREADY")])] ]>
             (∅ : store) in
  let s' := setMoneyRequestReceipt s (VStr "1") (VStr "") (VStr "") (VBool true) in
  get (get (doc s' (keyOf TRANSACTION_DRAFT (VStr "1"))) "receipt") "source" = VStr ""
  /\ get (get (doc s' (keyOf TRANSACTION_DRAFT (VStr "1"))) "receipt") "state" = VStr "SCANREADY"
  /\ isEmpty (get (doc s' (keyOf TRANSACTION_DRAFT (VStr "1"))) "receipt") = false.
Proof.
  cbv zeta.
  match goal with
  | |- context [setMoneyRequestReceipt ?s _ _ _ _] =>
      destruct (setMoneyRequestReceipt_writes_one_document s (VStr "1") (VStr "") (VStr "")
                  (VBool true) "state") as (_ & H2 & _ & H4 & _)
  end.
  split; [apply H2; reflexivity|]. split; [|vm_compute; reflexivity].
  unfold get at 1. cbn [truthy] in H4. rewrite H4 by str_neq. vm_compute; reflexivity.
Defined.

(* ---------------------------------------------------------------- *)

Section Participants.
Context (E : Externals) (M : MoreExternals).

Lemma participantsOfChat_others chatReport :
  ReportUtils_isPolicyExpenseChat E chatReport = false ->
  participantsOfChat E chatReport
  = VArr (map (fun accountID =>
                 objLit [Field "accountID" accountID; Field "selected" (VBool true)])
            (List.filter
               (fun accountID =>
                  negb (strictEq (get (currentUserPersonalDetails E) "accountID") accountID))
               (items (get chatReport "participantAccountIDs")))).
Proof. intros H. unfold participantsOfChat. by rewrite H. Qed.

(** X10: for a report whose chat is no policy expense chat,
    [setMoneyRequestParticipantsFromReport] stores as participants of the
    draft exactly the members of the chat other than the current user,
    each one selected, and marks them as automatically assigned. *)
Theorem participants_from_report_exclude_current_user s s' (transactionID report : jsval) :
  setMoneyRequestParticipantsFromReport E M s transactionID report = Some s' ->
  let chatReport :=
    if ReportUtils_isMoneyRequestReport M report
    then ReportUtils_getReport E s (get report "chatReportID") else report in
  let currentUserAccountID := get (currentUserPersonalDetails E) "accountID" in
  ReportUtils_isPolicyExpenseChat E chatReport = false ->
  exists participants,
    get (doc s' (keyOf TRANSACTION_DRAFT transactionID)) "participants" = VArr participants
    /\ get (doc s' (keyOf TRANSACTION_DRAFT transactionID)) "participantsAutoAssigned"
       = VBool true
    /\ (forall p, p ∈ participants ->
          strictEq currentUserAccountID (get p "accountID") = false
          /\ get p "selected" = VBool true)
    /\ (forall accountID,
          accountID ∈ items (get chatReport "participantAccountIDs") ->
          strictEq currentUserAccountID accountID = false ->
          exists p, p ∈ participants /\ get p "accountID" = accountID).
Proof.
  intros Hs'. cbv zeta. intros Hpolicy.
  unfold setMoneyRequestParticipantsFromReport in Hs'.
  destruct (deref _) as [chat|] eqn:Hchat; [|discriminate].
  apply deref_Some in Hchat. subst chat. cbn [mbind option_bind] in Hs'.
  injection Hs' as <-.
  rewrite participantsOfChat_others by exact Hpolicy.
  eexists. unfold Onyx_merge. rewrite !get_doc_applyUpdate_merge, !decide_True by reflexivity.
  split; [lookup_lit; reflexivity|]. split; [lookup_lit; reflexivity|]. split.
  - intros p Hp. apply list_elem_of_fmap in Hp as (a & -> & Ha).
    apply list_elem_of_In, filter_In in Ha as [_ Ha].
    split; [|unfold get; lookup_lit; reflexivity].
    apply negb_true_iff in Ha. unfold get at 1. lookup_lit. exact Ha.
  - intros a Ha Hne. eexists. split.
    + apply list_elem_of_fmap. exists a. split; [reflexivity|].
      apply list_elem_of_In, filter_In. split; [by apply list_elem_of_In|].
      by rewrite Hne.
    + unfold get. lookup_lit. reflexivity.
Qed.

End Participants.

Lemma participants_from_report_exclude_current_user_witness :
  let s := Sample.iouStore in
  exists s' participants,
    setMoneyRequestParticipantsFromReport Sample.env Scenario.more s (VStr "1")
      Scenario.groupChat = Some s'
    /\ VNum 1 ∈ items (get Scenario.groupChat "participantAccountIDs")
    /\ get (doc s' (keyOf TRANSACTION_DRAFT (VStr "1"))) "participants" = VArr participants
    /\ forall p, p ∈ participants -> strictEq (VNum 1) (get p "accountID") = false.
Proof.
  cbv zeta.
  destruct (participants_from_report_exclude_current_user Sample.env Scenario.more
              Sample.iouStore _ (VStr "1") Scenario.groupChat eq_refl eq_refl)
    as (l & Hl & _ & Hall & _).
  eexists _, l. split; [reflexivity|]. split.
  { apply list_elem_of_lookup. exists 1. reflexivity. }
  split; [exact Hl|]. intros p Hp. apply (Hall p Hp).
Defined.

(* ---------------------------------------------------------------- *)

Section StartDraft.
Context (E : Externals) (M : MoreExternals).

(** X11: the draft a started request leaves does not depend on what the
    store held before: a property of an earlier draft outside the nine
    that [startMoneyRequest_temporaryForRefactor] writes is gone, the
    amount is 0, the comment has waypoints exactly for a distance request,
    and [clearMoneyRequest] removes the draft. *)
Theorem startMoneyRequest_replaces_the_draft s s'
    (reportID isFromGlobalCreate iouRequestType : jsval) (f : string) :
  let key := keyOf TRANSACTION_DRAFT (CONST_IOU_OPTIMISTIC_TRANSACTION_ID E) in
  let started :=
    startMoneyRequest_temporaryForRefactor E M s reportID isFromGlobalCreate iouRequestType in
  let requestType :=
    match iouRequestType with
    | VUndefined => CONST_IOU_REQUEST_TYPE_MANUAL M
    | _ => iouRequestType
    end in
  doc started key
  = doc (startMoneyRequest_temporaryForRefactor E M s' reportID isFromGlobalCreate
           iouRequestType) key
  /\ (f ∉ ["amount"; "comment"; "created"; "currency"; "iouRequestType"; "reportID";
           "transactionID"; "isFromGlobalCreate"; "merchant"] ->
      has (doc started key) f = false)
  /\ get (doc started key) "amount" = VNum 0
  /\ has (get (doc started key) "comment") "waypoints"
     = strictEq requestType (CONST_IOU_REQUEST_TYPE_DISTANCE E)
  /\ clearMoneyRequest started (CONST_IOU_OPTIMISTIC_TRANSACTION_ID E) !! key = None.
Proof.
  cbv zeta. unfold startMoneyRequest_temporaryForRefactor, clearMoneyRequest, Onyx_set.
  cbv zeta. rewrite !doc_applyUpdate_set_obj.
  split; [reflexivity|]. split; [|split; [|split]].
  - rewrite !not_elem_of_cons. intros (H1 & H2 & H3 & H4 & H5 & H6 & H7 & H8 & H9 & _).
    apply has_false. unfold objLit. cbn [fields foldl addPart].
    rewrite !lookup_insert_ne by congruence. apply lookup_empty.
  - unfold get. lookup_lit. reflexivity.
  - unfold get. lookup_lit. cbn [default from_option id].
    destruct (strictEq _ (CONST_IOU_REQUEST_TYPE_DISTANCE E)); unfold has; lookup_lit;
      reflexivity.
  - apply lookup_applyUpdate_set_null.
Qed.

End StartDraft.

Lemma startMoneyRequest_replaces_the_draft_witness :
  let s := <[ keyOf TRANSACTION_DRAFT (VStr "1") :=
                objLit [Field "amount" (VNum 500);
                        Field "participants" (VArr [VNum 7])] ]> (∅ : store) in
  let started :=
    startMoneyRequest_temporaryForRefactor Sample.env Scenario.more s (VStr "7")
      (VBool false) VUndefined in
  has (doc s (keyOf TRANSACTION_DRAFT (VStr "1"))) "participants" = true
  /\ has (doc started (keyOf TRANSACTION_DRAFT (VStr "1"))) "participants" = false.
Proof.
  cbv zeta. split; [vm_compute; reflexivity|].
  match goal with
  | |- context [startMoneyRequest_temporaryForRefactor _ _ ?s _ _ _] =>
      destruct (startMoneyRequest_replaces_the_draft Sample.env Scenario.more s ∅ (VStr "7")
                  (VBool false) VUndefined "participants") as (_ & H & _)
  end.
  apply H. rewrite !not_elem_of_cons. repeat split; try str_neq. apply not_elem_of_nil.
Defined.

(* ===================================================================== *)
(** * Detaching and replacing a receipt *)

Lemma fields_jsOr_empty v : fields (jsOr v (objLit [])) = fields v.
Proof. unfold jsOr. destruct v as [| | |[]|z|x|l|o]; try reflexivity; cbn.
  - destruct (z =? 0)%Z; reflexivity.
  - destruct (String.eqb x ""); reflexivity.
Qed.

Lemma get_jsOr_empty v f : get (jsOr v (objLit [])) f = get v f.
Proof. unfold get. by rewrite fields_jsOr_empty. Qed.

Lemma jsOr_empty_obj v : exists o, jsOr v (objLit []) = VObj o \/ isAtom (jsOr v (objLit [])) = true.
Proof.
  unfold jsOr. destruct v as [| | |[]|z|x|l|o]; cbn; eauto.
  - destruct (z =? 0)%Z; cbn; eauto. Unshelve. all: exact ∅.
  - destruct (String.eqb x ""); cbn; eauto. Unshelve. all: exact ∅.
Qed.

Section DetachReceipt.
Context (s : store) (transactionID : jsval).

Local Abbreviation key := (keyOf TRANSACTION transactionID).
Local Abbreviation D := (onyxData (detachReceipt s transactionID)).
Local Abbreviation transaction := (doc s key).

(** X12: detaching a receipt leaves the transaction with an empty
    [filename] and an empty [receipt] and every other property as it was;
    the failure patch then gives back every property of the transaction,
    and of its receipt, that held a boolean, number, string or array. *)
Theorem detachReceipt_round_trip (f : string) :
  let s1 := applyUpdates s (optimisticData D) in
  let s3 := applyUpdates s1 (failureData D) in
  (get (doc s1 key) "filename" = VStr ""
   /\ get (doc s1 key) "receipt" = objLit []
   /\ (f ≠ "filename" -> f ≠ "receipt" -> fields (doc s1 key) !! f = fields transaction !! f))
  /\ (isAtom (get transaction f) = true -> get (doc s3 key) f = get transaction f)
  /\ (isAtom (get (get transaction "receipt") f) = true ->
      get (get (doc s3 key) "receipt") f = get (get transaction "receipt") f).
Proof.
  cbv zeta. unfold detachReceipt. cbn [onyxData optimisticData failureData].
  rewrite !applyUpdates_cons, !applyUpdates_nil.
  rewrite doc_applyUpdate_merge, !doc_applyUpdate_set_obj.
  split; [split; [|split]|].
  - unfold get. lookup_lit. reflexivity.
  - unfold get. lookup_lit. reflexivity.
  - intros H1 H2. unfold objLit. cbn [fields foldl addPart].
    rewrite !lookup_insert_ne by congruence.
    rewrite lookup_union, lookup_empty, option_union_None_r. by rewrite fields_jsOr_empty.
  - split.
    + intros Hf. rewrite <- (get_jsOr_empty transaction) in Hf |- *.
      destruct (jsOr transaction (objLit [])) eqn:Hv; try discriminate Hf.
      rewrite <- Hv in *. by apply get_fastMerge_copy.
    + intros Hf. rewrite <- (get_jsOr_empty transaction "receipt") in Hf |- *.
      destruct (jsOr transaction (objLit [])) as [| | | | | | |o] eqn:Hv; try discriminate Hf.
      unfold get at 2. rewrite (fields_fastMerge_obj o).
      unfold get at 2 in Hf. unfold get at 3. cbn [fields] in Hf |- *.
      destruct (o !! "receipt") as [[| | | | | | |r]|] eqn:Hr; try discriminate Hf.
      cbn [default from_option id] in Hf |- *.
      by apply (get_fastMerge_copy (VObj r)).
Qed.

Lemma jsOr_empty_cases v :
  isAtom v = false -> jsOr v (objLit []) = VObj (fields v).
Proof. destruct v; try discriminate; reflexivity. Qed.

(** X13: what a failed detach does not undo (the stored transaction, if
    any, being an object): for a transaction that is not in the store the
    optimistic patch creates a document that the failure patch leaves in
    place, and a transaction that had no [filename] (or no [receipt])
    keeps the empty one. *)
Theorem detachReceipt_failure_leaves_traces :
  isAtom transaction = false ->
  let s3 := applyUpdates (applyUpdates s (optimisticData D)) (failureData D) in
  (s !! key = None ->
   doc s3 key = objLit [Field "filename" (VStr ""); Field "receipt" (objLit [])])
  /\ (has transaction "filename" = false -> get (doc s3 key) "filename" = VStr "")
  /\ (has transaction "receipt" = false -> get (doc s3 key) "receipt" = objLit []).
Proof.
  intros Hobj. cbv zeta. unfold detachReceipt. cbn [onyxData optimisticData failureData].
  rewrite !applyUpdates_cons, !applyUpdates_nil.
  rewrite doc_applyUpdate_merge, !doc_applyUpdate_set_obj.
  rewrite (jsOr_empty_cases _ Hobj).
  set (o := fields transaction).
  assert (Hm : forall a b, exists m, fastMerge (VObj a) b = VObj m).
  { intros a b. unfold fastMerge; fold fastMerge. eauto. }
  split; [|split].
  - intros Hnone.
    assert (Ho : o = ∅) by (subst o; unfold doc; by rewrite Hnone).
    rewrite Ho. unfold objLit. cbn [foldl addPart fields].
    match goal with |- fastMerge (VObj ?a) ?b = _ => destruct (Hm a b) as [m Heq] end.
    rewrite Heq. f_equal. apply map_eq. intros f.
    change (fields (VObj m) !! f
            = fields (VObj (<["receipt":=VObj ∅]> (<["filename":=VStr ""]> ∅))) !! f).
    rewrite <- Heq. rewrite (fields_fastMerge_obj ∅), lookup_empty. cbn [fields].
    by rewrite (left_id_L ∅ (∪)).
  - intros Hf. apply has_false in Hf. fold o in Hf.
    unfold get. rewrite (fields_fastMerge_obj o), Hf. lookup_lit. reflexivity.
  - intros Hf. apply has_false in Hf. fold o in Hf.
    unfold get. rewrite (fields_fastMerge_obj o), Hf. lookup_lit. reflexivity.
Qed.

End DetachReceipt.

Lemma detachReceipt_round_trip_witness :
  let s := Scenario.receiptStore in
  let D := onyxData (detachReceipt s (VStr "300")) in
  let s1 := applyUpdates s (optimisticData D) in
  let s3 := applyUpdates s1 (failureData D) in
  get (doc s (keyOf TRANSACTION (VStr "300"))) "filename" = VStr "old.png"
  /\ get (doc s1 (keyOf TRANSACTION (VStr "300"))) "filename" = VStr ""
  /\ get (doc s3 (keyOf TRANSACTION (VStr "300"))) "filename" = VStr "old.png".
Proof.
  cbv zeta. split; [vm_compute; reflexivity|].
  destruct (detachReceipt_round_trip Scenario.receiptStore (VStr "300") "filename")
    as ((H1 & _) & H2 & _).
  split; [exact H1|]. rewrite H2 by (vm_compute; reflexivity). vm_compute; reflexivity.
Defined.

Lemma detachReceipt_failure_leaves_traces_witness :
  let s := Scenario.receiptStore in
  let D := onyxData (detachReceipt s (VStr "301")) in
  let s3 := applyUpdates (applyUpdates s (optimisticData D)) (failureData D) in
  has (doc s (keyOf TRANSACTION (VStr "301"))) "filename" = false
  /\ get (doc s3 (keyOf TRANSACTION (VStr "301"))) "filename" = VStr "".
Proof.
  cbv zeta. split; [vm_compute; reflexivity|].
  refine (proj1 (proj2 (detachReceipt_failure_leaves_traces Scenario.receiptStore (VStr "301") _)) _);
    vm_compute; reflexivity.
Defined.

Section ReplaceReceipt.
Context (M : MoreExternals) (s : store).
Variables transactionID file source : jsval.

Local Abbreviation key := (keyOf TRANSACTION transactionID).
Local Abbreviation D := (onyxData (replaceReceipt M s transactionID file source)).

(** X14: [replaceReceipt] looks the transaction up under the literal key
    ['transactionID']; when the prefix of the transaction collection is no
    prefix of that word, the failure patch changes nothing, so that after a
    failed replacement the transaction still holds the new receipt source
    and file name. *)
Theorem replaceReceipt_failure_restores_nothing :
  stripPrefix (ONYXKEYS_COLLECTION_TRANSACTION M) "transactionID" = None ->
  isAtom source = true ->
  isAtom (get file "name") = true ->
  let s1 := applyUpdates s (optimisticData D) in
  let s3 := applyUpdates s1 (failureData D) in
  get (get (doc s1 key) "receipt") "source" = source
  /\ get (doc s1 key) "filename" = get file "name"
  /\ doc s3 key = doc s1 key.
Proof.
  intros Hprefix Hsource Hname. cbv zeta.
  unfold replaceReceipt, lodashGet_allTransactions. rewrite Hprefix.
  cbn [onyxData optimisticData failureData].
  rewrite !applyUpdates_cons, !applyUpdates_nil.
  split; [|split].
  - rewrite get_doc_applyUpdate_merge, decide_True by reflexivity. lookup_lit.
    unfold get. rewrite (fields_fastMerge_obj (<["state":=_]> (<["source":=source]> ∅))).
    rewrite lookup_insert_ne by str_neq. rewrite lookup_insert_eq.
    destruct source; try discriminate; reflexivity.
  - rewrite get_doc_applyUpdate_merge, decide_True by reflexivity. lookup_lit.
    destruct (get file "name"); try discriminate; reflexivity.
  - rewrite !doc_applyUpdate_merge_obj. unfold objLit at 1 3.
    apply fastMerge_obj_ext. intros f.
    match goal with |- fields (fastMerge (VObj ?a) ?b) !! _ = _ =>
      rewrite (fields_fastMerge_obj a b f) end.
    cbn [foldl addPart]. unfold lodashGet, get. cbn [fields objLit foldl addPart].
    rewrite !lookup_empty. cbn [default from_option id].
    destruct (decide (f = "filename")) as [->|Hf1].
    { rewrite lookup_insert_eq. reflexivity. }
    rewrite lookup_insert_ne by congruence.
    destruct (decide (f = "receipt")) as [->|Hf2].
    + rewrite lookup_insert_eq.
      unfold objLit. cbn [foldl addPart].
      rewrite (fields_fastMerge_obj _ (doc s key) "receipt").
      rewrite lookup_insert_ne by str_neq. rewrite lookup_insert_eq.
      cbn [default from_option id].
      match goal with |- context [fastMerge (VObj ∅) (fastMerge (VObj ?a) ?b)] =>
        destruct (fastMerge_is_obj a b) as [r Hr]; rewrite Hr end.
      by rewrite fastMerge_empty.
    + rewrite lookup_insert_ne by congruence. by rewrite lookup_empty.
Qed.

End ReplaceReceipt.

Lemma replaceReceipt_failure_restores_nothing_witness :
  let s := Scenario.receiptStore in
  let D := onyxData (replaceReceipt Scenario.more s (VStr "300") Scenario.newFile
                       (VStr "new.png")) in
  let s3 := applyUpdates (applyUpdates s (optimisticData D)) (failureData D) in
  get (doc s (keyOf TRANSACTION (VStr "300"))) "filename" = VStr "old.png"
  /\ get (doc s3 (keyOf TRANSACTION (VStr "300"))) "filename" = VStr "new.png".
Proof.
  cbv zeta. split; [vm_compute; reflexivity|].
  destruct (replaceReceipt_failure_restores_nothing Scenario.more Scenario.receiptStore
              (VStr "300") Scenario.newFile (VStr "new.png") eq_refl eq_refl eq_refl)
    as (_ & H2 & H3).
  rewrite H3, H2. vm_compute; reflexivity.
Defined.

(* ===================================================================== *)
(** * Updating one field of a money request *)

Section UpdateOneField.
Context (E : Externals) (M : MoreExternals) (s : store).
Variables transactionID transactionThreadReportID transactionChanges : jsval.
Variable onlyIncludeChangedFields : bool.

Local Abbreviation transactionThread := (doc s (keyOf REPORT transactionThreadReportID)).
Local Abbreviation transaction := (doc s (keyOf TRANSACTION transactionID)).
Local Abbreviation iouReport :=
  (doc s (keyOf REPORT (get transactionThread "parentReportID"))).
Local Abbreviation updatedTransaction :=
  (TransactionUtils_getUpdatedTransaction E
     [transaction; transactionChanges; VBool (ReportUtils_isExpenseReport E iouReport)]).
Local Abbreviation transactionKey := (keyOf TRANSACTION transactionID).
Local Abbreviation iouKey := (keyOf REPORT (get iouReport "reportID")).
Local Abbreviation data :=
  (getUpdateMoneyRequestParamsData E M s transactionID transactionThreadReportID
     transactionChanges onlyIncludeChangedFields transactionThread iouReport).

Lemma getUpdateMoneyRequestParams_inv r :
  getUpdateMoneyRequestParams E M s transactionID transactionThreadReportID
    transactionChanges onlyIncludeChangedFields = Some r ->
  r = data.
Proof.
  intros Hr. unfold getUpdateMoneyRequestParams in Hr.
  destruct (deref transactionThread) as [tt|] eqn:Htt; [|discriminate].
  apply deref_Some in Htt as ->. cbn [mbind option_bind] in Hr.
  destruct (deref iouReport) as [ir|] eqn:Hir; [|discriminate].
  apply deref_Some in Hir as ->. cbn [mbind option_bind] in Hr.
  by injection Hr as <-.
Qed.

(** The transaction after each of the three patch lists. *)
Lemma update_optimistic_transaction s0 :
  doc (applyUpdates s0 (optimisticData data.2)) transactionKey
  = fastMerge
      (objLit [Spread updatedTransaction;
               Field "pendingFields"
                 (mapObjectConst transactionChanges (CONST_PENDING_ACTION_UPDATE E));
               Field "isLoading" (VBool (has transactionChanges "waypoints"));
               Field "errorFields" VNull])
      (doc s0 transactionKey).
Proof.
  unfold getUpdateMoneyRequestParamsData. cbv zeta. cbn [snd optimisticData].
  rewrite !applyUpdates_app.
  rewrite !(doc_applyUpdates_other_collections _ (spliceIf _ _))
    by (keeps_all; cbn; discriminate).
  rewrite applyUpdates_cons, applyUpdates_nil, doc_applyUpdate_merge_obj.
  rewrite !doc_applyUpdates_other_collections by (keeps_all; cbn; discriminate).
  reflexivity.
Qed.

Lemma update_success_transaction s0 :
  doc (applyUpdates s0 (successData data.2)) transactionKey
  = fastMerge
      (objLit [Field "pendingFields" (mapObjectConst transactionChanges VNull);
               Field "isLoading" (VBool false);
               Field "errorFields" VNull])
      (doc s0 transactionKey).
Proof.
  unfold getUpdateMoneyRequestParamsData. cbv zeta. cbn [snd successData].
  rewrite !applyUpdates_app.
  rewrite !(doc_applyUpdates_other_collections _ (spliceIf _ _))
    by (keeps_all; cbn; discriminate).
  rewrite applyUpdates_cons, applyUpdates_nil, doc_applyUpdate_merge_obj.
  rewrite !doc_applyUpdates_other_collections by (keeps_all; cbn; discriminate).
  reflexivity.
Qed.

Lemma update_failure_transaction s0 :
  exists errorFields,
    (forall k, has transactionChanges k = true -> exists e, errorFields !! k = Some (VObj e))
    /\ doc (applyUpdates s0 (failureData data.2)) transactionKey
       = fastMerge
           (objLit [Field "pendingFields" (mapObjectConst transactionChanges VNull);
                    Field "isLoading" (VBool false);
                    Field "errorFields" (VObj errorFields)])
           (doc s0 transactionKey).
Proof.
  unfold getUpdateMoneyRequestParamsData. cbv zeta. cbn [snd failureData].
  eexists. split; cycle 1.
  - rewrite !applyUpdates_app.
    rewrite applyUpdates_cons, applyUpdates_cons, applyUpdates_nil.
    rewrite doc_applyUpdate_collection_ne by (cbn; discriminate).
    rewrite doc_applyUpdate_merge_obj.
    rewrite !doc_applyUpdates_other_collections by (keeps_all; cbn; discriminate).
    reflexivity.
  - intros k Hk. rewrite map_lookup_imap. unfold mapObjectConst. cbn [fields].
    rewrite lookup_fmap. unfold has in Hk.
    destruct (fields transactionChanges !! k); [|discriminate]. cbn. eauto.
Qed.

Lemma fields_mapObjectConst o v k :
  fields (mapObjectConst o v) !! k = if has o k then Some v else None.
Proof.
  unfold mapObjectConst, has. cbn [fields]. rewrite lookup_fmap.
  destruct (fields o !! k); reflexivity.
Qed.

(** X15: an update built by [getUpdateMoneyRequestParams] marks exactly the
    fields it changes as pending: optimistically each changed field is
    pending as an update; after success or failure it is pending no more,
    and after a failure it carries an error; a field the update does not
    change keeps the pending mark it had; the transaction is not loading
    any more and, after success, has no error fields. *)
Theorem update_marks_changed_fields_pending r (k : string) :
  getUpdateMoneyRequestParams E M s transactionID transactionThreadReportID
    transactionChanges onlyIncludeChangedFields = Some r ->
  isAtom (CONST_PENDING_ACTION_UPDATE E) = true ->
  let s1 := applyUpdates s (optimisticData r.2) in
  let confirmed := doc (applyUpdates s1 (successData r.2)) transactionKey in
  let failed := doc (applyUpdates s1 (failureData r.2)) transactionKey in
  (has transactionChanges k = true ->
   get (get (doc s1 transactionKey) "pendingFields") k = CONST_PENDING_ACTION_UPDATE E
   /\ has (get confirmed "pendingFields") k = false
   /\ has (get failed "pendingFields") k = false
   /\ has (get failed "errorFields") k = true)
  /\ (has transactionChanges k = false ->
      fields (get confirmed "pendingFields") !! k
      = fields (get transaction "pendingFields") !! k
      /\ fields (get failed "pendingFields") !! k
         = fields (get transaction "pendingFields") !! k)
  /\ get confirmed "isLoading" = VBool false
  /\ get failed "isLoading" = VBool false
  /\ has confirmed "errorFields" = false.
Proof.
  intros Hr Hatom. apply getUpdateMoneyRequestParams_inv in Hr as ->. cbv zeta.
  destruct (update_failure_transaction (applyUpdates s (optimisticData data.2)))
    as (errorFields & Herr & Hfail).
  rewrite Hfail, update_success_transaction, update_optimistic_transaction.
  clear Hfail.
  set (opt := objLit [Spread updatedTransaction; _; _; _]).
  assert (Hpf : forall t f,
             fields (get (fastMerge opt t) "pendingFields") !! f
             = if has transactionChanges f then Some (CONST_PENDING_ACTION_UPDATE E)
               else fields (get t "pendingFields") !! f).
  { intros t f. subst opt. rewrite get_fastMerge. lookup_lit.
    unfold mapObjectConst. rewrite fields_fastMerge_obj, lookup_fmap. unfold has.
    destruct (fields transactionChanges !! f); cbn; [|reflexivity].
    destruct (CONST_PENDING_ACTION_UPDATE E); try discriminate; reflexivity. }
  assert (Hcl : forall t x f,
             fields (get (fastMerge
                            (objLit [Field "pendingFields" (mapObjectConst transactionChanges VNull);
                                     Field "isLoading" (VBool false);
                                     Field "errorFields" x]) t) "pendingFields") !! f
             = if has transactionChanges f then None
               else fields (get t "pendingFields") !! f).
  { intros t x f. rewrite get_fastMerge. lookup_lit.
    unfold mapObjectConst at 1. rewrite fields_fastMerge_obj.
    rewrite lookup_fmap. unfold has.
    destruct (fields transactionChanges !! f); reflexivity. }
  split; [|split; [|split; [|split]]].
  - intros Hk. split; [|split; [|split]].
    + unfold get at 1. rewrite Hpf, Hk. reflexivity.
    + apply has_false. rewrite Hcl, Hk. reflexivity.
    + apply has_false. rewrite Hcl, Hk. reflexivity.
    + destruct (Herr k Hk) as [e He]. unfold has. rewrite get_fastMerge. lookup_lit.
      rewrite fields_fastMerge_obj, He. reflexivity.
  - intros Hk. rewrite !Hcl, Hk, Hpf, Hk. split; reflexivity.
  - rewrite get_fastMerge. lookup_lit. reflexivity.
  - rewrite get_fastMerge. lookup_lit. reflexivity.
  - apply has_false. unfold objLit at 1. rewrite fields_fastMerge_obj. lookup_lit. reflexivity.
Qed.

Local Abbreviation updatesReport :=
  (negb (has transactionChanges "waypoints")
   && strictEq (get updatedTransaction "currency") (get iouReport "currency")
   && truthy (get updatedTransaction "modifiedAmount")).


(** X17: for an expense report in the currency of the updated transaction,
    the optimistic patches of an update of the amount add the difference
    between the old and the new amount to the total and store the display
    string of the new total as [cachedTotal]; the failure patches give the
    total back, but a report that had no [cachedTotal] keeps the one of
    the new total. *)
Theorem update_expense_report_total r :
  getUpdateMoneyRequestParams E M s transactionID transactionThreadReportID
    transactionChanges onlyIncludeChangedFields = Some r ->
  ReportUtils_isExpenseReport E iouReport = true ->
  has transactionChanges "waypoints" = false ->
  strictEq (get updatedTransaction "currency") (get iouReport "currency") = true ->
  truthy (get updatedTransaction "modifiedAmount") = true ->
  isAtom (get iouReport "total") = true ->
  let total :=
    jsAdd (get iouReport "total")
      (jsSub (TransactionUtils_getAmount E transaction true)
             (TransactionUtils_getAmount E updatedTransaction true)) in
  let cachedTotal :=
    CurrencyUtils_convertToDisplayString E total (get updatedTransaction "currency") in
  let s1 := applyUpdates s (optimisticData r.2) in
  let s3 := applyUpdates s1 (failureData r.2) in
  get (doc s1 iouKey) "total" = total
  /\ (isAtom cachedTotal = true -> get (doc s1 iouKey) "cachedTotal" = cachedTotal)
  /\ get (doc s3 iouKey) "total" = get iouReport "total"
  /\ (has iouReport "cachedTotal" = false ->
      get (doc s3 iouKey) "cachedTotal" = get (doc s1 iouKey) "cachedTotal").
Proof.
  intros Hr Hexp Hwp Hcur Hmod Htotal.
  apply getUpdateMoneyRequestParams_inv in Hr as ->. cbv zeta.
  set (s1 := applyUpdates s (optimisticData data.2)).
  assert (H1 : doc s1 iouKey
               = fastMerge
                   (setField
                      (setField (objLit [Spread iouReport]) "total"
                         (jsAdd (get iouReport "total")
                            (jsSub (TransactionUtils_getAmount E transaction true)
                                   (TransactionUtils_getAmount E updatedTransaction true))))
                      "cachedTotal"
                      (CurrencyUtils_convertToDisplayString E
                         (jsAdd (get iouReport "total")
                            (jsSub (TransactionUtils_getAmount E transaction true)
                               (TransactionUtils_getAmount E updatedTransaction true)))
                         (get updatedTransaction "currency")))
                   (doc s iouKey)).
  { subst s1. unfold getUpdateMoneyRequestParamsData. cbv zeta. cbn [snd optimisticData].
    rewrite Hwp, Hcur, Hmod, Hexp. cbn [negb andb spliceIf].
    rewrite !applyUpdates_app.
    rewrite !doc_applyUpdates_other_collections by (keeps_all; cbn; discriminate).
    rewrite !applyUpdates_cons, !applyUpdates_nil.
    rewrite doc_applyUpdate_merge. unfold setField at 1.
    rewrite doc_applyUpdate_collection_ne by (cbn; discriminate).
    rewrite get_setField_eq. reflexivity. }
  assert (H3 : doc (applyUpdates s1 (failureData data.2)) iouKey
               = fastMerge iouReport (doc s1 iouKey)).
  { clearbody s1. unfold getUpdateMoneyRequestParamsData. cbv zeta. cbn [snd failureData].
    rewrite !applyUpdates_app, !applyUpdates_cons, applyUpdates_nil.
    rewrite doc_applyUpdate_merge.
    rewrite doc_applyUpdate_collection_ne by (cbn; discriminate).
    rewrite doc_applyUpdates_other_collections by (keeps_all; cbn; discriminate).
    destruct iouReport; try discriminate Htotal; reflexivity. }
  rewrite H3, H1. clear H1 H3. clearbody s1.
  split; [|split; [|split]].
  - unfold setField at 1. unfold get at 1. rewrite fields_fastMerge_obj.
    rewrite lookup_insert_ne by str_neq. cbn [fields setField]. rewrite lookup_insert_eq.
    destruct (TransactionUtils_getAmount E transaction true),
      (TransactionUtils_getAmount E updatedTransaction true), (get iouReport "total");
      reflexivity.
  - intros Hatom. unfold setField at 1. unfold get at 1. rewrite fields_fastMerge_obj.
    rewrite lookup_insert_eq.
    destruct (CurrencyUtils_convertToDisplayString E _ _); try discriminate; reflexivity.
  - by apply get_fastMerge_copy.
  - intros Hhas. apply has_false in Hhas.
    destruct iouReport as [| | | | | | |o]; try discriminate Htotal.
    cbn [fields] in Hhas.
    unfold get at 1. rewrite (fields_fastMerge_obj o), Hhas. reflexivity.
Qed.

End UpdateOneField.

Lemma update_marks_changed_fields_pending_witness :
  let s := Scenario.expenseEditStore in
  exists r,
    getUpdateMoneyRequestParams Sample.env Scenario.more s (VStr "300") (VStr "3")
      Sample.amountChange true = Some r
    /\ let s1 := applyUpdates s (optimisticData r.2) in
       get (get (doc s1 (keyOf TRANSACTION (VStr "300"))) "pendingFields") "amount"
       = VStr "update"
       /\ has (get (doc (applyUpdates s1 (successData r.2)) (keyOf TRANSACTION (VStr "300")))
                 "pendingFields") "amount" = false
       /\ get (get (doc (applyUpdates s1 (successData r.2)) (keyOf TRANSACTION (VStr "300")))
                 "pendingFields") "merchant" = VStr "update".
Proof.
  cbv zeta. eexists. split; [reflexivity|].
  destruct (update_marks_changed_fields_pending Sample.env Scenario.more
              Scenario.expenseEditStore (VStr "300") (VStr "3") Sample.amountChange true
              _ "amount" eq_refl eq_refl) as (Hin & _).
  destruct (Hin eq_refl) as (H1 & H2 & _).
  destruct (update_marks_changed_fields_pending Sample.env Scenario.more
              Scenario.expenseEditStore (VStr "300") (VStr "3") Sample.amountChange true
              _ "merchant" eq_refl eq_refl) as (_ & Hout & _).
  destruct (Hout eq_refl) as (H3 & _).
  split; [exact H1|]. split; [exact H2|].
  unfold get at 1. rewrite H3. vm_compute. reflexivity.
Defined.


Lemma update_expense_report_total_witness :
  let s := Scenario.expenseEditStore in
  exists r,
    getUpdateMoneyRequestParams Sample.env Scenario.more s (VStr "300") (VStr "3")
      Sample.amountChange true = Some r
    /\ let s1 := applyUpdates s (optimisticData r.2) in
       let s3 := applyUpdates s1 (failureData r.2) in
       get (doc s1 (keyOf REPORT (VStr "2"))) "total" = VNum (-1200)
       /\ get (doc s3 (keyOf REPORT (VStr "2"))) "total" = VNum (-1000)
       /\ get (doc s3 (keyOf REPORT (VStr "2"))) "cachedTotal" = VStr "USD -1200".
Proof.
  cbv zeta. eexists. split; [reflexivity|].
  destruct (update_expense_report_total Sample.env Scenario.more
              Scenario.expenseEditStore (VStr "300") (VStr "3") Sample.amountChange true
              _ eq_refl eq_refl eq_refl eq_refl eq_refl eq_refl) as (H1 & H2 & H3 & H4).
  split; [exact H1|]. split; [exact H3|].
  refine (eq_trans (H4 eq_refl) _). exact (H2 eq_refl).
Defined.

Section SingleField.
Context (E : Externals) (M : MoreExternals) (s : store).

Lemma has_pickKeysOf o keys k :
  has (pickKeysOf o keys) k = true -> has keys k = true.
Proof.
  unfold has, pickKeysOf. cbn [fields].
  destruct (filter _ (fields o) !! k) as [v|] eqn:Hv; [|discriminate]. intros _.
  apply map_lookup_filter_Some in Hv as [_ [x Hx]]. cbn in Hx. by rewrite Hx.
Qed.

Lemma has_singleton field v k : has (objLit [Field field v]) k = true -> k = field.
Proof.
  unfold has, objLit. cbn [fields foldl addPart].
  destruct (decide (field = k)) as [->|Hne]; [done|].
  rewrite lookup_insert_ne by exact Hne. by rewrite lookup_empty.
Qed.

Lemma update_params_keys tid thread changes r k :
  getUpdateMoneyRequestParams E M s tid thread changes true = Some r ->
  get r.1 "transactionID" = tid
  /\ (has r.1 k = true ->
      has changes k = true \/ k ∈ ["reportID"; "transactionID"; "reportActionID"])
  /\ (has changes "waypoints" = true -> has changes "reportActionID" = false ->
      has r.1 "reportActionID" = false).
Proof.
  intros Hr. apply getUpdateMoneyRequestParams_inv in Hr as ->.
  unfold getUpdateMoneyRequestParamsData. cbv zeta. cbn [fst].
  set (picked := pickKeysOf _ changes).
  assert (Hp : forall f, has picked f = true -> has changes f = true).
  { intros f. apply has_pickKeysOf. }
  clearbody picked.
  split; [|split].
  - destruct (has changes "waypoints").
    + unfold get. lookup_lit. reflexivity.
    + rewrite get_setField_ne by str_neq. unfold get. lookup_lit. reflexivity.
  - intros Hk.
    destruct (decide (k = "reportActionID")) as [->|H1].
    { right. apply list_elem_of_lookup. exists 2. reflexivity. }
    destruct (decide (k = "transactionID")) as [->|H2].
    { right. apply list_elem_of_lookup. exists 1. reflexivity. }
    destruct (decide (k = "reportID")) as [->|H3].
    { right. apply list_elem_of_lookup. exists 0. reflexivity. }
    left. apply Hp. revert Hk.
    destruct (has changes "waypoints"); unfold has, setField, objLit;
      cbn [fields foldl addPart];
      rewrite !lookup_insert_ne by congruence;
      rewrite lookup_union, lookup_empty, option_union_None_r; done.
  - intros Hwp Hra. rewrite Hwp. apply has_false. unfold objLit. cbn [fields foldl addPart].
    rewrite !lookup_insert_ne by str_neq.
    rewrite lookup_union, lookup_empty, option_union_None_r.
    apply has_false. destruct (has picked "reportActionID") eqn:Hpk; [|reflexivity].
    apply Hp in Hpk. congruence.
Qed.

(** X18: each of the seven updates of a single field (date, billable,
    merchant, tag, distance, category, description) sends the server that
    field and the identifiers [reportID], [transactionID] and
    [reportActionID] only, with the [transactionID] it was called with; an
    update of the waypoints sends no [reportActionID]. *)
Theorem single_field_update_sends_one_field field update
    (transactionID transactionThreadReportID val : jsval) w (k : string) :
  (field, update) ∈ singleFieldUpdates E M ->
  update s transactionID transactionThreadReportID val = Some w ->
  get (parameters w) "transactionID" = transactionID
  /\ (has (parameters w) k = true ->
      k ∈ [field; "reportID"; "transactionID"; "reportActionID"])
  /\ (field = "waypoints" -> has (parameters w) "reportActionID" = false).
Proof.
  intros Hin Hw. unfold singleFieldUpdates in Hin.
  assert (Hr : exists r,
             getUpdateMoneyRequestParams E M s transactionID transactionThreadReportID
               (objLit [Field field val]) true = Some r
             /\ parameters w = r.1).
  { rewrite !elem_of_cons, elem_of_nil in Hin.
    destruct Hin as [Heq|[Heq|[Heq|[Heq|[Heq|[Heq|[Heq|[]]]]]]]];
      injection Heq as -> ->;
      match type of Hw with
      | ?f _ _ _ _ _ _ = _ => unfold f in Hw
      end; cbv zeta in Hw;
      destruct (getUpdateMoneyRequestParams _ _ _ _ _ _ _) as [r|]; try discriminate Hw;
      cbn [mbind option_bind] in Hw; injection Hw as <-; eauto. }
  destruct Hr as (r & Hr & ->).
  destruct (update_params_keys _ _ _ _ k Hr) as (H1 & H2 & H3).
  split; [exact H1|]. split.
  - intros Hk. destruct (H2 Hk) as [Hc|Hc].
    + apply has_singleton in Hc as ->. apply list_elem_of_here.
    + by apply list_elem_of_further.
  - intros ->. apply H3.
    + unfold has. lookup_lit. reflexivity.
    + apply has_false. unfold objLit. cbn [fields foldl addPart].
      rewrite lookup_insert_ne by str_neq. apply lookup_empty.
Qed.

End SingleField.

Lemma single_field_update_sends_one_field_witness :
  exists w,
    updateMoneyRequestMerchant Sample.env Scenario.more Scenario.expenseEditStore
      (VStr "300") (VStr "3") (VStr "Cafe") = Some w
    /\ has (parameters w) "merchant" = true
    /\ has (parameters w) "amount" = false.
Proof.
  eexists. split; [reflexivity|]. split; [vm_compute; reflexivity|].
  match goal with
  | |- has (parameters ?w) _ = false =>
      destruct (single_field_update_sends_one_field Sample.env Scenario.more
                  Scenario.expenseEditStore "merchant"
                  (updateMoneyRequestMerchant Sample.env Scenario.more)
                  (VStr "300") (VStr "3") (VStr "Cafe") w "amount") as (_ & H & _)
  end.
  - apply list_elem_of_lookup. exists 2. reflexivity.
  - reflexivity.
  - destruct (has _ "amount") eqn:Hhas; [|reflexivity]. exfalso.
    specialize (H eq_refl). rewrite !elem_of_cons, elem_of_nil in H.
    destruct H as [H|[H|[H|[H|[]]]]]; revert H; str_neq.
Defined.

(* ===================================================================== *)
(** * The request in progress *)

Section NextPage.
Context (E : Externals) (M : MoreExternals) (s : store) (stored : option jsval).
Variables iou iouType report path : jsval.

Local Abbreviation moneyRequestID :=
  (VStr (toString iouType +:+ toString (jsOr (get report "reportID") (VStr "")))).
Local Abbreviation chatReport :=
  (if ReportUtils_isMoneyRequestReport M report
   then ReportUtils_getReport E s (get report "chatReportID") else report).

(** X19: when the request in progress has the identifier of the page (the
    type followed by the report) and has participants,
    [navigateToNextPage] writes nothing: the document under [ONYXKEYS.IOU]
    is left as it is, whichever route is taken. *)
Theorem navigateToNextPage_keeps_request_in_progress :
  strictEq (get iou "id") moneyRequestID = true ->
  isEmpty (get iou "participants") = false ->
  exists route, navigateToNextPage E M s stored iou iouType report path = Some (stored, route).
Proof.
  intros Hid Hp. unfold navigateToNextPage. cbv zeta. rewrite Hid, Hp. cbn [negb andb orb].
  destruct (strictEq _ (ROUTES_MONEY_REQUEST_RECEIPT_getRoute M _ _)); [eauto|].
  destruct (truthy (get report "reportID")); eauto.
Qed.

Lemma isEmpty_false_truthy v : isEmpty v = false -> truthy v = true.
Proof.
  destruct v as [| | | | |x|l|o]; try discriminate; cbn; [|done..].
  intros ->. reflexivity.
Qed.

Lemma mergeIOU_objLit st ps :
  mergeIOU st (objLit ps) = Some (fastMerge (objLit ps) (default VUndefined st)).
Proof. reflexivity. Qed.

(** X20: when the request in progress has another identifier than the
    page and the report has a non-empty [reportID], [navigateToNextPage]
    starts a new request and goes to the confirmation page: the stored
    request gets the identifier of the page, amount 0, an empty comment,
    category and tag and no [billable], and its participants are those of
    the chat, or none when the page was reached from the receipt route. *)
Theorem navigateToNextPage_starts_new_request stored' route :
  strictEq (get iou "id") moneyRequestID = false ->
  isEmpty (get report "reportID") = false ->
  navigateToNextPage E M s stored iou iouType report path = Some (stored', route) ->
  let request := default VUndefined stored' in
  let cameFromConfirmation :=
    strictEq (String_slice1 (match path with VUndefined => VStr "" | _ => path end))
      (ROUTES_MONEY_REQUEST_RECEIPT_getRoute M iouType (get report "reportID")) in
  is_Some stored'
  /\ route = ROUTES_MONEY_REQUEST_CONFIRMATION_getRoute M iouType (get report "reportID")
  /\ get request "id" = moneyRequestID
  /\ get request "amount" = VNum 0
  /\ get request "comment" = VStr ""
  /\ get request "category" = VStr ""
  /\ get request "tag" = VStr ""
  /\ has request "billable" = false
  /\ get request "participants"
     = if cameFromConfirmation then VArr [] else participantsOfChat E chatReport.
Proof.
  intros Hid Hrep Hnav. cbv zeta.
  unfold navigateToNextPage in Hnav. cbv zeta in Hnav.
  rewrite Hid, Hrep, (isEmpty_false_truthy _ Hrep) in Hnav.
  cbn [negb andb orb] in Hnav. rewrite orb_true_r in Hnav.
  unfold resetMoneyRequestInfo in Hnav. cbv zeta in Hnav.
  rewrite mergeIOU_objLit in Hnav.
  destruct (strictEq _ (ROUTES_MONEY_REQUEST_RECEIPT_getRoute M _ _)).
  - injection Hnav as <- <-. cbn [default from_option id].
    split; [eauto|]. split; [reflexivity|].
    repeat split; try (rewrite get_fastMerge; lookup_lit; reflexivity).
    apply has_false. unfold objLit at 1. rewrite fields_fastMerge_obj. lookup_lit. reflexivity.
  - destruct (deref chatReport) as [chat|] eqn:Hchat; [|discriminate].
    apply deref_Some in Hchat. subst chat. cbn [mbind option_bind] in Hnav.
    unfold setMoneyRequestParticipants, resetMoneyRequestCategory, resetMoneyRequestTag in Hnav.
    rewrite !mergeIOU_objLit in Hnav. cbn [default from_option id] in Hnav.
    injection Hnav as <- <-. cbn [default from_option id].
    split; [eauto|]. split; [reflexivity|].
    assert (Hpart : isAtom (participantsOfChat E chatReport) = true).
    { unfold participantsOfChat. destruct (ReportUtils_isPolicyExpenseChat E _); reflexivity. }
    repeat split; try (merge_lit; reflexivity).
    + apply has_false. unfold objLit. cbn [foldl addPart].
      repeat (rewrite fields_fastMerge_obj; lookup_lit). reflexivity.
    + merge_lit. destruct (participantsOfChat E chatReport); try discriminate Hpart; reflexivity.
Qed.

End NextPage.

Lemma navigateToNextPage_keeps_request_in_progress_witness :
  exists route,
    navigateToNextPage Sample.env Scenario.more Sample.iouStore
      (Some Scenario.requestInProgress) Scenario.requestInProgress (VStr "request")
      Sample.chatWithIOU VUndefined
    = Some (Some Scenario.requestInProgress, route).
Proof.
  apply navigateToNextPage_keeps_request_in_progress; vm_compute; reflexivity.
Defined.

Lemma navigateToNextPage_starts_new_request_witness :
  exists stored' route,
    navigateToNextPage Sample.env Scenario.more Sample.iouStore
      (Some Scenario.requestInProgress) Scenario.requestInProgress (VStr "send")
      Sample.chatWithIOU VUndefined
    = Some (stored', route)
    /\ get (default VUndefined stored') "id" = VStr "send1"
    /\ get (default VUndefined stored') "amount" = VNum 0.
Proof.
  eexists _, _. split; [reflexivity|].
  destruct (navigateToNextPage_starts_new_request Sample.env Scenario.more Sample.iouStore
              (Some Scenario.requestInProgress) Scenario.requestInProgress (VStr "send")
              Sample.chatWithIOU VUndefined _ _ eq_refl eq_refl eq_refl)
    as (_ & _ & H1 & H2 & _).
  split; [exact H1|exact H2].
Defined.

(** X21: [getIOUReportID] never returns [undefined]: it is the [reportID]
    of the route when that is truthy, and the empty string when the route
    has none and the request has no participants. *)
Theorem getIOUReportID_is_defined (iou route : jsval) :
  let routeID := get (get route "params") "reportID" in
  getIOUReportID iou route ≠ VUndefined
  /\ (truthy routeID = true -> getIOUReportID iou route = routeID)
  /\ (truthy routeID = false -> isEmpty (get iou "participants") = true ->
      getIOUReportID iou route = VStr "").
Proof.
  cbv zeta. unfold getIOUReportID, jsOr, lodashGet.
  destruct (truthy (get (get route "params") "reportID")) eqn:Ht.
  - split; [|split]; [|done|done]. intros Heq. rewrite Heq in Ht. discriminate.
  - split; [|split]; [|done|].
    + destruct (get (elementAt _ 0) "reportID"); discriminate.
    + intros _ Hemp.
      destruct (get iou "participants") as [| | | | |x|l|o]; try reflexivity.
      * destruct l; [reflexivity|discriminate].
      * cbn in Hemp. apply bool_decide_eq_true in Hemp as ->. reflexivity.
Qed.

Lemma getIOUReportID_is_defined_witness :
  getIOUReportID Scenario.requestInProgress (objLit [Field "params" (objLit [])]) = VStr ""
  /\ getIOUReportID (objLit [Field "participants" (VArr [])])
       (objLit [Field "params" (objLit [Field "reportID" (VStr "5")])]) = VStr "5".
Proof.
  split; [vm_compute; reflexivity|].
  refine (proj1 (proj2 (getIOUReportID_is_defined _ _)) _). reflexivity.
Defined.

(* ===================================================================== *)
(** * The identifiers a request sends *)

Lemma has_spreadIf_field (b : bool) a x c y :
  has (objLit [SpreadIf b [Field a x]; Field c y]) c = true
  /\ (b = true -> has (objLit [SpreadIf b [Field a x]; Field c y]) a = true).
Proof.
  unfold has. split.
  - lookup_lit. reflexivity.
  - intros ->. unfold objLit, SpreadIf. cbn [fields foldl addPart].
    destruct (decide (c = a)) as [->|Hne].
    + by rewrite lookup_insert_eq.
    + rewrite lookup_insert_ne by exact Hne.
      rewrite lookup_union. cbn [fields objLit foldl addPart].
      by rewrite lookup_insert_eq.
Qed.

Section BuiltIdentifiers.
Context (E : Externals).
Variables chat iou tx createdChat createdIOU action details preview cats tags : jsval.
Variables isNewChat isNewIOU : bool.
Variables policy policyTags policyCategories : jsval.
Variable needs : bool.

Lemma buildOnyxDataForMoneyRequest_writes :
  let opt :=
    optimisticData
      (buildOnyxDataForMoneyRequest E chat iou tx createdChat createdIOU action details
         preview cats tags isNewChat isNewIOU policy policyTags policyCategories needs) in
  writesDocument opt (keyOf REPORT (get chat "reportID"))
  /\ writesDocument opt (keyOf REPORT (get iou "reportID"))
  /\ writesDocument opt (keyOf TRANSACTION (get tx "transactionID"))
  /\ writesEntry opt (keyOf REPORT_ACTIONS (get iou "reportID")) (get action "reportActionID")
  /\ writesEntry opt (keyOf REPORT_ACTIONS (get chat "reportID"))
       (get preview "reportActionID")
  /\ (isNewChat = true ->
      writesEntry opt (keyOf REPORT_ACTIONS (get chat "reportID"))
        (get createdChat "reportActionID"))
  /\ (isNewIOU = true ->
      writesEntry opt (keyOf REPORT_ACTIONS (get iou "reportID"))
        (get createdIOU "reportActionID")).
Proof.
  cbv zeta.
  destruct (buildOnyxDataForMoneyRequest_optimisticData E chat iou tx createdChat createdIOU
              action details preview cats tags isNewChat isNewIOU policy policyTags
              policyCategories needs) as [v ->].
  unfold moneyRequestOptimisticData.
  match goal with
  | |- context [([?a0; ?a1; ?a2; ?a3; ?a4; ?a5] ++ ?l1 ++ ?l2 ++ ?l3) ++ ?l4] =>
      set (u0 := a0); set (u1 := a1); set (u2 := a2); set (u3 := a3); set (u4 := a4);
      assert (Hin : forall i u, [u0; u1; u2; u3; u4; a5] !! i = Some u ->
                                u ∈ ([u0; u1; u2; u3; u4; a5] ++ l1 ++ l2 ++ l3) ++ l4)
  end.
  { intros i u Hi. apply elem_of_app. left. apply elem_of_app. left.
    by eapply list_elem_of_lookup_2. }
  split; [|split; [|split; [|split; [|split; [|split]]]]].
  - exists u0. split; [by apply (Hin 0)|reflexivity].
  - exists u1. split; [by apply (Hin 1)|reflexivity].
  - exists u2. split; [by apply (Hin 2)|reflexivity].
  - exists u4. split; [by apply (Hin 4)|]. split; [reflexivity|].
    subst u4. cbn [value]. apply has_spreadIf_field.
  - exists u3. split; [by apply (Hin 3)|]. split; [reflexivity|].
    subst u3. cbn [value]. apply has_spreadIf_field.
  - intros Hnew. exists u3. split; [by apply (Hin 3)|]. split; [reflexivity|].
    subst u3. cbn [value]. by apply has_spreadIf_field.
  - intros Hnew. exists u4. split; [by apply (Hin 4)|]. split; [reflexivity|].
    subst u4. cbn [value]. by apply has_spreadIf_field.
Qed.

End BuiltIdentifiers.

Section RequestIdentifiers.
Context (E : Externals) (s : store).
Variables report participant comment amount currency created merchant
  payeeAccountID payeeEmail receipt existingTransactionID category tag billable
  policy policyTags policyCategories : jsval.

Local Abbreviation r :=
  (getMoneyRequestInformation E s report participant comment amount currency created
     merchant payeeAccountID payeeEmail receipt existingTransactionID category tag billable
     policy policyTags policyCategories).

Lemma getMoneyRequestInformation_writes :
  let opt := optimisticData (MoneyRequestInformation.onyxData r) in
  let chatID := get (MoneyRequestInformation.chatReport r) "reportID" in
  let iouID := get (MoneyRequestInformation.iouReport r) "reportID" in
  writesDocument opt (keyOf REPORT chatID)
  /\ writesDocument opt (keyOf REPORT iouID)
  /\ writesDocument opt
       (keyOf TRANSACTION (get (MoneyRequestInformation.transaction r) "transactionID"))
  /\ writesEntry opt (keyOf REPORT_ACTIONS iouID)
       (get (MoneyRequestInformation.iouAction r) "reportActionID")
  /\ writesEntry opt (keyOf REPORT_ACTIONS chatID)
       (get (MoneyRequestInformation.reportPreviewAction r) "reportActionID")
  /\ (MoneyRequestInformation.createdChatReportActionID r ≠ VNum 0 ->
      writesEntry opt (keyOf REPORT_ACTIONS chatID)
        (MoneyRequestInformation.createdChatReportActionID r))
  /\ (MoneyRequestInformation.createdIOUReportActionID r ≠ VNum 0 ->
      writesEntry opt (keyOf REPORT_ACTIONS iouID)
        (MoneyRequestInformation.createdIOUReportActionID r)).
Proof.
  cbv zeta.
  destruct (getMoneyRequestInformation_built E s report participant comment amount currency
              created merchant payeeAccountID payeeEmail receipt existingTransactionID
              category tag billable policy policyTags policyCategories)
    as (createdChat & createdIOU & details & cats & tags & isNewChat & isNewIOU & needs
        & -> & -> & ->).
  destruct (buildOnyxDataForMoneyRequest_writes E (MoneyRequestInformation.chatReport r)
              (MoneyRequestInformation.iouReport r) (MoneyRequestInformation.transaction r)
              createdChat createdIOU (MoneyRequestInformation.iouAction r) details
              (MoneyRequestInformation.reportPreviewAction r) cats tags isNewChat isNewIOU
              policy policyTags policyCategories needs)
    as (H1 & H2 & H3 & H4 & H5 & H6 & H7).
  repeat split; try assumption.
  - intros Hne. destruct isNewChat; [by apply H6|done].
  - intros Hne. destruct isNewIOU; [by apply H7|done].
Qed.

End RequestIdentifiers.

Section SentIdentifiers.
Context (E : Externals) (M : MoreExternals) (s : store) (stored : option jsval).

(** X22: the identifiers [requestMoney] and [createDistanceRequest] send
    to the server name what their optimistic patches write: a patch
    writes the chat report, the money report and the transaction under
    the identifiers sent, the money-request action is an entry of the
    report actions of the money report, the preview an entry of those of
    the chat, and so are the created actions whenever their identifier is
    not 0. *)
Theorem request_identifiers_name_what_is_written
    (report amount currency created merchant payeeEmail payeeAccountID participant comment
     receipt category tag taxCode taxAmount billable validWaypoints
     policy policyTags policyCategories : jsval) :
  namesWhatIsWritten
    (apiWrite (requestMoney E M s stored report amount currency created merchant payeeEmail
                 payeeAccountID participant comment receipt category tag taxCode taxAmount
                 billable policy policyTags policyCategories))
  /\ namesWhatIsWritten
       (apiWrite (createDistanceRequest E M s stored report participant comment created
                    category tag amount currency merchant billable validWaypoints
                    policy policyTags policyCategories)).
Proof.
  split.
  - unfold namesWhatIsWritten, requestMoney. cbv zeta. cbn [apiWrite parameters onyxData].
    set (r := getMoneyRequestInformation _ _ _ _ _ _ _ _ _ _ _ _ _ _ _ _ _ _ _).
    replace (get (objLit _) "chatReportID")
      with (get (MoneyRequestInformation.chatReport r) "reportID")
      by (unfold get at 2; lookup_lit; reflexivity).
    replace (get (objLit _) "iouReportID")
      with (get (MoneyRequestInformation.iouReport r) "reportID")
      by (unfold get at 2; lookup_lit; reflexivity).
    replace (get (objLit _) "transactionID")
      with (get (MoneyRequestInformation.transaction r) "transactionID")
      by (unfold get at 2; lookup_lit; reflexivity).
    replace (get (objLit _) "reportActionID")
      with (get (MoneyRequestInformation.iouAction r) "reportActionID")
      by (unfold get at 2; lookup_lit; reflexivity).
    replace (get (objLit _) "reportPreviewReportActionID")
      with (get (MoneyRequestInformation.reportPreviewAction r) "reportActionID")
      by (unfold get at 2; lookup_lit; reflexivity).
    replace (get (objLit _) "createdChatReportActionID")
      with (MoneyRequestInformation.createdChatReportActionID r)
      by (unfold get; lookup_lit; reflexivity).
    replace (get (objLit _) "createdIOUReportActionID")
      with (MoneyRequestInformation.createdIOUReportActionID r)
      by (unfold get; lookup_lit; reflexivity).
    apply getMoneyRequestInformation_writes.
  - unfold namesWhatIsWritten, createDistanceRequest. cbv zeta.
    cbn [apiWrite parameters onyxData].
    set (r := getMoneyRequestInformation _ _ _ _ _ _ _ _ _ _ _ _ _ _ _ _ _ _ _).
    replace (get (objLit _) "chatReportID")
      with (get (MoneyRequestInformation.chatReport r) "reportID")
      by (unfold get at 2; lookup_lit; reflexivity).
    replace (get (objLit _) "iouReportID")
      with (get (MoneyRequestInformation.iouReport r) "reportID")
      by (unfold get at 2; lookup_lit; reflexivity).
    replace (get (objLit _) "transactionID")
      with (get (MoneyRequestInformation.transaction r) "transactionID")
      by (unfold get at 2; lookup_lit; reflexivity).
    replace (get (objLit _) "reportActionID")
      with (get (MoneyRequestInformation.iouAction r) "reportActionID")
      by (unfold get at 2; lookup_lit; reflexivity).
    replace (get (objLit _) "reportPreviewReportActionID")
      with (get (MoneyRequestInformation.reportPreviewAction r) "reportActionID")
      by (unfold get at 2; lookup_lit; reflexivity).
    replace (get (objLit _) "createdChatReportActionID")
      with (MoneyRequestInformation.createdChatReportActionID r)
      by (unfold get; lookup_lit; reflexivity).
    replace (get (objLit _) "createdIOUReportActionID")
      with (MoneyRequestInformation.createdIOUReportActionID r)
      by (unfold get; lookup_lit; reflexivity).
    apply getMoneyRequestInformation_writes.
Qed.

End SentIdentifiers.

(* ===================================================================== *)
(** * Bank account requests *)

Lemma bank_doc_merge_obj (s : BankAccounts.store) k ps :
  BankAccounts.doc
    (BankAccounts.applyUpdate s
       {| BankAccounts.onyxMethod := MERGE; BankAccounts.key := k;
          BankAccounts.value := objLit ps |}) k
  = fastMerge (objLit ps) (BankAccounts.doc s k).
Proof. unfold BankAccounts.applyUpdate, BankAccounts.doc. cbn. by rewrite lookup_insert_eq. Qed.

Lemma bank_doc_other_key (s : BankAccounts.store) u k :
  BankAccounts.key u ≠ k ->
  BankAccounts.doc (BankAccounts.applyUpdate s u) k = BankAccounts.doc s k.
Proof.
  intros Hk. unfold BankAccounts.applyUpdate, BankAccounts.doc.
  destruct (writeValue _ _ _); rewrite ?lookup_insert_ne, ?lookup_delete_ne by done;
    reflexivity.
Qed.

Lemma bank_applyUpdates_singleton (s : BankAccounts.store) u :
  BankAccounts.applyUpdates s [u] = BankAccounts.applyUpdate s u.
Proof. reflexivity. Qed.

Lemma bank_applyUpdates_nil (s : BankAccounts.store) : BankAccounts.applyUpdates s [] = s.
Proof. reflexivity. Qed.

Section BankAccountRequests.
Import BankAccounts.
Context (E : Externals) (M : MoreExternals) (C : Constants) (s : store).

(** X23: each of the nine requests that set up a verified business bank
    account or load the reimbursement account turns the loading flag of
    the reimbursement account on optimistically and off again on success
    and on failure, and writes no other document. *)
Theorem reimbursement_account_loading_is_cleared (a b c d : jsval) request (k : onyxKey) :
  request ∈ reimbursementAccountRequests E M C a b c d ->
  let D := onyxData request in
  let s1 := applyUpdates s (optimisticData D) in
  let s2 := applyUpdates s1 (successData D) in
  let s3 := applyUpdates s1 (failureData D) in
  get (doc s1 REIMBURSEMENT_ACCOUNT) "isLoading" = VBool true
  /\ get (doc s2 REIMBURSEMENT_ACCOUNT) "isLoading" = VBool false
  /\ get (doc s3 REIMBURSEMENT_ACCOUNT) "isLoading" = VBool false
  /\ (k ≠ REIMBURSEMENT_ACCOUNT ->
      doc s1 k = doc s k /\ doc s2 k = doc s k /\ doc s3 k = doc s k).
Proof.
  intros Hin. unfold reimbursementAccountRequests in Hin.
  rewrite !elem_of_cons, elem_of_nil in Hin. cbv zeta.
  destruct Hin as [->|[->|[->|[->|[->|[->|[->|[->|[->|[]]]]]]]]]];
    cbn [onyxData connectBankAccountWithPlaid updatePersonalInformationForBankAccount
           validateBankAccount openReimbursementAccountPage
           updateCompanyInformationForBankAccount updateBeneficialOwnersForBankAccount
           connectBankAccountManually verifyIdentityForBankAccount openWorkspaceView
           getVBBADataForOnyx optimisticData successData failureData];
    rewrite !bank_applyUpdates_singleton;
    (split; [|split; [|split]];
     [ rewrite bank_doc_merge_obj; merge_lit; reflexivity
     | rewrite bank_doc_merge_obj; merge_lit; reflexivity
     | rewrite bank_doc_merge_obj; merge_lit; reflexivity
     | intros Hk; rewrite !bank_doc_other_key by (cbn [key]; congruence); done ]).
Qed.

(** X24: a setup step of the bank account clears the errors of the
    reimbursement account while the request is pending and after success;
    on success it stores the step as [draftStep], and leaves the stored
    [draftStep] alone when it was called without a step; on failure the
    error of [ErrorUtils.getMicroSecondOnyxError] is stored as [errors]. *)
Theorem setup_step_errors_and_draft_step (currentStep : jsval) :
  let D := getVBBADataForOnyx E currentStep in
  let s1 := applyUpdates s (optimisticData D) in
  let s2 := applyUpdates s1 (successData D) in
  let s3 := applyUpdates s1 (failureData D) in
  has (doc s1 REIMBURSEMENT_ACCOUNT) "errors" = false
  /\ has (doc s2 REIMBURSEMENT_ACCOUNT) "errors" = false
  /\ (currentStep = VUndefined ->
      fields (doc s2 REIMBURSEMENT_ACCOUNT) !! "draftStep"
      = fields (doc s REIMBURSEMENT_ACCOUNT) !! "draftStep")
  /\ (isAtom currentStep = true -> get (doc s2 REIMBURSEMENT_ACCOUNT) "draftStep" = currentStep)
  /\ (forall e, ErrorUtils_getMicroSecondOnyxError E (VStr "walletPage.addBankAccountFailure")
                = VObj e ->
      exists e', get (doc s3 REIMBURSEMENT_ACCOUNT) "errors" = VObj e'
                 /\ forall f v, e !! f = Some v -> isAtom v = true -> e' !! f = Some v).
Proof.
  cbv zeta. unfold getVBBADataForOnyx. cbn [optimisticData successData failureData].
  rewrite !bank_applyUpdates_singleton, !bank_doc_merge_obj.
  split; [|split; [|split; [|split]]].
  - apply has_false. unfold objLit. cbn [foldl addPart].
    rewrite fields_fastMerge_obj. lookup_lit. reflexivity.
  - apply has_false. unfold objLit. cbn [foldl addPart].
    rewrite fields_fastMerge_obj. lookup_lit. reflexivity.
  - intros ->. unfold objLit. cbn [foldl addPart].
    rewrite fields_fastMerge_obj. lookup_lit.
    rewrite fields_fastMerge_obj. lookup_lit. reflexivity.
  - intros Hstep. merge_lit. destruct currentStep; try discriminate; reflexivity.
  - intros e He. rewrite He. merge_lit.
    destruct (fastMerge_is_obj e VUndefined) as [e' He']. rewrite He'.
    exists e'. split; [reflexivity|]. intros f v Hf Hv.
    change (fields (VObj e') !! f = Some v). rewrite <- He'.
    rewrite fields_fastMerge_obj, Hf. destruct v; try discriminate; reflexivity.
Qed.

(** X25: deleting a payment bank account marks that account as pending
    deletion and keeps its other properties; success removes the account
    from the list; there is no failure data, so after a failure the
    account stays marked; the other accounts of the list are untouched
    throughout. *)
Theorem deletePaymentBankAccount_marks_then_removes (bankAccountID : jsval) (other f : string) :
  isAtom (CONST_PENDING_ACTION_DELETE E) = true ->
  let D := onyxData (deletePaymentBankAccount E bankAccountID) in
  let id := toString bankAccountID in
  let s1 := applyUpdates s (optimisticData D) in
  let s2 := applyUpdates s1 (successData D) in
  let s3 := applyUpdates s1 (failureData D) in
  get (get (doc s1 BANK_ACCOUNT_LIST) id) "pendingAction" = CONST_PENDING_ACTION_DELETE E
  /\ (f ≠ "pendingAction" ->
      fields (get (doc s1 BANK_ACCOUNT_LIST) id) !! f
      = fields (get (doc s BANK_ACCOUNT_LIST) id) !! f)
  /\ has (doc s2 BANK_ACCOUNT_LIST) id = false
  /\ s3 = s1
  /\ (other ≠ id ->
      fields (doc s1 BANK_ACCOUNT_LIST) !! other = fields (doc s BANK_ACCOUNT_LIST) !! other
      /\ fields (doc s2 BANK_ACCOUNT_LIST) !! other = fields (doc s BANK_ACCOUNT_LIST) !! other).
Proof.
  intros Hdel. cbv zeta. unfold deletePaymentBankAccount.
  cbn [onyxData optimisticData successData failureData].
  rewrite bank_applyUpdates_nil, !bank_applyUpdates_singleton, !bank_doc_merge_obj.
  rewrite !objLit_singleton.
  split; [|split; [|split; [|split]]].
  - unfold get at 2. rewrite (fields_fastMerge_obj {[ _ := _ ]}), lookup_singleton_eq.
    cbn [default from_option id]. rewrite get_fastMerge_VObj, lookup_singleton_eq.
    destruct (CONST_PENDING_ACTION_DELETE E); try discriminate; reflexivity.
  - intros Hf. unfold get at 1. rewrite (fields_fastMerge_obj {[ _ := _ ]}), lookup_singleton_eq.
    cbn [default from_option id]. rewrite (fields_fastMerge_obj {[ _ := _ ]}).
    by rewrite lookup_singleton_ne.
  - apply has_false. rewrite (fields_fastMerge_obj {[ _ := VNull ]}), lookup_singleton_eq.
    reflexivity.
  - reflexivity.
  - intros Hother. split.
    + rewrite (fields_fastMerge_obj {[ _ := _ ]}). by rewrite lookup_singleton_ne.
    + rewrite (fields_fastMerge_obj {[ _ := VNull ]}), lookup_singleton_ne by done.
      rewrite (fields_fastMerge_obj {[ _ := _ ]}). by rewrite lookup_singleton_ne.
Qed.

End BankAccountRequests.

Section PersonalBankAccount.
Import BankAccounts.
Context (E : Externals) (s : store) (account : jsval).

(** X26: adding a personal bank account turns the loading flag on, clears
    the errors and records the selected Plaid account; success turns the
    flag off and shows the success screen; failure turns the flag off,
    stores the error, keeps the selected Plaid account and does not touch
    [shouldShowSuccess]. *)
Theorem addPersonalBankAccount_round_trip (e : gmap string jsval) :
  isAtom (get account "plaidAccountID") = true ->
  ErrorUtils_getMicroSecondOnyxError E (VStr "walletPage.addBankAccountFailure") = VObj e ->
  let D := onyxData (addPersonalBankAccount E account) in
  let s1 := applyUpdates s (optimisticData D) in
  let s2 := applyUpdates s1 (successData D) in
  let s3 := applyUpdates s1 (failureData D) in
  (get (doc s1 PERSONAL_BANK_ACCOUNT) "isLoading" = VBool true
   /\ has (doc s1 PERSONAL_BANK_ACCOUNT) "errors" = false
   /\ get (doc s1 PERSONAL_BANK_ACCOUNT) "plaidAccountID" = get account "plaidAccountID")
  /\ (get (doc s2 PERSONAL_BANK_ACCOUNT) "isLoading" = VBool false
      /\ get (doc s2 PERSONAL_BANK_ACCOUNT) "shouldShowSuccess" = VBool true
      /\ has (doc s2 PERSONAL_BANK_ACCOUNT) "errors" = false)
  /\ (get (doc s3 PERSONAL_BANK_ACCOUNT) "isLoading" = VBool false
      /\ has (doc s3 PERSONAL_BANK_ACCOUNT) "errors" = true
      /\ get (doc s3 PERSONAL_BANK_ACCOUNT) "plaidAccountID" = get account "plaidAccountID"
      /\ fields (doc s3 PERSONAL_BANK_ACCOUNT) !! "shouldShowSuccess"
         = fields (doc s PERSONAL_BANK_ACCOUNT) !! "shouldShowSuccess").
Proof.
  intros Hplaid He. cbv zeta. unfold addPersonalBankAccount.
  cbn [onyxData optimisticData successData failureData].
  rewrite !bank_applyUpdates_singleton, !bank_doc_merge_obj. rewrite He.
  assert (Hp : forall t, get (fastMerge
                                (objLit [Field "isLoading" (VBool true); Field "errors" VNull;
                                         Field "plaidAccountID" (get account "plaidAccountID")])
                                t) "plaidAccountID" = get account "plaidAccountID").
  { intros t. merge_lit. destruct (get account "plaidAccountID"); try discriminate; reflexivity. }
  split; [|split]; repeat split; try (merge_lit; reflexivity).
  - apply has_false. unfold objLit. cbn [foldl addPart].
    rewrite fields_fastMerge_obj. lookup_lit. reflexivity.
  - apply Hp.
  - apply has_false. unfold objLit. cbn [foldl addPart].
    rewrite fields_fastMerge_obj. lookup_lit. reflexivity.
  - unfold has, objLit. cbn [foldl addPart]. rewrite fields_fastMerge_obj. lookup_lit.
    reflexivity.
  - rewrite get_fastMerge. lookup_lit. apply Hp.
  - unfold objLit. cbn [foldl addPart].
    rewrite fields_fastMerge_obj. lookup_lit. rewrite fields_fastMerge_obj. lookup_lit.
    reflexivity.
Qed.

End PersonalBankAccount.

Lemma addPersonalBankAccount_round_trip_witness :
  let D := BankAccounts.onyxData
             (BankAccounts.addPersonalBankAccount Sample.env
                (objLit [Field "plaidAccountID" (VStr "plaid-1")])) in
  let s1 := BankAccounts.applyUpdates Scenario.bankStore (BankAccounts.optimisticData D) in
  let s3 := BankAccounts.applyUpdates s1 (BankAccounts.failureData D) in
  get (BankAccounts.doc s1 BankAccounts.PERSONAL_BANK_ACCOUNT) "isLoading" = VBool true
  /\ get (BankAccounts.doc s3 BankAccounts.PERSONAL_BANK_ACCOUNT) "isLoading" = VBool false
  /\ has (BankAccounts.doc s3 BankAccounts.PERSONAL_BANK_ACCOUNT) "errors" = true.
Proof.
  cbv zeta.
  destruct (addPersonalBankAccount_round_trip Sample.env Scenario.bankStore
              (objLit [Field "plaidAccountID" (VStr "plaid-1")])
              (fields (ErrorUtils_getMicroSecondOnyxError Sample.env
                         (VStr "walletPage.addBankAccountFailure")))
              eq_refl eq_refl) as ((H1 & _) & _ & (H3 & H4 & _)).
  split; [exact H1|]. split; [exact H3|exact H4].
Defined.

Lemma reimbursement_account_loading_is_cleared_witness :
  let request :=
    BankAccounts.validateBankAccount (VNum 11) (VStr "123456") in
  let D := BankAccounts.onyxData request in
  let s1 := BankAccounts.applyUpdates Scenario.bankStore (BankAccounts.optimisticData D) in
  get (BankAccounts.doc s1 BankAccounts.REIMBURSEMENT_ACCOUNT) "isLoading" = VBool true
  /\ get (BankAccounts.doc (BankAccounts.applyUpdates s1 (BankAccounts.failureData D))
            BankAccounts.REIMBURSEMENT_ACCOUNT) "isLoading" = VBool false.
Proof.
  cbv zeta.
  destruct (reimbursement_account_loading_is_cleared Sample.env Scenario.more
              Scenario.bankConstants Scenario.bankStore (VNum 11) (VStr "123456")
              VUndefined VUndefined
              (BankAccounts.validateBankAccount (VNum 11) (VStr "123456"))
              BankAccounts.BANK_ACCOUNT_LIST) as (H1 & _ & H3 & _).
  - apply list_elem_of_lookup. exists 2. reflexivity.
  - split; [exact H1|exact H3].
Defined.

Lemma setup_step_errors_and_draft_step_witness :
  let D := BankAccounts.getVBBADataForOnyx Sample.env VUndefined in
  let s1 := BankAccounts.applyUpdates Scenario.bankStore (BankAccounts.optimisticData D) in
  let s2 := BankAccounts.applyUpdates s1 (BankAccounts.successData D) in
  has (BankAccounts.doc Scenario.bankStore BankAccounts.REIMBURSEMENT_ACCOUNT) "errors" = true
  /\ has (BankAccounts.doc s1 BankAccounts.REIMBURSEMENT_ACCOUNT) "errors" = false
  /\ get (BankAccounts.doc s2 BankAccounts.REIMBURSEMENT_ACCOUNT) "draftStep"
     = VStr "CompanyStep".
Proof.
  cbv zeta. split; [vm_compute; reflexivity|].
  destruct (setup_step_errors_and_draft_step Sample.env Scenario.bankStore VUndefined)
    as (H1 & _ & H3 & _).
  split; [exact H1|]. unfold get. rewrite (H3 eq_refl). vm_compute. reflexivity.
Defined.

Lemma deletePaymentBankAccount_marks_then_removes_witness :
  let D := BankAccounts.onyxData (BankAccounts.deletePaymentBankAccount Sample.env (VNum 11)) in
  let s1 := BankAccounts.applyUpdates Scenario.bankStore (BankAccounts.optimisticData D) in
  let s2 := BankAccounts.applyUpdates s1 (BankAccounts.successData D) in
  get (get (BankAccounts.doc s1 BankAccounts.BANK_ACCOUNT_LIST) "11") "pendingAction"
  = VStr "delete"
  /\ has (BankAccounts.doc s2 BankAccounts.BANK_ACCOUNT_LIST) "11" = false
  /\ has (BankAccounts.doc s2 BankAccounts.BANK_ACCOUNT_LIST) "12" = true.
Proof.
  cbv zeta.
  destruct (deletePaymentBankAccount_marks_then_removes Sample.env Scenario.bankStore
              (VNum 11) "12" "title" eq_refl) as (H1 & _ & H3 & _ & H5).
  split; [exact H1|]. split; [exact H3|].
  unfold has. rewrite (proj2 (H5 ltac:(vm_compute; str_neq))). vm_compute. reflexivity.
Defined.

(* ===================================================================== *)
(** * Paying a money request *)

Lemma payment_applyUpdates_cons st u us :
  Payment.applyUpdates st (u :: us) = Payment.applyUpdates (Payment.applyUpdate st u) us.
Proof. reflexivity. Qed.

Lemma payment_applyUpdates_app st us vs :
  Payment.applyUpdates st (us ++ vs) = Payment.applyUpdates (Payment.applyUpdates st us) vs.
Proof. apply foldl_app. Qed.

Lemma payment_collections st us :
  (Payment.applyUpdates st us).1 = applyUpdates st.1 (collectionPatches us).
Proof.
  revert st. induction us as [|u us IH]; intros st; [reflexivity|].
  rewrite payment_applyUpdates_cons, IH. destruct u; reflexivity.
Qed.

Lemma payment_lastPaymentMethod_kept st us :
  Forall (fun u => match u with Payment.OnCollections _ => True | _ => False end) us ->
  (Payment.applyUpdates st us).2 = st.2.
Proof.
  intros H. revert st. induction H as [|u us Hu _ IH]; intros st; [reflexivity|].
  rewrite payment_applyUpdates_cons, IH. destruct u; [reflexivity|done].
Qed.

Lemma collectionPatches_collections u us :
  collectionPatches (Payment.OnCollections u :: us) = u :: collectionPatches us.
Proof. reflexivity. Qed.

Lemma collectionPatches_other m v us :
  collectionPatches (Payment.OnLastPaymentMethod m v :: us) = collectionPatches us.
Proof. reflexivity. Qed.

Lemma collectionPatches_nil : collectionPatches [] = [].
Proof. reflexivity. Qed.

Lemma collectionPatches_app us vs :
  collectionPatches (us ++ vs) = collectionPatches us ++ collectionPatches vs.
Proof. apply omap_app. Qed.

Ltac payment_patches :=
  repeat first
    [ rewrite collectionPatches_app
    | rewrite collectionPatches_collections
    | rewrite collectionPatches_other
    | rewrite collectionPatches_nil ].

Section PayMoneyRequest.
Context (E : Externals) (M : MoreExternals) (s : store) (lastPaymentMethods : option jsval).
Variables paymentType chatReport iouReport : jsval.

Local Abbreviation D :=
  (Payment.onyxData (Payment.payMoneyRequest E M s paymentType chatReport iouReport).1).
Local Abbreviation chatKey := (keyOf REPORT (get chatReport "reportID")).
Local Abbreviation iouKey := (keyOf REPORT (get iouReport "reportID")).
Local Abbreviation paid :=
  (Payment.applyUpdates (s, lastPaymentMethods) (Payment.optimisticData D)).
Local Abbreviation failed := (Payment.applyUpdates paid (Payment.failureData D)).
Local Abbreviation confirmed := (Payment.applyUpdates paid (Payment.successData D)).

(** X27: paying a money request marks the money report as reimbursed and
    takes the link to it ([iouReportID]) and the outstanding-request flag
    off the chat; the failure patches give both reports back every
    property that held a boolean, number, string or array, the status and
    the link among them.  (The chat is stored under another [reportID]
    than the money report.) *)
Theorem pay_failure_restores_reports (f : string) :
  toString (get chatReport "reportID") ≠ toString (get iouReport "reportID") ->
  isAtom (CONST_REPORT_STATUS_NUM_REIMBURSED M) = true ->
  (get (doc paid.1 iouKey) "statusNum" = CONST_REPORT_STATUS_NUM_REIMBURSED M
   /\ has (doc paid.1 chatKey) "iouReportID" = false
   /\ get (doc paid.1 chatKey) "hasOutstandingChildRequest" = VBool false)
  /\ (isAtom (get iouReport f) = true -> get (doc failed.1 iouKey) f = get iouReport f)
  /\ (isAtom (get chatReport f) = true -> get (doc failed.1 chatKey) f = get chatReport f).
Proof.
  intros Hne Hstatus.
  assert (Hk : iouKey ≠ chatKey) by (apply keyOf_ne; congruence).
  assert (Hk' : chatKey ≠ iouKey) by congruence.
  rewrite !payment_collections. cbn [fst].
  unfold Payment.payMoneyRequest, Payment.getPayMoneyRequestParams. cbv zeta.
  cbn [fst snd Payment.onyxData Payment.optimisticData Payment.failureData].
  set (b1 := negb (isNull _)). set (b2 := truthy (if truthy _ then _ else VNull)).
  clearbody b1 b2.
  payment_patches.
  set (s1 := applyUpdates s _).
  split; [|split].
  - subst s1. rewrite !applyUpdates_app.
    rewrite !(doc_applyUpdates_other_collections _ (collectionPatches (spliceIf _ _)))
      by (destruct b1, b2; cbn [spliceIf]; payment_patches; keeps_all; cbn; discriminate).
    rewrite !applyUpdates_cons, applyUpdates_nil.
    split; [|split].
    + rewrite get_doc_applyUpdate_merge, decide_True by reflexivity. lookup_lit.
      destruct (CONST_REPORT_STATUS_NUM_REIMBURSED M); try discriminate; reflexivity.
    + rewrite doc_applyUpdate_ne by exact Hk.
      rewrite (doc_applyUpdate_collection_ne _ _ REPORT) by (cbn; discriminate).
      rewrite doc_applyUpdate_merge_obj. apply has_false.
      unfold objLit at 1. rewrite fields_fastMerge_obj. lookup_lit. reflexivity.
    + rewrite doc_applyUpdate_ne by exact Hk.
      rewrite (doc_applyUpdate_collection_ne _ _ REPORT) by (cbn; discriminate).
      rewrite get_doc_applyUpdate_merge, decide_True by reflexivity. lookup_lit. reflexivity.
  - intros Hf. clearbody s1. rewrite !applyUpdates_app.
    rewrite !(doc_applyUpdates_other_collections _ (collectionPatches (spliceIf _ _)))
      by (destruct b1, b2; cbn [spliceIf]; payment_patches; keeps_all; cbn; discriminate).
    rewrite !applyUpdates_cons, applyUpdates_nil.
    rewrite doc_applyUpdate_ne by exact Hk'. rewrite doc_applyUpdate_merge.
    destruct iouReport eqn:Hi; try discriminate Hf.
    rewrite <- Hi in *. by apply get_fastMerge_copy.
  - intros Hf. clearbody s1. rewrite !applyUpdates_app.
    rewrite !(doc_applyUpdates_other_collections _ (collectionPatches (spliceIf _ _)))
      by (destruct b1, b2; cbn [spliceIf]; payment_patches; keeps_all; cbn; discriminate).
    rewrite !applyUpdates_cons, applyUpdates_nil.
    rewrite doc_applyUpdate_merge.
    destruct chatReport eqn:Hi; try discriminate Hf.
    rewrite <- Hi in *. by apply get_fastMerge_copy.
Qed.

(** X28: a payment records its method as the last payment method of the
    policy of the report, and neither the success nor the failure patches
    write the last payment methods: a failed payment leaves the method
    recorded. *)
Theorem pay_remembers_payment_method :
  isAtom paymentType = true ->
  get (default VUndefined paid.2) (toString (get iouReport "policyID")) = paymentType
  /\ failed.2 = paid.2
  /\ confirmed.2 = paid.2.
Proof.
  intros Hp.
  unfold Payment.payMoneyRequest, Payment.getPayMoneyRequestParams. cbv zeta.
  cbn [fst snd Payment.onyxData Payment.optimisticData Payment.failureData
         Payment.successData].
  set (b1 := negb (isNull _)). set (b2 := truthy (if truthy _ then _ else VNull)).
  clearbody b1 b2.
  split; [|split].
  - rewrite !payment_applyUpdates_app.
    rewrite !(payment_lastPaymentMethod_kept _ (spliceIf _ _))
      by (destruct b1, b2; cbn [spliceIf]; keeps_all; exact I).
    rewrite !payment_applyUpdates_cons. cbn [Payment.applyUpdates foldl Payment.applyUpdate snd
      writeValue].
    rewrite objLit_singleton. cbn [default from_option id].
    rewrite get_fastMerge_VObj, lookup_singleton_eq.
    destruct paymentType; try discriminate; reflexivity.
  - apply payment_lastPaymentMethod_kept. destruct b1, b2; cbn [spliceIf]; keeps_all; exact I.
  - apply payment_lastPaymentMethod_kept. keeps_all; exact I.
Qed.

End PayMoneyRequest.

Lemma pay_failure_restores_reports_witness :
  let s := Sample.expenseStore "USD" in
  let D := Payment.onyxData
             (Payment.payMoneyRequest Sample.env Scenario.more s (VStr "Elsewhere")
                Sample.expenseChat (Sample.openExpenseReport "USD")).1 in
  let paid := Payment.applyUpdates (s, None) (Payment.optimisticData D) in
  let failed := Payment.applyUpdates paid (Payment.failureData D) in
  get (doc paid.1 (keyOf REPORT (VStr "2"))) "statusNum" = VNum 4
  /\ has (doc paid.1 (keyOf REPORT (VStr "1"))) "iouReportID" = false
  /\ get (doc failed.1 (keyOf REPORT (VStr "2"))) "statusNum" = VNum 0
  /\ get (doc failed.1 (keyOf REPORT (VStr "1"))) "iouReportID" = VStr "2".
Proof.
  cbv zeta.
  assert (Hne : toString (get Sample.expenseChat "reportID")
                ≠ toString (get (Sample.openExpenseReport "USD") "reportID"))
    by (vm_compute; str_neq).
  destruct (pay_failure_restores_reports Sample.env Scenario.more
              (Sample.expenseStore "USD") None (VStr "Elsewhere") Sample.expenseChat
              (Sample.openExpenseReport "USD") "statusNum" Hne eq_refl)
    as ((H1 & H2 & _) & H3 & _).
  destruct (pay_failure_restores_reports Sample.env Scenario.more
              (Sample.expenseStore "USD") None (VStr "Elsewhere") Sample.expenseChat
              (Sample.openExpenseReport "USD") "iouReportID" Hne eq_refl)
    as (_ & _ & H4).
  split; [exact H1|]. split; [exact H2|]. split; [exact (H3 eq_refl)|exact (H4 eq_refl)].
Defined.

Lemma pay_remembers_payment_method_witness :
  let s := Sample.expenseStore "USD" in
  let D := Payment.onyxData
             (Payment.payMoneyRequest Sample.env Scenario.more s (VStr "Elsewhere")
                Sample.expenseChat (Sample.openExpenseReport "USD")).1 in
  let paid := Payment.applyUpdates (s, None) (Payment.optimisticData D) in
  let failed := Payment.applyUpdates paid (Payment.failureData D) in
  get (default VUndefined failed.2) "P" = VStr "Elsewhere".
Proof.
  cbv zeta.
  destruct (pay_remembers_payment_method Sample.env Scenario.more
              (Sample.expenseStore "USD") None (VStr "Elsewhere") Sample.expenseChat
              (Sample.openExpenseReport "USD") eq_refl) as (H1 & H2 & _).
  rewrite H2. exact H1.
Defined.
